(** * EdgeTier ROI model: the estimation engines

    The repository holds three copies of one React component,
    [EdgeTierRoiSimple], each with its own [results] closure:

    - the 7-step banded wizard        (module [Banded]),
    - the 3-step direct-numeric form  (module [Direct]),
    - the 6-step richer banded wizard (module [Richer]).

    Each closure is transcribed below as a chain of [let]s that keeps the
    names and the order of the source.  The closures are written once
    against the JavaScript number operations they use (class [JsNumber]),
    and run on its instance [binary64]: IEEE-754 double precision, the
    arithmetic the code runs on, given by the primitive floats (round to
    nearest, ties to even).  Their executable specification [SpecFloat]
    is used for parsing decimal text and for the general facts about the
    operations. *)

From Stdlib Require Import ZArith QArith Qabs List Bool String Ascii Lia Lqa.
From Stdlib Require Import Floats.
Import ListNotations.

Set Implicit Arguments.

(* ------------------------------------------------------------------ *)
(** ** JavaScript numbers *)

(** The operators of [number] that the three closures use. *)
Class JsNumber (num : Type) : Type := {
  (** the decimal literal [m * 10^-k], e.g. [dec 3 1] is [0.3] *)
  dec : Z -> nat -> num;
  add : num -> num -> num;
  sub : num -> num -> num;
  mul : num -> num -> num;
  div : num -> num -> num;
  (** [a > b] and [a <= b]; both are false when an operand is NaN *)
  gt : num -> num -> bool;
  le : num -> num -> bool;
  (** ToBoolean: false exactly for [0], [-0] and NaN *)
  truthy : num -> bool
}.

Declare Scope js_scope.
Delimit Scope js_scope with js.
Infix "+" := add : js_scope.
Infix "-" := sub : js_scope.
Infix "*" := mul : js_scope.
Infix "/" := div : js_scope.
Infix ">" := gt : js_scope.
Infix "<=" := le : js_scope.

(** An integer literal. *)
Definition int {num} `{JsNumber num} (z : Z) : num := dec z 0.

(** [a || b] on numbers. *)
Definition or_else {num} `{JsNumber num} (a b : num) : num :=
  if truthy a then a else b.
Notation "a '|||' b" := (or_else a b) (at level 50, left associativity) : js_scope.

(** [table[key]] for a table declared [as const] and a key of type
    [keyof typeof table]: the entry is always there. *)
Definition index {K A} (table : K -> A) (key : K) : option A := Some (table key).

(** [a ?? b]: the right operand is only reached for [undefined]. *)
Definition nullish {A} (a : option A) (b : A) : A :=
  match a with Some v => v | None => b end.
Notation "a '??' b" := (nullish a b) (at level 50, left associativity) : js_scope.

(* ------------------------------------------------------------------ *)
(** ** IEEE-754 binary64 *)

Module B64.

Definition prec : Z := 53.
Definition emax : Z := 1024.

(** A JavaScript number is a double: the primitive [float]. *)
Definition float : Type := PrimFloat.float.

(** Correct rounding of the quotient of two positive integers, in the
    executable specification of the format. *)
Definition round_quotient (s : bool) (p q : positive) : spec_float :=
  let '(m, e, l) := SFdiv_core_binary prec emax (Zpos p) 0 (Zpos q) 0 in
  binary_round_aux prec emax s m e l.

(** The double nearest to [m * 10^-k], in the specification. *)
Definition nearest_decimal (m : Z) (k : nat) : spec_float :=
  match k, m with
  | _, Z0 => S754_zero false
  | O, _ => binary_normalize prec emax m 0 false
  | _, Zpos p => round_quotient false p (Pos.pow 10 (Pos.of_nat k))
  | _, Zneg p => round_quotient true p (Pos.pow 10 (Pos.of_nat k))
  end.

(** The double of an integer below 2^63 in absolute value; exact below
    2^53 and for the powers of ten up to 10^18. *)
Definition of_int (z : Z) : float :=
  match z with
  | Z0 => PrimFloat.zero
  | Zpos _ => PrimFloat.of_uint63 (Uint63.of_Z z)
  | Zneg p => PrimFloat.opp (PrimFloat.of_uint63 (Uint63.of_Z (Zpos p)))
  end.

(** The decimal literal [m * 10^-k].  When [m] is below 2^53 and [10^k]
    at most 10^18, both are doubles that [of_int] gives as they are, and
    the nearest double to the decimal is their quotient, which is
    rounded once; any other literal is rounded in the specification. *)
Definition of_decimal (m : Z) (k : nat) : float :=
  if (Z.abs m <? 9007199254740992)%Z && (k <=? 18)%nat then
    match k with
    | O => of_int m
    | S _ => PrimFloat.div (of_int m) (of_int (10 ^ Z.of_nat k))
    end
  else SF2Prim (nearest_decimal m k).

Definition fadd : float -> float -> float := PrimFloat.add.
Definition fsub : float -> float -> float := PrimFloat.sub.
Definition fmul : float -> float -> float := PrimFloat.mul.
Definition fdiv : float -> float -> float := PrimFloat.div.
Definition fgt (a b : float) : bool := PrimFloat.ltb b a.
Definition fle (a b : float) : bool := PrimFloat.leb a b.

Definition is_nan (a : float) : bool := PrimFloat.is_nan a.

(** [a === 0] on numbers: true for both zeros. *)
Definition is_zero (a : float) : bool := PrimFloat.is_zero a.

Definition to_boolean (a : float) : bool := negb (is_nan a || is_zero a).

(** [Number.isFinite] *)
Definition is_finite (a : float) : bool := PrimFloat.is_finite a.

(** [a < 0] *)
Definition is_negative (a : float) : bool := PrimFloat.ltb a PrimFloat.zero.

(** In the specification, a number carries the sign [s]: it is a zero,
    an infinity or a finite number of that sign (and so not NaN). *)
Definition signed (s : bool) (a : spec_float) : Prop :=
  a = S754_zero s \/ a = S754_infinity s \/ exists m e, a = S754_finite s m e.

(** [a] is a zero or a finite number below [2^k] in absolute value:
    its mantissa of [d] bits and its exponent [e] have [d + e <= k]. *)
Definition below (k : Z) (a : float) : Prop :=
  match Prim2SF a with
  | S754_zero _ => True
  | S754_finite _ m e => (Zpos (digits2_pos m) + e <= k)%Z
  | _ => False
  end.


(** The exact value of a finite double. *)
Definition to_Q (a : float) : option Q :=
  match Prim2SF a with
  | S754_zero _ => Some 0%Q
  | S754_finite s m e =>
      let v := match e with
               | Zneg p => Qmake (Zpos m) (Pos.pow 2 p)
               | _ => inject_Z (Zpos m * 2 ^ e)
               end in
      Some (if s then Qopp v else v)
  | _ => None
  end.

(** [a] is finite and lies within one half of the integer [n]: this is
    when [formatCurrency], [formatNumber] and [formatPercent] (all with
    zero fraction digits) can display [n]. *)
Definition shows_as (a : float) (n : Z) : bool :=
  match to_Q a with
  | Some q => Qle_bool (Qabs (q - inject_Z n)) (1 # 2)
  | None => false
  end.

End B64.

#[export] Instance binary64 : JsNumber B64.float | 0 := {
  dec := B64.of_decimal;
  add := B64.fadd;
  sub := B64.fsub;
  mul := B64.fmul;
  div := B64.fdiv;
  gt := B64.fgt;
  le := B64.fle;
  truthy := B64.to_boolean
}.

(* ------------------------------------------------------------------ *)
(** ** The 7-step banded wizard *)

Module Banded.

Inductive TeamSizeBand : Type :=
| T_1_10 | T_11_25 | T_26_50 | T_51_100 | T_101_250 | T_250_plus.

Inductive ContactVolumeBand : Type :=
| V_10_20 | V_20_30 | V_30_40 | V_40_60 | V_60_plus.

Inductive ComplexityLevel : Type := L1 | L2 | L3 | L4 | L5.

Inductive AiLevel : Type := low | medium | high.

Inductive RevenueBand : Type :=
| unknown | lt50 | R_50_250 | R_250_1000 | gt1000.

(** The component state read by [results] (the [useState] cells). *)
Record Answers : Type := {
  teamSizeBand : TeamSizeBand;
  contactVolumeBand : ContactVolumeBand;
  complexityLevel : ComplexityLevel;
  aiLevel : AiLevel;
  priorityAht : bool;
  priorityQa : bool;
  priorityDeflection : bool;
  priorityCx : bool;
  revenueBand : RevenueBand;
  includeRevenueImpact : bool
}.

(** The initial state of the component. *)
Definition initial : Answers := {|
  teamSizeBand := T_26_50;
  contactVolumeBand := V_30_40;
  complexityLevel := L3;
  aiLevel := medium;
  priorityAht := true;
  priorityQa := true;
  priorityDeflection := true;
  priorityCx := false;
  revenueBand := unknown;
  includeRevenueImpact := false
|}.

Definition level_rank (l : ComplexityLevel) : Z :=
  match l with L1 => 1 | L2 => 2 | L3 => 3 | L4 => 4 | L5 => 5 end.

Definition revenueBand_eqb (a b : RevenueBand) : bool :=
  match a, b with
  | unknown, unknown | lt50, lt50 | R_50_250, R_50_250
  | R_250_1000, R_250_1000 | gt1000, gt1000 => true
  | _, _ => false
  end.

Section Engine.
Context {num : Type} `{JsNumber num}.
Local Open Scope js_scope.

Definition WORKING_HOURS_PER_YEAR : num := int 1760.
Definition DEFAULT_COST_PER_AGENT : num := int 45000.

Definition TEAM_SIZE_MAP (b : TeamSizeBand) : num :=
  match b with
  | T_1_10 => int 8
  | T_11_25 => int 20
  | T_26_50 => int 40
  | T_51_100 => int 80
  | T_101_250 => int 150
  | T_250_plus => int 300
  end.

Definition CONTACTS_PER_AGENT_MAP (b : ContactVolumeBand) : num :=
  match b with
  | V_10_20 => int 15
  | V_20_30 => int 25
  | V_30_40 => int 35
  | V_40_60 => int 50
  | V_60_plus => int 70
  end.

(** [COMPLEXITY_LEVELS[l].ahtMins]; the label, description and
    impact summary of a level are display strings only. *)
Definition COMPLEXITY_LEVELS_ahtMins (l : ComplexityLevel) : num :=
  match l with
  | L1 => dec 35 1
  | L2 => int 5
  | L3 => int 7
  | L4 => int 10
  | L5 => int 14
  end.

Record Improvements : Type := {
  ahtReductionPct : num;
  qaEfficiencyGainPct : num;
  contactDeflectionPct : num
}.

Definition AI_IMPROVEMENTS (l : AiLevel) : Improvements :=
  match l with
  | low => {| ahtReductionPct := int 15;
              qaEfficiencyGainPct := int 60;
              contactDeflectionPct := int 20 |}
  | medium => {| ahtReductionPct := int 12;
                 qaEfficiencyGainPct := int 50;
                 contactDeflectionPct := int 15 |}
  | high => {| ahtReductionPct := int 8;
               qaEfficiencyGainPct := int 35;
               contactDeflectionPct := int 10 |}
  end.

Definition ASSUMPTIONS_qaCoveragePct : num := int 5.
Definition ASSUMPTIONS_qaTimePerContactMins : num := int 6.
Definition ASSUMPTIONS_qaHourlyMultiplier : num := dec 12 1.

(** Every [const] and [let] of the closure, under its source name. *)
Record Locals : Type := {
  l_numAgents : num;
  l_annualCostPerAgent : num;
  l_contactsPerAgentPerDay : num;
  l_contactsPerMonth : num;
  l_contactsPerYear : num;
  l_ahtMins : num;
  l_costPerAgentHour : num;
  l_baselineHandlingHours : num;
  l_baselineHandlingCost : num;
  l_costPerContactBaseline : num;
  l_ahtFactor : num;
  l_qaFactor : num;
  l_deflectionFactor : num;
  l_ahtReductionPct : num;
  l_qaEfficiencyGainPct : num;
  l_contactDeflectionPct : num;
  l_annualRevenueInfluenced : num;
  l_revenueProtectionPct : num;
  l_edgetierAnnualCost : num;
  l_newAhtMins : num;
  l_newHandlingHours : num;
  l_newHandlingCost : num;
  l_savingsAht : num;
  l_hoursSavedAht : num;
  l_qaHourlyCost : num;
  l_baselineQaHours : num;
  l_baselineQaCost : num;
  l_newQaHours : num;
  l_newQaCost : num;
  l_savingsQa : num;
  l_hoursSavedQa : num;
  l_contactsAvoidedPerYear : num;
  l_savingsDeflection : num;
  l_revenueProtected : num;
  l_totalAnnualBenefit : num;
  l_netGain : num;
  l_roiPct : num;
  l_totalHoursSaved : num;
  l_monthlyBenefit : num;
  l_paybackMonths : num
}.

(** The body of the [useMemo] callback, line by line. *)
Definition locals (a : Answers) : Locals :=
  let numAgents :=
    index TEAM_SIZE_MAP (teamSizeBand a) ?? TEAM_SIZE_MAP T_26_50 in
  let annualCostPerAgent := DEFAULT_COST_PER_AGENT in

  let contactsPerAgentPerDay :=
    index CONTACTS_PER_AGENT_MAP (contactVolumeBand a)
    ?? CONTACTS_PER_AGENT_MAP V_30_40 in
  let workingDaysPerMonth := int 21 in
  let contactsPerMonth :=
    numAgents * contactsPerAgentPerDay * workingDaysPerMonth in
  let contactsPerYear := contactsPerMonth * int 12 in

  let ahtMins := COMPLEXITY_LEVELS_ahtMins (complexityLevel a) in

  let costPerAgentHour :=
    if WORKING_HOURS_PER_YEAR > int 0
    then annualCostPerAgent / WORKING_HOURS_PER_YEAR
    else int 0 in

  let baselineHandlingHours :=
    contactsPerYear * (if ahtMins > int 0 then ahtMins / int 60 else int 0) in
  let baselineHandlingCost := baselineHandlingHours * costPerAgentHour in
  let costPerContactBaseline :=
    if contactsPerYear > int 0
    then baselineHandlingCost / contactsPerYear
    else int 0 in

  let baseImprovements := AI_IMPROVEMENTS (aiLevel a) in
  let baseAhtReductionPct := ahtReductionPct baseImprovements in
  let baseQaEfficiencyGainPct := qaEfficiencyGainPct baseImprovements in
  let baseContactDeflectionPct := contactDeflectionPct baseImprovements in

  let ahtFactor := if priorityAht a then int 1 else dec 3 1 in
  let qaFactor := if priorityQa a then int 1 else int 0 in
  let deflectionFactor := if priorityDeflection a then int 1 else int 0 in

  let ahtReductionPct := baseAhtReductionPct * ahtFactor in
  let qaEfficiencyGainPct := baseQaEfficiencyGainPct * qaFactor in
  let contactDeflectionPct := baseContactDeflectionPct * deflectionFactor in

  (* let annualRevenueInfluenced = 0; let revenueProtectionPct = 0;
     both are assigned together inside the [if] *)
  let revenue :=
    if includeRevenueImpact a
       && negb (revenueBand_eqb (revenueBand a) unknown)
       && priorityCx a
    then
      let approxRevenue :=
        match revenueBand a with
        | lt50 => int 25000000
        | R_50_250 => int 150000000
        | R_250_1000 => int 500000000
        | gt1000 => int 1500000000
        | unknown => int 0
        end in
      (approxRevenue * dec 3 1, dec 10 1)
    else (int 0, int 0) in
  let annualRevenueInfluenced := fst revenue in
  let revenueProtectionPct := snd revenue in

  (* let edgetierAnnualCost = 150_000; every branch below reassigns it *)
  let edgetierAnnualCost :=
    if numAgents <= int 25 then int 80000
    else if numAgents <= int 50 then int 120000
    else if numAgents <= int 100 then int 180000
    else if numAgents <= int 250 then int 250000
    else int 350000 in

  let newAhtMins :=
    ahtMins * (int 1 - (ahtReductionPct ||| int 0) / int 100) in
  let newHandlingHours :=
    contactsPerYear * (if newAhtMins > int 0 then newAhtMins / int 60 else int 0) in
  let newHandlingCost := newHandlingHours * costPerAgentHour in

  let savingsAht := baselineHandlingCost - newHandlingCost in
  let hoursSavedAht := baselineHandlingHours - newHandlingHours in

  let qaHourlyCost := costPerAgentHour * ASSUMPTIONS_qaHourlyMultiplier in

  let baselineQaHours :=
    contactsPerYear
    * (ASSUMPTIONS_qaCoveragePct / int 100)
    * (ASSUMPTIONS_qaTimePerContactMins / int 60) in
  let baselineQaCost := baselineQaHours * qaHourlyCost in

  let newQaHours :=
    baselineQaHours * (int 1 - (qaEfficiencyGainPct ||| int 0) / int 100) in
  let newQaCost := newQaHours * qaHourlyCost in

  let savingsQa := baselineQaCost - newQaCost in
  let hoursSavedQa := baselineQaHours - newQaHours in

  let contactsAvoidedPerYear :=
    contactsPerYear * ((contactDeflectionPct ||| int 0) / int 100) in
  let savingsDeflection := contactsAvoidedPerYear * costPerContactBaseline in

  let revenueProtected :=
    annualRevenueInfluenced * ((revenueProtectionPct ||| int 0) / int 100) in

  let totalAnnualBenefit :=
    (savingsAht ||| int 0)
    + (savingsQa ||| int 0)
    + (savingsDeflection ||| int 0)
    + (revenueProtected ||| int 0) in

  let netGain := totalAnnualBenefit - (edgetierAnnualCost ||| int 0) in

  let roiPct :=
    if edgetierAnnualCost > int 0
    then (netGain / edgetierAnnualCost) * int 100
    else int 0 in

  let totalHoursSaved := (hoursSavedAht ||| int 0) + (hoursSavedQa ||| int 0) in

  let monthlyBenefit :=
    if totalAnnualBenefit > int 0 then totalAnnualBenefit / int 12 else int 0 in
  let paybackMonths :=
    if monthlyBenefit > int 0
    then edgetierAnnualCost / monthlyBenefit
    else int 0 in

  {| l_numAgents := numAgents;
     l_annualCostPerAgent := annualCostPerAgent;
     l_contactsPerAgentPerDay := contactsPerAgentPerDay;
     l_contactsPerMonth := contactsPerMonth;
     l_contactsPerYear := contactsPerYear;
     l_ahtMins := ahtMins;
     l_costPerAgentHour := costPerAgentHour;
     l_baselineHandlingHours := baselineHandlingHours;
     l_baselineHandlingCost := baselineHandlingCost;
     l_costPerContactBaseline := costPerContactBaseline;
     l_ahtFactor := ahtFactor;
     l_qaFactor := qaFactor;
     l_deflectionFactor := deflectionFactor;
     l_ahtReductionPct := ahtReductionPct;
     l_qaEfficiencyGainPct := qaEfficiencyGainPct;
     l_contactDeflectionPct := contactDeflectionPct;
     l_annualRevenueInfluenced := annualRevenueInfluenced;
     l_revenueProtectionPct := revenueProtectionPct;
     l_edgetierAnnualCost := edgetierAnnualCost;
     l_newAhtMins := newAhtMins;
     l_newHandlingHours := newHandlingHours;
     l_newHandlingCost := newHandlingCost;
     l_savingsAht := savingsAht;
     l_hoursSavedAht := hoursSavedAht;
     l_qaHourlyCost := qaHourlyCost;
     l_baselineQaHours := baselineQaHours;
     l_baselineQaCost := baselineQaCost;
     l_newQaHours := newQaHours;
     l_newQaCost := newQaCost;
     l_savingsQa := savingsQa;
     l_hoursSavedQa := hoursSavedQa;
     l_contactsAvoidedPerYear := contactsAvoidedPerYear;
     l_savingsDeflection := savingsDeflection;
     l_revenueProtected := revenueProtected;
     l_totalAnnualBenefit := totalAnnualBenefit;
     l_netGain := netGain;
     l_roiPct := roiPct;
     l_totalHoursSaved := totalHoursSaved;
     l_monthlyBenefit := monthlyBenefit;
     l_paybackMonths := paybackMonths |}.

(** The object the closure returns. *)
Record Results : Type := {
  numAgents : num;
  contactsPerYear : num;
  ahtMins : num;
  costPerContactBaseline : num;
  contactsAvoidedPerYear : num;
  savingsAht : num;
  savingsQa : num;
  savingsDeflection : num;
  revenueProtected : num;
  totalAnnualBenefit : num;
  netGain : num;
  roiPct : num;
  totalHoursSaved : num;
  paybackMonths : num;
  edgetierAnnualCost : num
}.

Definition results (a : Answers) : Results :=
  let l := locals a in
  {| numAgents := l_numAgents l;
     contactsPerYear := l_contactsPerYear l;
     ahtMins := l_ahtMins l;
     costPerContactBaseline := l_costPerContactBaseline l;
     contactsAvoidedPerYear := l_contactsAvoidedPerYear l;
     savingsAht := l_savingsAht l;
     savingsQa := l_savingsQa l;
     savingsDeflection := l_savingsDeflection l;
     revenueProtected := l_revenueProtected l;
     totalAnnualBenefit := l_totalAnnualBenefit l;
     netGain := l_netGain l;
     roiPct := l_roiPct l;
     totalHoursSaved := l_totalHoursSaved l;
     paybackMonths := l_paybackMonths l;
     edgetierAnnualCost := l_edgetierAnnualCost l |}.

End Engine.

Arguments Improvements num : clear implicits.
Arguments Locals num : clear implicits.
Arguments Results num : clear implicits.

End Banded.

(* ------------------------------------------------------------------ *)
(** ** The 3-step direct-numeric form *)

Module Direct.

Section Engine.
Context {num : Type} `{JsNumber num}.
Local Open Scope js_scope.

(** The component state read by [results]; every number is typed in
    through a [NumberInput]. *)
Record Answers : Type := {
  numAgents : num;
  contactsPerMonth : num;
  ahtMins : num;
  annualCostPerAgent : num;
  reduceAht : bool;
  reduceQa : bool;
  reduceContacts : bool;
  improveCx : bool;
  edgetierAnnualCost : num;
  annualRevenueInfluenced : num
}.

(** The initial state of the component. *)
Definition initial : Answers := {|
  numAgents := int 80;
  contactsPerMonth := int 60000;
  ahtMins := int 7;
  annualCostPerAgent := int 45000;
  reduceAht := true;
  reduceQa := true;
  reduceContacts := true;
  improveCx := false;
  edgetierAnnualCost := int 180000;
  annualRevenueInfluenced := int 0
|}.

Definition WORKING_HOURS_PER_YEAR : num := int 1760.

Definition ASSUMPTIONS_qaCoveragePct : num := int 5.
Definition ASSUMPTIONS_qaTimePerContactMins : num := int 6.
Definition ASSUMPTIONS_qaHourlyMultiplier : num := dec 12 1.
Definition ASSUMPTIONS_ahtReductionPct : num := int 12.
Definition ASSUMPTIONS_qaEfficiencyGainPct : num := int 50.
Definition ASSUMPTIONS_contactDeflectionPct : num := int 15.
Definition ASSUMPTIONS_revenueProtectionPct : num := int 1.

(** Every [const] of the closure, under its source name. *)
Record Locals : Type := {
  l_contactsPerYear : num;
  l_costPerAgentHour : num;
  l_baselineHandlingHours : num;
  l_baselineHandlingCost : num;
  l_costPerContactBaseline : num;
  l_ahtReductionPct : num;
  l_qaEfficiencyGainPct : num;
  l_contactDeflectionPct : num;
  l_revenueProtectionPct : num;
  l_newAhtMins : num;
  l_newHandlingHours : num;
  l_newHandlingCost : num;
  l_savingsAht : num;
  l_hoursSavedAht : num;
  l_qaHourlyCost : num;
  l_baselineQaHours : num;
  l_baselineQaCost : num;
  l_newQaHours : num;
  l_newQaCost : num;
  l_savingsQa : num;
  l_hoursSavedQa : num;
  l_contactsAvoidedPerYear : num;
  l_savingsDeflection : num;
  l_revenueProtected : num;
  l_totalAnnualBenefit : num;
  l_netGain : num;
  l_roiPct : num;
  l_totalHoursSaved : num;
  l_monthlyBenefit : num;
  l_paybackMonths : num
}.

(** The body of the [useMemo] callback, line by line. *)
Definition locals (a : Answers) : Locals :=
  let contactsPerYear := contactsPerMonth a * int 12 in

  let costPerAgentHour :=
    if WORKING_HOURS_PER_YEAR > int 0
    then annualCostPerAgent a / WORKING_HOURS_PER_YEAR
    else int 0 in

  let baselineHandlingHours :=
    contactsPerYear * (if ahtMins a > int 0 then ahtMins a / int 60 else int 0) in

  let baselineHandlingCost := baselineHandlingHours * costPerAgentHour in

  let costPerContactBaseline :=
    if contactsPerYear > int 0 then baselineHandlingCost / contactsPerYear else int 0 in

  let ahtReductionPct :=
    if reduceAht a then ASSUMPTIONS_ahtReductionPct else int 0 in
  let qaEfficiencyGainPct :=
    if reduceQa a then ASSUMPTIONS_qaEfficiencyGainPct else int 0 in
  let contactDeflectionPct :=
    if reduceContacts a then ASSUMPTIONS_contactDeflectionPct else int 0 in
  let revenueProtectionPct :=
    if improveCx a then ASSUMPTIONS_revenueProtectionPct else int 0 in

  let newAhtMins := ahtMins a * (int 1 - ahtReductionPct / int 100) in

  let newHandlingHours :=
    contactsPerYear * (if newAhtMins > int 0 then newAhtMins / int 60 else int 0) in

  let newHandlingCost := newHandlingHours * costPerAgentHour in

  let savingsAht := baselineHandlingCost - newHandlingCost in
  let hoursSavedAht := baselineHandlingHours - newHandlingHours in

  let qaHourlyCost := costPerAgentHour * ASSUMPTIONS_qaHourlyMultiplier in

  let baselineQaHours :=
    contactsPerYear
    * (ASSUMPTIONS_qaCoveragePct / int 100)
    * (ASSUMPTIONS_qaTimePerContactMins / int 60) in

  let baselineQaCost := baselineQaHours * qaHourlyCost in

  let newQaHours := baselineQaHours * (int 1 - qaEfficiencyGainPct / int 100) in

  let newQaCost := newQaHours * qaHourlyCost in

  let savingsQa := baselineQaCost - newQaCost in
  let hoursSavedQa := baselineQaHours - newQaHours in

  let contactsAvoidedPerYear := contactsPerYear * (contactDeflectionPct / int 100) in

  let savingsDeflection := contactsAvoidedPerYear * costPerContactBaseline in

  let revenueProtected :=
    annualRevenueInfluenced a * (revenueProtectionPct / int 100) in

  let totalAnnualBenefit :=
    (savingsAht ||| int 0)
    + (savingsQa ||| int 0)
    + (savingsDeflection ||| int 0)
    + (revenueProtected ||| int 0) in

  let netGain := totalAnnualBenefit - (edgetierAnnualCost a ||| int 0) in

  let roiPct :=
    if edgetierAnnualCost a > int 0
    then (netGain / edgetierAnnualCost a) * int 100
    else int 0 in

  let totalHoursSaved := (hoursSavedAht ||| int 0) + (hoursSavedQa ||| int 0) in

  let monthlyBenefit :=
    if totalAnnualBenefit > int 0 then totalAnnualBenefit / int 12 else int 0 in
  let paybackMonths :=
    if monthlyBenefit > int 0 then edgetierAnnualCost a / monthlyBenefit else int 0 in

  {| l_contactsPerYear := contactsPerYear;
     l_costPerAgentHour := costPerAgentHour;
     l_baselineHandlingHours := baselineHandlingHours;
     l_baselineHandlingCost := baselineHandlingCost;
     l_costPerContactBaseline := costPerContactBaseline;
     l_ahtReductionPct := ahtReductionPct;
     l_qaEfficiencyGainPct := qaEfficiencyGainPct;
     l_contactDeflectionPct := contactDeflectionPct;
     l_revenueProtectionPct := revenueProtectionPct;
     l_newAhtMins := newAhtMins;
     l_newHandlingHours := newHandlingHours;
     l_newHandlingCost := newHandlingCost;
     l_savingsAht := savingsAht;
     l_hoursSavedAht := hoursSavedAht;
     l_qaHourlyCost := qaHourlyCost;
     l_baselineQaHours := baselineQaHours;
     l_baselineQaCost := baselineQaCost;
     l_newQaHours := newQaHours;
     l_newQaCost := newQaCost;
     l_savingsQa := savingsQa;
     l_hoursSavedQa := hoursSavedQa;
     l_contactsAvoidedPerYear := contactsAvoidedPerYear;
     l_savingsDeflection := savingsDeflection;
     l_revenueProtected := revenueProtected;
     l_totalAnnualBenefit := totalAnnualBenefit;
     l_netGain := netGain;
     l_roiPct := roiPct;
     l_totalHoursSaved := totalHoursSaved;
     l_monthlyBenefit := monthlyBenefit;
     l_paybackMonths := paybackMonths |}.

(** The object the closure returns. *)
Record Results : Type := {
  r_numAgents : num;
  contactsPerYear : num;
  costPerContactBaseline : num;
  contactsAvoidedPerYear : num;
  savingsAht : num;
  savingsQa : num;
  savingsDeflection : num;
  revenueProtected : num;
  totalAnnualBenefit : num;
  netGain : num;
  roiPct : num;
  totalHoursSaved : num;
  paybackMonths : num
}.

Definition results (a : Answers) : Results :=
  let l := locals a in
  {| r_numAgents := numAgents a;
     contactsPerYear := l_contactsPerYear l;
     costPerContactBaseline := l_costPerContactBaseline l;
     contactsAvoidedPerYear := l_contactsAvoidedPerYear l;
     savingsAht := l_savingsAht l;
     savingsQa := l_savingsQa l;
     savingsDeflection := l_savingsDeflection l;
     revenueProtected := l_revenueProtected l;
     totalAnnualBenefit := l_totalAnnualBenefit l;
     netGain := l_netGain l;
     roiPct := l_roiPct l;
     totalHoursSaved := l_totalHoursSaved l;
     paybackMonths := l_paybackMonths l |}.

End Engine.

Arguments Answers num : clear implicits.
Arguments Locals num : clear implicits.
Arguments Results num : clear implicits.

End Direct.

(* ------------------------------------------------------------------ *)
(** ** The 6-step richer banded wizard *)

Module Richer.

Inductive TeamSizeBand : Type :=
| T_10_25 | T_26_50 | T_51_100 | T_101_250 | T_250_plus.

Inductive RegionBand : Type :=
| UK_IE_NORDICS_ANZ | SOUTHERN_EUROPE | EASTERN_EUROPE | APAC_INDIA_PH.

Inductive ContactVolumeBand : Type :=
| V_20_30 | V_30_40 | V_40_60 | V_60_plus.

Inductive ComplexityLevel : Type := L1 | L2 | L3 | L4 | L5.

Inductive AiMaturity : Type := low | moderate | advanced.

Inductive RevenueBand : Type :=
| unknown | lt50 | R_50_250 | R_250_1000 | gt1000.

Inductive RevenueImpact : Type := cost | retention | upsell.

Inductive RolloutScope : Type := single | few | multi.

Inductive CostMode : Type := known | benchmark.

Inductive InvestmentMode : Type := auto | custom.

Definition level_rank (l : ComplexityLevel) : Z :=
  match l with L1 => 1 | L2 => 2 | L3 => 3 | L4 => 4 | L5 => 5 end.

Definition revenueBand_eqb (a b : RevenueBand) : bool :=
  match a, b with
  | unknown, unknown | lt50, lt50 | R_50_250, R_50_250
  | R_250_1000, R_250_1000 | gt1000, gt1000 => true
  | _, _ => false
  end.

Definition costMode_eqb (a b : CostMode) : bool :=
  match a, b with
  | known, known | benchmark, benchmark => true
  | _, _ => false
  end.

Definition investmentMode_eqb (a b : InvestmentMode) : bool :=
  match a, b with
  | auto, auto | custom, custom => true
  | _, _ => false
  end.

Definition rolloutScope_eqb (a b : RolloutScope) : bool :=
  match a, b with
  | single, single | few, few | multi, multi => true
  | _, _ => false
  end.

Definition revenueImpact_eqb (a b : RevenueImpact) : bool :=
  match a, b with
  | cost, cost | retention, retention | upsell, upsell => true
  | _, _ => false
  end.

Section Engine.
Context {num : Type} `{JsNumber num}.
Local Open Scope js_scope.

(** The component state read by [results] (the [useState] cells). *)
Record Answers : Type := {
  teamSizeBand : TeamSizeBand;
  costMode : CostMode;
  knownCostPerAgent : num;
  regionBand : RegionBand;
  contactVolumeBand : ContactVolumeBand;
  complexityLevel : ComplexityLevel;
  aiMaturity : AiMaturity;
  priorityAht : bool;
  priorityQa : bool;
  priorityDeflection : bool;
  priorityCx : bool;
  revenueBand : RevenueBand;
  revenueImpact : RevenueImpact;
  skipRevenueImpact : bool;
  rolloutScope : RolloutScope;
  investmentMode : InvestmentMode;
  customEdgetierCost : num
}.

(** The initial state of the component. *)
Definition initial : Answers := {|
  teamSizeBand := T_51_100;
  costMode := benchmark;
  knownCostPerAgent := int 45000;
  regionBand := UK_IE_NORDICS_ANZ;
  contactVolumeBand := V_40_60;
  complexityLevel := L3;
  aiMaturity := moderate;
  priorityAht := true;
  priorityQa := true;
  priorityDeflection := true;
  priorityCx := false;
  revenueBand := unknown;
  revenueImpact := retention;
  skipRevenueImpact := true;
  rolloutScope := single;
  investmentMode := auto;
  customEdgetierCost := int 180000
|}.

Definition WORKING_HOURS_PER_YEAR : num := int 1760.

Definition TEAM_SIZE_MAP (b : TeamSizeBand) : num :=
  match b with
  | T_10_25 => int 20
  | T_26_50 => int 40
  | T_51_100 => int 80
  | T_101_250 => int 150
  | T_250_plus => int 300
  end.

Definition REGION_COST_MAP (b : RegionBand) : num :=
  match b with
  | UK_IE_NORDICS_ANZ => int 50000
  | SOUTHERN_EUROPE => int 42000
  | EASTERN_EUROPE => int 30000
  | APAC_INDIA_PH => int 25000
  end.

Definition CONTACTS_PER_AGENT_MAP (b : ContactVolumeBand) : num :=
  match b with
  | V_20_30 => int 25
  | V_30_40 => int 35
  | V_40_60 => int 50
  | V_60_plus => int 70
  end.

(** [COMPLEXITY_LEVELS[l].ahtMins]; the label, description and
    impact summary of a level are display strings only. *)
Definition COMPLEXITY_LEVELS_ahtMins (l : ComplexityLevel) : num :=
  match l with
  | L1 => dec 35 1
  | L2 => int 5
  | L3 => int 7
  | L4 => int 10
  | L5 => int 14
  end.

Record Improvements : Type := {
  ahtReductionPct : num;
  qaEfficiencyGainPct : num;
  contactDeflectionPct : num
}.

Definition AI_IMPROVEMENTS (l : AiMaturity) : Improvements :=
  match l with
  | low => {| ahtReductionPct := int 15;
              qaEfficiencyGainPct := int 60;
              contactDeflectionPct := int 20 |}
  | moderate => {| ahtReductionPct := int 12;
                   qaEfficiencyGainPct := int 50;
                   contactDeflectionPct := int 15 |}
  | advanced => {| ahtReductionPct := int 8;
                   qaEfficiencyGainPct := int 35;
                   contactDeflectionPct := int 10 |}
  end.

Definition ASSUMPTIONS_qaCoveragePct : num := int 5.
Definition ASSUMPTIONS_qaTimePerContactMins : num := int 6.
Definition ASSUMPTIONS_qaHourlyMultiplier : num := dec 12 1.

(** Every [const] and [let] of the closure, under its source name. *)
Record Locals : Type := {
  l_numAgents : num;
  l_annualCostPerAgent : num;
  l_contactsPerAgentPerDay : num;
  l_contactsPerMonth : num;
  l_contactsPerYear : num;
  l_ahtMins : num;
  l_costPerAgentHour : num;
  l_baselineHandlingHours : num;
  l_baselineHandlingCost : num;
  l_costPerContactBaseline : num;
  l_ahtFactor : num;
  l_qaFactor : num;
  l_deflectionFactor : num;
  l_ahtReductionPct : num;
  l_qaEfficiencyGainPct : num;
  l_contactDeflectionPct : num;
  l_annualRevenueInfluenced : num;
  l_revenueProtectionPct : num;
  l_edgetierAnnualCost : num;
  l_newAhtMins : num;
  l_newHandlingHours : num;
  l_newHandlingCost : num;
  l_savingsAht : num;
  l_hoursSavedAht : num;
  l_qaHourlyCost : num;
  l_baselineQaHours : num;
  l_baselineQaCost : num;
  l_newQaHours : num;
  l_newQaCost : num;
  l_savingsQa : num;
  l_hoursSavedQa : num;
  l_contactsAvoidedPerYear : num;
  l_savingsDeflection : num;
  l_revenueProtected : num;
  l_totalAnnualBenefit : num;
  l_netGain : num;
  l_roiPct : num;
  l_totalHoursSaved : num;
  l_monthlyBenefit : num;
  l_paybackMonths : num
}.

(** The body of the [useMemo] callback, line by line. *)
Definition locals (a : Answers) : Locals :=
  let numAgents :=
    index TEAM_SIZE_MAP (teamSizeBand a) ?? TEAM_SIZE_MAP T_51_100 in

  let annualCostPerAgent :=
    if costMode_eqb (costMode a) known && (knownCostPerAgent a > int 0)
    then knownCostPerAgent a
    else index REGION_COST_MAP (regionBand a)
         ?? REGION_COST_MAP UK_IE_NORDICS_ANZ in

  let contactsPerAgentPerDay :=
    index CONTACTS_PER_AGENT_MAP (contactVolumeBand a)
    ?? CONTACTS_PER_AGENT_MAP V_40_60 in
  let workingDaysPerMonth := int 21 in
  let contactsPerMonth :=
    numAgents * contactsPerAgentPerDay * workingDaysPerMonth in
  let contactsPerYear := contactsPerMonth * int 12 in

  let ahtMins := COMPLEXITY_LEVELS_ahtMins (complexityLevel a) in

  let costPerAgentHour :=
    if WORKING_HOURS_PER_YEAR > int 0
    then annualCostPerAgent / WORKING_HOURS_PER_YEAR
    else int 0 in

  let baselineHandlingHours :=
    contactsPerYear * (if ahtMins > int 0 then ahtMins / int 60 else int 0) in
  let baselineHandlingCost := baselineHandlingHours * costPerAgentHour in
  let costPerContactBaseline :=
    if contactsPerYear > int 0
    then baselineHandlingCost / contactsPerYear
    else int 0 in

  let baseImprovements := AI_IMPROVEMENTS (aiMaturity a) in
  let baseAhtReductionPct := ahtReductionPct baseImprovements in
  let baseQaEfficiencyGainPct := qaEfficiencyGainPct baseImprovements in
  let baseContactDeflectionPct := contactDeflectionPct baseImprovements in

  let ahtFactor := if priorityAht a then int 1 else dec 3 1 in
  let qaFactor := if priorityQa a then int 1 else int 0 in
  let deflectionFactor := if priorityDeflection a then int 1 else int 0 in

  let ahtReductionPct := baseAhtReductionPct * ahtFactor in
  let qaEfficiencyGainPct := baseQaEfficiencyGainPct * qaFactor in
  let contactDeflectionPct := baseContactDeflectionPct * deflectionFactor in

  (* let annualRevenueInfluenced = 0; let revenueProtectionPct = 0;
     both are assigned together inside the [if] *)
  let revenue :=
    if negb (skipRevenueImpact a)
       && negb (revenueBand_eqb (revenueBand a) unknown)
       && priorityCx a
    then
      let approxRevenue :=
        match revenueBand a with
        | lt50 => int 25000000
        | R_50_250 => int 150000000
        | R_250_1000 => int 500000000
        | gt1000 => int 1500000000
        | unknown => int 0
        end in
      let baseRevenuePct := int 0 in
      let baseRevenuePct :=
        if revenueImpact_eqb (revenueImpact a) cost then dec 5 1 else baseRevenuePct in
      let baseRevenuePct :=
        if revenueImpact_eqb (revenueImpact a) retention then dec 10 1 else baseRevenuePct in
      let baseRevenuePct :=
        if revenueImpact_eqb (revenueImpact a) upsell then dec 15 1 else baseRevenuePct in
      (approxRevenue * dec 3 1, baseRevenuePct)
    else (int 0, int 0) in
  let annualRevenueInfluenced := fst revenue in
  let revenueProtectionPct := snd revenue in

  let edgetierAnnualCost := customEdgetierCost a in
  let edgetierAnnualCost :=
    if investmentMode_eqb (investmentMode a) auto then
      (* let baseLicense = 150_000; every branch below reassigns it *)
      let baseLicense :=
        if numAgents <= int 50 then int 80000
        else if numAgents <= int 100 then int 150000
        else if numAgents <= int 250 then int 250000
        else int 350000 in
      let rolloutMultiplier := int 1 in
      let rolloutMultiplier :=
        if rolloutScope_eqb (rolloutScope a) few then dec 18 1 else rolloutMultiplier in
      let rolloutMultiplier :=
        if rolloutScope_eqb (rolloutScope a) multi then dec 25 1 else rolloutMultiplier in
      baseLicense * rolloutMultiplier
    else edgetierAnnualCost in

  let newAhtMins :=
    ahtMins * (int 1 - (ahtReductionPct ||| int 0) / int 100) in
  let newHandlingHours :=
    contactsPerYear * (if newAhtMins > int 0 then newAhtMins / int 60 else int 0) in
  let newHandlingCost := newHandlingHours * costPerAgentHour in

  let savingsAht := baselineHandlingCost - newHandlingCost in
  let hoursSavedAht := baselineHandlingHours - newHandlingHours in

  let qaHourlyCost := costPerAgentHour * ASSUMPTIONS_qaHourlyMultiplier in

  let baselineQaHours :=
    contactsPerYear
    * (ASSUMPTIONS_qaCoveragePct / int 100)
    * (ASSUMPTIONS_qaTimePerContactMins / int 60) in
  let baselineQaCost := baselineQaHours * qaHourlyCost in

  let newQaHours :=
    baselineQaHours * (int 1 - (qaEfficiencyGainPct ||| int 0) / int 100) in
  let newQaCost := newQaHours * qaHourlyCost in

  let savingsQa := baselineQaCost - newQaCost in
  let hoursSavedQa := baselineQaHours - newQaHours in

  let contactsAvoidedPerYear :=
    contactsPerYear * ((contactDeflectionPct ||| int 0) / int 100) in
  let savingsDeflection := contactsAvoidedPerYear * costPerContactBaseline in

  let revenueProtected :=
    annualRevenueInfluenced * ((revenueProtectionPct ||| int 0) / int 100) in

  let totalAnnualBenefit :=
    (savingsAht ||| int 0)
    + (savingsQa ||| int 0)
    + (savingsDeflection ||| int 0)
    + (revenueProtected ||| int 0) in

  let netGain := totalAnnualBenefit - (edgetierAnnualCost ||| int 0) in

  let roiPct :=
    if edgetierAnnualCost > int 0
    then (netGain / edgetierAnnualCost) * int 100
    else int 0 in

  let totalHoursSaved := (hoursSavedAht ||| int 0) + (hoursSavedQa ||| int 0) in

  let monthlyBenefit :=
    if totalAnnualBenefit > int 0 then totalAnnualBenefit / int 12 else int 0 in
  let paybackMonths :=
    if monthlyBenefit > int 0
    then edgetierAnnualCost / monthlyBenefit
    else int 0 in

  {| l_numAgents := numAgents;
     l_annualCostPerAgent := annualCostPerAgent;
     l_contactsPerAgentPerDay := contactsPerAgentPerDay;
     l_contactsPerMonth := contactsPerMonth;
     l_contactsPerYear := contactsPerYear;
     l_ahtMins := ahtMins;
     l_costPerAgentHour := costPerAgentHour;
     l_baselineHandlingHours := baselineHandlingHours;
     l_baselineHandlingCost := baselineHandlingCost;
     l_costPerContactBaseline := costPerContactBaseline;
     l_ahtFactor := ahtFactor;
     l_qaFactor := qaFactor;
     l_deflectionFactor := deflectionFactor;
     l_ahtReductionPct := ahtReductionPct;
     l_qaEfficiencyGainPct := qaEfficiencyGainPct;
     l_contactDeflectionPct := contactDeflectionPct;
     l_annualRevenueInfluenced := annualRevenueInfluenced;
     l_revenueProtectionPct := revenueProtectionPct;
     l_edgetierAnnualCost := edgetierAnnualCost;
     l_newAhtMins := newAhtMins;
     l_newHandlingHours := newHandlingHours;
     l_newHandlingCost := newHandlingCost;
     l_savingsAht := savingsAht;
     l_hoursSavedAht := hoursSavedAht;
     l_qaHourlyCost := qaHourlyCost;
     l_baselineQaHours := baselineQaHours;
     l_baselineQaCost := baselineQaCost;
     l_newQaHours := newQaHours;
     l_newQaCost := newQaCost;
     l_savingsQa := savingsQa;
     l_hoursSavedQa := hoursSavedQa;
     l_contactsAvoidedPerYear := contactsAvoidedPerYear;
     l_savingsDeflection := savingsDeflection;
     l_revenueProtected := revenueProtected;
     l_totalAnnualBenefit := totalAnnualBenefit;
     l_netGain := netGain;
     l_roiPct := roiPct;
     l_totalHoursSaved := totalHoursSaved;
     l_monthlyBenefit := monthlyBenefit;
     l_paybackMonths := paybackMonths |}.

(** The object the closure returns. *)
Record Results : Type := {
  numAgents : num;
  annualCostPerAgent : num;
  contactsPerMonth : num;
  contactsPerYear : num;
  ahtMins : num;
  costPerContactBaseline : num;
  contactsAvoidedPerYear : num;
  savingsAht : num;
  savingsQa : num;
  savingsDeflection : num;
  revenueProtected : num;
  totalAnnualBenefit : num;
  netGain : num;
  roiPct : num;
  totalHoursSaved : num;
  paybackMonths : num;
  edgetierAnnualCost : num
}.

Definition results (a : Answers) : Results :=
  let l := locals a in
  {| numAgents := l_numAgents l;
     annualCostPerAgent := l_annualCostPerAgent l;
     contactsPerMonth := l_contactsPerMonth l;
     contactsPerYear := l_contactsPerYear l;
     ahtMins := l_ahtMins l;
     costPerContactBaseline := l_costPerContactBaseline l;
     contactsAvoidedPerYear := l_contactsAvoidedPerYear l;
     savingsAht := l_savingsAht l;
     savingsQa := l_savingsQa l;
     savingsDeflection := l_savingsDeflection l;
     revenueProtected := l_revenueProtected l;
     totalAnnualBenefit := l_totalAnnualBenefit l;
     netGain := l_netGain l;
     roiPct := l_roiPct l;
     totalHoursSaved := l_totalHoursSaved l;
     paybackMonths := l_paybackMonths l;
     edgetierAnnualCost := l_edgetierAnnualCost l |}.

End Engine.

Arguments Answers num : clear implicits.
Arguments Improvements num : clear implicits.
Arguments Locals num : clear implicits.
Arguments Results num : clear implicits.

End Richer.


(* ------------------------------------------------------------------ *)
(** ** The numeric input boundary

    Every numeric field of the direct form ([NumberInput]) and the two
    free-text fields of the richer wizard ([knownCostPerAgent],
    [customEdgetierCost]) store [parseFloat(e.target.value) || 0].
    [parseFloat] is the ECMAScript built-in: it skips leading white
    space, reads the longest prefix that is a [StrDecimalLiteral] and
    returns NaN when there is none.  White space is modelled for the
    ASCII range.  The fields are number inputs, for which a browser
    reports the empty string or a decimal that is a finite double; the
    handler is modelled on every string. *)

Module Input.

Local Open Scope Z_scope.

(** The entered text is read as UTF-8.  [StrWhiteSpaceChar] is TAB, LF,
    VT, FF, CR and SP (one byte each), the no-break space U+00A0 (two
    bytes), and U+1680, U+2000 to U+200A, U+2028, U+2029, U+202F,
    U+205F, U+3000 and U+FEFF (three bytes each). *)
Definition code (c : ascii) : Z := Z.of_nat (nat_of_ascii c).

Definition is_white_space (c : ascii) : bool :=
  let n := code c in
  ((9 <=? n) && (n <=? 13)) || (n =? 32).

Definition is_white_space2 (c1 c2 : ascii) : bool :=
  (code c1 =? 194) && (code c2 =? 160).

Definition is_white_space3 (c1 c2 c3 : ascii) : bool :=
  let a := code c1 in
  let b := code c2 in
  let c := code c3 in
  ((a =? 225) && (b =? 154) && (c =? 128))
  || ((a =? 226) && (b =? 128)
      && (((128 <=? c) && (c <=? 138)) || (c =? 168) || (c =? 169) || (c =? 175)))
  || ((a =? 226) && (b =? 129) && (c =? 159))
  || ((a =? 227) && (b =? 128) && (c =? 128))
  || ((a =? 239) && (b =? 187) && (c =? 191)).

Fixpoint trim_start (s : string) : string :=
  match s with
  | EmptyString => s
  | String c1 r1 =>
      if is_white_space c1 then trim_start r1
      else
        match r1 with
        | EmptyString => s
        | String c2 r2 =>
            if is_white_space2 c1 c2 then trim_start r2
            else
              match r2 with
              | EmptyString => s
              | String c3 r3 =>
                  if is_white_space3 c1 c2 c3 then trim_start r3 else s
              end
        end
  end.

Definition digit_of (c : ascii) : option Z :=
  let n := code c in
  if (48 <=? n) && (n <=? 57) then Some (n - 48) else None.

(** Reads [DecimalDigits]: the number read so far, how many digits were
    read, and the rest of the string. *)
Fixpoint digits (s : string) (acc : Z) (count : nat) : Z * nat * string :=
  match s with
  | String c r =>
      match digit_of c with
      | Some d => digits r (10 * acc + d) (S count)
      | None => (acc, count, s)
      end
  | EmptyString => (acc, count, s)
  end.

Definition sign (s : string) : bool * string :=
  match s with
  | String "+" r => (false, r)
  | String "-" r => (true, r)
  | _ => (false, s)
  end.

(** [ExponentPart], taken only when at least one digit follows. *)
Definition exponent (s : string) : Z :=
  match s with
  | String ("e" | "E") r =>
      let '(neg, r') := sign r in
      let '(e, count, _) := digits r' 0 O in
      match count with
      | O => 0
      | S _ => if neg then - e else e
      end
  | _ => 0
  end.

Inductive literal : Type :=
| Infinity (neg : bool)
| Decimal (neg : bool) (mantissa : Z) (fraction_digits : nat) (exp10 : Z).

(** The longest prefix of the trimmed string that is a
    [StrDecimalLiteral], if there is one. *)
Definition scan (s : string) : option literal :=
  let '(neg, r) := sign (trim_start s) in
  if String.prefix "Infinity" r then Some (Infinity neg)
  else
    let '(ip, ni, r1) := digits r 0 O in
    let '(m, nf, r2) :=
      match r1 with
      | String "." r' => digits r' ip O
      | _ => (ip, O, r1)
      end in
    match (ni + nf)%nat with
    | O => None
    | S _ => Some (Decimal neg m nf (exponent r2))
    end.

(** The Number value of a literal (round to nearest, ties to even). *)
(** The Number value of a literal (round to nearest, ties to even), in
    the specification of the format. *)
Definition nearest (l : literal) : spec_float :=
  match l with
  | Infinity neg => S754_infinity neg
  | Decimal neg m k e =>
      let x := e - Z.of_nat k in
      match m with
      | Zpos p =>
          if 0 <=? x
          then binary_normalize B64.prec B64.emax
                 ((if neg then Zneg p else Zpos p) * 10 ^ x) 0 false
          else B64.round_quotient neg p (Z.to_pos (10 ^ (- x)))
      | _ => S754_zero neg
      end
  end.

Definition value (l : literal) : B64.float := SF2Prim (nearest l).

Definition parseFloat (s : string) : B64.float :=
  match scan s with
  | Some l => value l
  | None => PrimFloat.nan
  end.

(** [onChange(parseFloat(e.target.value) || 0)]: what reaches the state. *)
Definition onChange (s : string) : B64.float :=
  (parseFloat s ||| int 0)%js.

End Input.


(* ------------------------------------------------------------------ *)
(** ** What the specification says about investment sizing *)

Module Spec.

Section Investment.
Context {num : Type} `{JsNumber num}.
Local Open Scope js_scope.

(** "base license cost from numAgents via ordered breakpoints
    (<=25 -> tier1, <=50 -> tier2, <=100 -> tier3, <=250 -> tier4,
    else -> tier5)" *)
Definition base_license (tier1 tier2 tier3 tier4 tier5 numAgents : num) : num :=
  if numAgents <= int 25 then tier1
  else if numAgents <= int 50 then tier2
  else if numAgents <= int 100 then tier3
  else if numAgents <= int 250 then tier4
  else tier5.

(** "a rollout-scope multiplier (1 / 1.8 / 2.5 for single/few/multi)" *)
Definition rollout_multiplier (s : Richer.RolloutScope) : num :=
  match s with
  | Richer.single => int 1
  | Richer.few => dec 18 1
  | Richer.multi => dec 25 1
  end.

End Investment.

End Spec.

(* ------------------------------------------------------------------ *)
(** ** Record updates and enumerations used by the statements *)

Definition all_bool : list bool := [true; false].

(** The number literals of the three closures, as mantissa and number of
    fraction digits. *)
Definition source_literals : list (Z * nat) :=
  map (fun z => (z, O))
      [0; 1; 5; 6; 7; 8; 10; 12; 14; 15; 20; 21; 25; 35; 40; 50; 60; 70; 80;
       100; 150; 250; 300; 1760; 25000; 30000; 42000; 45000; 50000; 60000;
       80000; 120000; 150000; 180000; 250000; 350000; 25000000; 150000000;
       500000000; 1500000000]%Z
  ++ map (fun z => (z, 1%nat)) [3; 5; 10; 12; 15; 18; 25; 35]%Z.

(** The ten ordered pairs of five values are strictly increasing. *)
Definition increasing5 (x1 x2 x3 x4 x5 : B64.float) : bool :=
  B64.fgt x2 x1 && B64.fgt x3 x1 && B64.fgt x4 x1 && B64.fgt x5 x1
  && B64.fgt x3 x2 && B64.fgt x4 x2 && B64.fgt x5 x2
  && B64.fgt x4 x3 && B64.fgt x5 x3
  && B64.fgt x5 x4.

Module BandedSweep.
Import Banded.
Local Open Scope js_scope.

Definition with_complexityLevel (l : ComplexityLevel) (a : Answers) : Answers :=
  {| teamSizeBand := teamSizeBand a;
     contactVolumeBand := contactVolumeBand a;
     complexityLevel := l;
     aiLevel := aiLevel a;
     priorityAht := priorityAht a;
     priorityQa := priorityQa a;
     priorityDeflection := priorityDeflection a;
     priorityCx := priorityCx a;
     revenueBand := revenueBand a;
     includeRevenueImpact := includeRevenueImpact a |}.

Definition all_TeamSizeBand : list TeamSizeBand :=
  [T_1_10; T_11_25; T_26_50; T_51_100; T_101_250; T_250_plus].
Definition all_ContactVolumeBand : list ContactVolumeBand :=
  [V_10_20; V_20_30; V_30_40; V_40_60; V_60_plus].
Definition all_AiLevel : list AiLevel := [low; medium; high].
Definition all_RevenueBand : list RevenueBand :=
  [unknown; lt50; R_50_250; R_250_1000; gt1000].

(** The record with the given cost-side answers and revenue left out. *)
Definition probe (t : TeamSizeBand) (v : ContactVolumeBand) (l : ComplexityLevel)
    (ai : AiLevel) (pa pq pd : bool) : Answers :=
  {| teamSizeBand := t;
     contactVolumeBand := v;
     complexityLevel := l;
     aiLevel := ai;
     priorityAht := pa;
     priorityQa := pq;
     priorityDeflection := pd;
     priorityCx := false;
     revenueBand := unknown;
     includeRevenueImpact := false |}.

Definition cost_side (a : Answers) (l : ComplexityLevel) : Answers :=
  probe (teamSizeBand a) (contactVolumeBand a) l (aiLevel a)
        (priorityAht a) (priorityQa a) (priorityDeflection a).

(** The record with revenue included for band [rb]. *)
Definition revenue_probe (rb : RevenueBand) : Answers :=
  {| teamSizeBand := T_26_50;
     contactVolumeBand := V_30_40;
     complexityLevel := L3;
     aiLevel := medium;
     priorityAht := true;
     priorityQa := true;
     priorityDeflection := true;
     priorityCx := true;
     revenueBand := rb;
     includeRevenueImpact := true |}.

(** Every value [revenueProtected] can take. *)
Definition revenue_values : list B64.float :=
  map (fun rb => l_revenueProtected (locals (revenue_probe rb))) all_RevenueBand.

(** The first three summands of [totalAnnualBenefit]. *)
Definition savings_sum (l : Locals B64.float) : B64.float :=
  (l_savingsAht l ||| int 0) + (l_savingsQa l ||| int 0)
  + (l_savingsDeflection l ||| int 0).

Definition total_with (l : Locals B64.float) (r : B64.float) : B64.float :=
  savings_sum l + (r ||| int 0).

(** What one record must satisfy, for each revenue value. *)
Definition sound (pq pd : bool) (x : Locals B64.float) : bool :=
  B64.fgt (l_baselineHandlingCost x) (int 0)
  && B64.fgt (l_ahtReductionPct x) (int 0)
  && B64.fgt (l_savingsAht x) (int 0)
  && (pq || B64.is_zero (l_savingsQa x))
  && (pd || B64.is_zero (l_savingsDeflection x))
  && forallb (fun r =>
       B64.fgt (total_with x r) (int 0)
       && B64.fgt (B64.fdiv (total_with x r) (int 12)) (int 0)) revenue_values.

(** One pass over the five complexity levels, [X l] being the locals at
    level [l] with the other answers fixed. *)
Definition level_sweep (X : ComplexityLevel -> Locals B64.float) (pq pd : bool) : bool :=
  let x1 := X L1 in
  let x2 := X L2 in
  let x3 := X L3 in
  let x4 := X L4 in
  let x5 := X L5 in
  let on f := increasing5 (f x1) (f x2) (f x3) (f x4) (f x5) in
  on l_baselineHandlingCost
  && on l_savingsAht
  && forallb (fun r => on (fun x => total_with x r)) revenue_values
  && sound pq pd x1 && sound pq pd x2 && sound pq pd x3
  && sound pq pd x4 && sound pq pd x5.

End BandedSweep.

Module RicherSweep.
Import Richer.
Local Open Scope js_scope.

Section Updates.
Context {num : Type}.

Definition with_complexityLevel (l : ComplexityLevel) (a : Answers num) : Answers num :=
  {| teamSizeBand := teamSizeBand a;
     costMode := costMode a;
     knownCostPerAgent := knownCostPerAgent a;
     regionBand := regionBand a;
     contactVolumeBand := contactVolumeBand a;
     complexityLevel := l;
     aiMaturity := aiMaturity a;
     priorityAht := priorityAht a;
     priorityQa := priorityQa a;
     priorityDeflection := priorityDeflection a;
     priorityCx := priorityCx a;
     revenueBand := revenueBand a;
     revenueImpact := revenueImpact a;
     skipRevenueImpact := skipRevenueImpact a;
     rolloutScope := rolloutScope a;
     investmentMode := investmentMode a;
     customEdgetierCost := customEdgetierCost a |}.

Definition with_rolloutScope (s : RolloutScope) (a : Answers num) : Answers num :=
  {| teamSizeBand := teamSizeBand a;
     costMode := costMode a;
     knownCostPerAgent := knownCostPerAgent a;
     regionBand := regionBand a;
     contactVolumeBand := contactVolumeBand a;
     complexityLevel := complexityLevel a;
     aiMaturity := aiMaturity a;
     priorityAht := priorityAht a;
     priorityQa := priorityQa a;
     priorityDeflection := priorityDeflection a;
     priorityCx := priorityCx a;
     revenueBand := revenueBand a;
     revenueImpact := revenueImpact a;
     skipRevenueImpact := skipRevenueImpact a;
     rolloutScope := s;
     investmentMode := investmentMode a;
     customEdgetierCost := customEdgetierCost a |}.

Definition with_customEdgetierCost (c : num) (a : Answers num) : Answers num :=
  {| teamSizeBand := teamSizeBand a;
     costMode := costMode a;
     knownCostPerAgent := knownCostPerAgent a;
     regionBand := regionBand a;
     contactVolumeBand := contactVolumeBand a;
     complexityLevel := complexityLevel a;
     aiMaturity := aiMaturity a;
     priorityAht := priorityAht a;
     priorityQa := priorityQa a;
     priorityDeflection := priorityDeflection a;
     priorityCx := priorityCx a;
     revenueBand := revenueBand a;
     revenueImpact := revenueImpact a;
     skipRevenueImpact := skipRevenueImpact a;
     rolloutScope := rolloutScope a;
     investmentMode := investmentMode a;
     customEdgetierCost := c |}.

Definition with_investment (m : InvestmentMode) (c : num) (a : Answers num) : Answers num :=
  {| teamSizeBand := teamSizeBand a;
     costMode := costMode a;
     knownCostPerAgent := knownCostPerAgent a;
     regionBand := regionBand a;
     contactVolumeBand := contactVolumeBand a;
     complexityLevel := complexityLevel a;
     aiMaturity := aiMaturity a;
     priorityAht := priorityAht a;
     priorityQa := priorityQa a;
     priorityDeflection := priorityDeflection a;
     priorityCx := priorityCx a;
     revenueBand := revenueBand a;
     revenueImpact := revenueImpact a;
     skipRevenueImpact := skipRevenueImpact a;
     rolloutScope := rolloutScope a;
     investmentMode := m;
     customEdgetierCost := c |}.

Definition with_knownCost (c : num) (a : Answers num) : Answers num :=
  {| teamSizeBand := teamSizeBand a;
     costMode := known;
     knownCostPerAgent := c;
     regionBand := regionBand a;
     contactVolumeBand := contactVolumeBand a;
     complexityLevel := complexityLevel a;
     aiMaturity := aiMaturity a;
     priorityAht := priorityAht a;
     priorityQa := priorityQa a;
     priorityDeflection := priorityDeflection a;
     priorityCx := priorityCx a;
     revenueBand := revenueBand a;
     revenueImpact := revenueImpact a;
     skipRevenueImpact := skipRevenueImpact a;
     rolloutScope := rolloutScope a;
     investmentMode := investmentMode a;
     customEdgetierCost := customEdgetierCost a |}.

End Updates.

Definition all_TeamSizeBand : list TeamSizeBand :=
  [T_10_25; T_26_50; T_51_100; T_101_250; T_250_plus].
Definition all_RegionBand : list RegionBand :=
  [UK_IE_NORDICS_ANZ; SOUTHERN_EUROPE; EASTERN_EUROPE; APAC_INDIA_PH].
Definition all_ContactVolumeBand : list ContactVolumeBand :=
  [V_20_30; V_30_40; V_40_60; V_60_plus].
Definition all_AiMaturity : list AiMaturity := [low; moderate; advanced].
Definition all_RevenueBand : list RevenueBand :=
  [unknown; lt50; R_50_250; R_250_1000; gt1000].
Definition all_RevenueImpact : list RevenueImpact := [cost; retention; upsell].

(** The cost per agent comes from the region table: benchmark mode, or
    known mode with a value that is not above zero. *)
Definition table_cost (a : Answers B64.float) : bool :=
  negb (costMode_eqb (costMode a) known && (knownCostPerAgent a > int 0)).

(** The record with the given cost-side answers, the region table as
    the cost source and revenue left out. *)
Definition probe (t : TeamSizeBand) (r : RegionBand) (v : ContactVolumeBand)
    (l : ComplexityLevel) (ai : AiMaturity) (pa pq pd : bool) : Answers B64.float :=
  {| teamSizeBand := t;
     costMode := benchmark;
     knownCostPerAgent := int 0;
     regionBand := r;
     contactVolumeBand := v;
     complexityLevel := l;
     aiMaturity := ai;
     priorityAht := pa;
     priorityQa := pq;
     priorityDeflection := pd;
     priorityCx := false;
     revenueBand := unknown;
     revenueImpact := retention;
     skipRevenueImpact := true;
     rolloutScope := single;
     investmentMode := auto;
     customEdgetierCost := int 0 |}.

Definition cost_side (a : Answers B64.float) (l : ComplexityLevel) : Answers B64.float :=
  probe (teamSizeBand a) (regionBand a) (contactVolumeBand a) l (aiMaturity a)
        (priorityAht a) (priorityQa a) (priorityDeflection a).

(** The record with revenue included for band [rb] and impact [ri]. *)
Definition revenue_probe (rb : RevenueBand) (ri : RevenueImpact) : Answers B64.float :=
  {| teamSizeBand := T_51_100;
     costMode := benchmark;
     knownCostPerAgent := int 0;
     regionBand := UK_IE_NORDICS_ANZ;
     contactVolumeBand := V_40_60;
     complexityLevel := L3;
     aiMaturity := moderate;
     priorityAht := true;
     priorityQa := true;
     priorityDeflection := true;
     priorityCx := true;
     revenueBand := rb;
     revenueImpact := ri;
     skipRevenueImpact := false;
     rolloutScope := single;
     investmentMode := auto;
     customEdgetierCost := int 0 |}.

(** Every value [revenueProtected] can take. *)
Definition revenue_values : list B64.float :=
  flat_map (fun rb =>
    map (fun ri => l_revenueProtected (locals (revenue_probe rb ri)))
        all_RevenueImpact) all_RevenueBand.

(** The first three summands of [totalAnnualBenefit]. *)
Definition savings_sum (l : Locals B64.float) : B64.float :=
  (l_savingsAht l ||| int 0) + (l_savingsQa l ||| int 0)
  + (l_savingsDeflection l ||| int 0).

Definition total_with (l : Locals B64.float) (r : B64.float) : B64.float :=
  savings_sum l + (r ||| int 0).

(** What one record must satisfy, for each revenue value. *)
Definition sound (pq pd : bool) (x : Locals B64.float) : bool :=
  B64.fgt (l_baselineHandlingCost x) (int 0)
  && B64.fgt (l_ahtReductionPct x) (int 0)
  && B64.fgt (l_savingsAht x) (int 0)
  && (pq || B64.is_zero (l_savingsQa x))
  && (pd || B64.is_zero (l_savingsDeflection x))
  && forallb (fun r =>
       B64.fgt (total_with x r) (int 0)
       && B64.fgt (B64.fdiv (total_with x r) (int 12)) (int 0)) revenue_values.

(** One pass over the five complexity levels, [X l] being the locals at
    level [l] with the other answers fixed. *)
Definition level_sweep (X : ComplexityLevel -> Locals B64.float) (pq pd : bool) : bool :=
  let x1 := X L1 in
  let x2 := X L2 in
  let x3 := X L3 in
  let x4 := X L4 in
  let x5 := X L5 in
  let on f := increasing5 (f x1) (f x2) (f x3) (f x4) (f x5) in
  on l_baselineHandlingCost
  && on l_savingsAht
  && forallb (fun r => on (fun x => total_with x r)) revenue_values
  && sound pq pd x1 && sound pq pd x2 && sound pq pd x3
  && sound pq pd x4 && sound pq pd x5.

End RicherSweep.


(* ------------------------------------------------------------------ *)
(** ** Records and measures the statements refer to *)

Section Scenario.

Import Banded.

(** teamSizeBand "26-50", contactVolumeBand "30-40", complexityLevel 3,
    aiLevel "medium", every priority on except customerExperience,
    revenue not included; the revenue band is left free. *)
Definition scenario (rb : RevenueBand) : Answers :=
  {| teamSizeBand := T_26_50;
     contactVolumeBand := V_30_40;
     complexityLevel := L3;
     aiLevel := medium;
     priorityAht := true;
     priorityQa := true;
     priorityDeflection := true;
     priorityCx := false;
     revenueBand := rb;
     includeRevenueImpact := false |}.

(** The distance between a finite double and an integer. *)
Definition distance (a : B64.float) (n : Z) : option Q :=
  match B64.to_Q a with
  | Some q => Some (Qabs (q - inject_Z n))
  | None => None
  end.

(** What the specification's own rounding leaves open on the totals of
    the scenario: it takes costPerContactBaseline as 2.983, three
    decimals, that is up to one half of 0.001 off for each of the 52920
    contacts avoided. *)
Definition stated_rounding : Q := 52920 * (1 # 2000).

(** [a] is finite and at most [tol] away from the integer [n]. *)
Definition within (tol : Q) (a : B64.float) (n : Z) : bool :=
  match distance a n with
  | Some d => Qle_bool d tol
  | None => false
  end.

End Scenario.

Section Investment.

Import Richer RicherSweep.

(** The initial answers of the richer wizard, on doubles. *)
Definition richer_initial : Answers B64.float := initial.

(** The richer wizard with its initial answers, a custom investment and
    the text "-5" typed into the cost field. *)
Definition custom_minus_five : Answers B64.float :=
  with_investment custom (Input.onChange "-5") richer_initial.

(** [Math.max(0, x)]-style clamping, as the specification words it. *)
Definition clamp_nonneg (x : B64.float) : B64.float :=
  if B64.is_negative x then int 0 else x.

End Investment.







(** The direct form with no contacts, "Improve CX" on and the text
    "5e-322" typed into the revenue field. *)
Definition direct_tiny_benefit : Direct.Answers B64.float :=
  {| Direct.numAgents := int 80;
     Direct.contactsPerMonth := Input.onChange "0";
     Direct.ahtMins := int 7;
     Direct.annualCostPerAgent := int 45000;
     Direct.reduceAht := true;
     Direct.reduceQa := true;
     Direct.reduceContacts := true;
     Direct.improveCx := true;
     Direct.edgetierAnnualCost := int 180000;
     Direct.annualRevenueInfluenced := Input.onChange "5e-322" |}.

(** The payback rule of the three closures, read on its inputs and its
    output: zero unless the benefit and its twelfth are above zero, the
    quotient otherwise, and never negative for a cost that is not. *)
Definition payback_law (total cost payback : B64.float) : Prop :=
  (B64.fle total (int 0) = true -> payback = int 0)
  /\ (B64.fgt total (int 0) = false -> payback = int 0)
  /\ (B64.fgt (B64.fdiv total (int 12)) (int 0) = false -> payback = int 0)
  /\ (B64.fgt total (int 0) = true ->
      B64.fgt (B64.fdiv total (int 12)) (int 0) = true ->
      payback = B64.fdiv cost (B64.fdiv total (int 12)))
  /\ (B64.is_negative cost = false -> B64.is_negative payback = false).

(** Closes a goal that is literally one of the hypotheses. *)
Ltac pick := match goal with H : ?G |- ?G => exact H end.

(* ------------------------------------------------------------------ *)
(** ** Step navigation

    Each component keeps its step cursor in [useState(1)] and moves it
    with two updater functions, [goNext] and [goBack].  The three
    components differ in the number of the last step only: 7 in the
    banded wizard, 3 in the direct form and 6 in the richer wizard. *)

Module Steps.

Local Open Scope js_scope.

(** [(prev) => prev < last ? prev + 1 : prev]; on numbers [prev < last]
    is [last > prev]. *)
Definition goNext (last prev : B64.float) : B64.float :=
  if last > prev then prev + int 1 else prev.

(** [(prev) => prev > 1 ? prev - 1 : prev] *)
Definition goBack (prev : B64.float) : B64.float :=
  if prev > int 1 then prev - int 1 else prev.

(** [showResults = currentStep === last], which is also the
    [disabled] attribute of the Next button. *)
Definition showResults (last currentStep : B64.float) : bool :=
  PrimFloat.eqb currentStep last.

(** [disabled={currentStep === 1}] of the Back button. *)
Definition backDisabled (currentStep : B64.float) : bool :=
  PrimFloat.eqb currentStep (int 1).

Inductive Click : Type := Next | Back.

Definition click (last currentStep : B64.float) (c : Click) : B64.float :=
  match c with
  | Next => goNext last currentStep
  | Back => goBack currentStep
  end.

(** The cursor after a sequence of clicks on a freshly mounted
    component. *)
Definition after (last : B64.float) (clicks : list Click) : B64.float :=
  fold_left (click last) clicks (int 1).

(** The last step of each component. *)
Definition banded_last : Z := 7.
Definition direct_last : Z := 3.
Definition richer_last : Z := 6.

(** The same walk on the integers, kept between 1 and [n]. *)
Definition walk (n k : Z) (c : Click) : Z :=
  match c with
  | Next => Z.min n (k + 1)
  | Back => Z.max 1 (k - 1)
  end.

Definition position (n : Z) (clicks : list Click) : Z :=
  fold_left (walk n) clicks 1%Z.

Definition nexts (clicks : list Click) : nat :=
  List.length (filter (fun c => match c with Next => true | Back => false end) clicks).

End Steps.

(* ------------------------------------------------------------------ *)
(** ** Display formatting

    [formatCurrency], [formatNumber] and [formatPercent] are the same in
    the three files.  The digits come from the host
    ([Number.prototype.toLocaleString] for the locale "en-IE" with no
    fraction digits, and [Number.prototype.toFixed]); they are taken as
    they are given. *)

Module Format.

Local Open Scope js_scope.
Local Open Scope string_scope.

Section Host.

(** [x.toLocaleString("en-IE", { maximumFractionDigits: 0 })] *)
Variable toLocaleString : B64.float -> string.
(** [x.toFixed(digits)] *)
Variable toFixed : nat -> B64.float -> string.

(** [formatCurrency(value, currency = "€")]; an omitted argument is
    [None]. *)
Definition formatCurrency (value : B64.float) (currency : option string) : string :=
  if negb (B64.is_finite value) then "-"
  else
    let sign := if int 0 > value then "-" else "" in
    let abs := PrimFloat.abs value in
    sign ++ (currency ?? "€") ++ toLocaleString abs.

Definition formatNumber (value : B64.float) : string :=
  if negb (B64.is_finite value) then "-" else toLocaleString value.

Definition formatPercent (value : B64.float) : string :=
  if negb (B64.is_finite value) then "-" else toFixed 0 value ++ "%".

(** The payback cell of the three result panels:
    [paybackMonths > 0 ? `${paybackMonths.toFixed(1)} months` : "-"]. *)
Definition paybackCell (paybackMonths : B64.float) : string :=
  if paybackMonths > int 0 then toFixed 1 paybackMonths ++ " months" else "-".

End Host.

End Format.

(* ------------------------------------------------------------------ *)
(** ** Raising one answer of the 7-step wizard *)

Module BandedOrder.

Import Banded BandedSweep.
Local Open Scope js_scope.

Definition team_rank (t : TeamSizeBand) : Z :=
  match t with
  | T_1_10 => 1 | T_11_25 => 2 | T_26_50 => 3
  | T_51_100 => 4 | T_101_250 => 5 | T_250_plus => 6
  end.

Definition volume_rank (v : ContactVolumeBand) : Z :=
  match v with
  | V_10_20 => 1 | V_20_30 => 2 | V_30_40 => 3 | V_40_60 => 4 | V_60_plus => 5
  end.

(** How much automation is in place today. *)
Definition automation_rank (m : AiLevel) : Z :=
  match m with low => 1 | medium => 2 | high => 3 end.

Definition all_ComplexityLevel : list ComplexityLevel := [L1; L2; L3; L4; L5].

Definition with_teamSizeBand (t : TeamSizeBand) (a : Answers) : Answers :=
  {| teamSizeBand := t;
     contactVolumeBand := contactVolumeBand a;
     complexityLevel := complexityLevel a;
     aiLevel := aiLevel a;
     priorityAht := priorityAht a;
     priorityQa := priorityQa a;
     priorityDeflection := priorityDeflection a;
     priorityCx := priorityCx a;
     revenueBand := revenueBand a;
     includeRevenueImpact := includeRevenueImpact a |}.

Definition with_contactVolumeBand (v : ContactVolumeBand) (a : Answers) : Answers :=
  {| teamSizeBand := teamSizeBand a;
     contactVolumeBand := v;
     complexityLevel := complexityLevel a;
     aiLevel := aiLevel a;
     priorityAht := priorityAht a;
     priorityQa := priorityQa a;
     priorityDeflection := priorityDeflection a;
     priorityCx := priorityCx a;
     revenueBand := revenueBand a;
     includeRevenueImpact := includeRevenueImpact a |}.

Definition with_aiLevel (m : AiLevel) (a : Answers) : Answers :=
  {| teamSizeBand := teamSizeBand a;
     contactVolumeBand := contactVolumeBand a;
     complexityLevel := complexityLevel a;
     aiLevel := m;
     priorityAht := priorityAht a;
     priorityQa := priorityQa a;
     priorityDeflection := priorityDeflection a;
     priorityCx := priorityCx a;
     revenueBand := revenueBand a;
     includeRevenueImpact := includeRevenueImpact a |}.

Definition with_priorityAht (b : bool) (a : Answers) : Answers :=
  {| teamSizeBand := teamSizeBand a;
     contactVolumeBand := contactVolumeBand a;
     complexityLevel := complexityLevel a;
     aiLevel := aiLevel a;
     priorityAht := b;
     priorityQa := priorityQa a;
     priorityDeflection := priorityDeflection a;
     priorityCx := priorityCx a;
     revenueBand := revenueBand a;
     includeRevenueImpact := includeRevenueImpact a |}.

Definition with_priorityQa (b : bool) (a : Answers) : Answers :=
  {| teamSizeBand := teamSizeBand a;
     contactVolumeBand := contactVolumeBand a;
     complexityLevel := complexityLevel a;
     aiLevel := aiLevel a;
     priorityAht := priorityAht a;
     priorityQa := b;
     priorityDeflection := priorityDeflection a;
     priorityCx := priorityCx a;
     revenueBand := revenueBand a;
     includeRevenueImpact := includeRevenueImpact a |}.

Definition with_priorityDeflection (b : bool) (a : Answers) : Answers :=
  {| teamSizeBand := teamSizeBand a;
     contactVolumeBand := contactVolumeBand a;
     complexityLevel := complexityLevel a;
     aiLevel := aiLevel a;
     priorityAht := priorityAht a;
     priorityQa := priorityQa a;
     priorityDeflection := b;
     priorityCx := priorityCx a;
     revenueBand := revenueBand a;
     includeRevenueImpact := includeRevenueImpact a |}.

(** The revenue answers set so that revenue is left out. *)
Definition without_revenue (a : Answers) : Answers :=
  {| teamSizeBand := teamSizeBand a;
     contactVolumeBand := contactVolumeBand a;
     complexityLevel := complexityLevel a;
     aiLevel := aiLevel a;
     priorityAht := priorityAht a;
     priorityQa := priorityQa a;
     priorityDeflection := priorityDeflection a;
     priorityCx := priorityCx a;
     revenueBand := revenueBand a;
     includeRevenueImpact := false |}.

(** [raised a b]: [b] is [a] with one answer of the cost side moved in
    the direction of more work or more room for improvement. *)
Inductive raised : Answers -> Answers -> Prop :=
| larger_team (a : Answers) (t : TeamSizeBand) :
    (team_rank (teamSizeBand a) < team_rank t)%Z ->
    raised a (with_teamSizeBand t a)
| more_contacts (a : Answers) (v : ContactVolumeBand) :
    (volume_rank (contactVolumeBand a) < volume_rank v)%Z ->
    raised a (with_contactVolumeBand v a)
| more_complex (a : Answers) (l : ComplexityLevel) :
    (level_rank (complexityLevel a) < level_rank l)%Z ->
    raised a (with_complexityLevel l a)
| less_automation (a : Answers) (m : AiLevel) :
    (automation_rank m < automation_rank (aiLevel a))%Z ->
    raised a (with_aiLevel m a)
| prioritise_aht (a : Answers) :
    priorityAht a = false -> raised a (with_priorityAht true a)
| prioritise_qa (a : Answers) :
    priorityQa a = false -> raised a (with_priorityQa true a)
| prioritise_deflection (a : Answers) :
    priorityDeflection a = false -> raised a (with_priorityDeflection true a).

(** The seven answers of the cost side. *)
Record Side : Type := {
  s_team : TeamSizeBand;
  s_volume : ContactVolumeBand;
  s_level : ComplexityLevel;
  s_ai : AiLevel;
  s_aht : bool;
  s_qa : bool;
  s_deflection : bool
}.

Definition side_of (a : Answers) : Side :=
  {| s_team := teamSizeBand a;
     s_volume := contactVolumeBand a;
     s_level := complexityLevel a;
     s_ai := aiLevel a;
     s_aht := priorityAht a;
     s_qa := priorityQa a;
     s_deflection := priorityDeflection a |}.

Definition of_side (p : Side) : Answers :=
  probe (s_team p) (s_volume p) (s_level p) (s_ai p)
        (s_aht p) (s_qa p) (s_deflection p).

(** Every side that is one raise above [p]. *)
Definition ups (p : Side) : list Side :=
  map (fun t => {| s_team := t; s_volume := s_volume p; s_level := s_level p;
                   s_ai := s_ai p; s_aht := s_aht p; s_qa := s_qa p;
                   s_deflection := s_deflection p |})
      (filter (fun t => (team_rank (s_team p) <? team_rank t)%Z) all_TeamSizeBand)
  ++ map (fun v => {| s_team := s_team p; s_volume := v; s_level := s_level p;
                      s_ai := s_ai p; s_aht := s_aht p; s_qa := s_qa p;
                      s_deflection := s_deflection p |})
         (filter (fun v => (volume_rank (s_volume p) <? volume_rank v)%Z)
                 all_ContactVolumeBand)
  ++ map (fun l => {| s_team := s_team p; s_volume := s_volume p; s_level := l;
                      s_ai := s_ai p; s_aht := s_aht p; s_qa := s_qa p;
                      s_deflection := s_deflection p |})
         (filter (fun l => (level_rank (s_level p) <? level_rank l)%Z)
                 all_ComplexityLevel)
  ++ map (fun m => {| s_team := s_team p; s_volume := s_volume p; s_level := s_level p;
                      s_ai := m; s_aht := s_aht p; s_qa := s_qa p;
                      s_deflection := s_deflection p |})
         (filter (fun m => (automation_rank m <? automation_rank (s_ai p))%Z)
                 all_AiLevel)
  ++ (if s_aht p then []
      else [{| s_team := s_team p; s_volume := s_volume p; s_level := s_level p;
               s_ai := s_ai p; s_aht := true; s_qa := s_qa p;
               s_deflection := s_deflection p |}])
  ++ (if s_qa p then []
      else [{| s_team := s_team p; s_volume := s_volume p; s_level := s_level p;
               s_ai := s_ai p; s_aht := s_aht p; s_qa := true;
               s_deflection := s_deflection p |}])
  ++ (if s_deflection p then []
      else [{| s_team := s_team p; s_volume := s_volume p; s_level := s_level p;
               s_ai := s_ai p; s_aht := s_aht p; s_qa := s_qa p;
               s_deflection := true |}]).

(** From the locals [x] to the locals [y]: no savings fall and, for
    each value of the revenue term, the total rises. *)
Definition raises (x y : Locals B64.float) : bool :=
  (l_savingsAht x <= l_savingsAht y)
  && (l_savingsQa x <= l_savingsQa y)
  && (l_savingsDeflection x <= l_savingsDeflection y)
  && (l_totalHoursSaved x <= l_totalHoursSaved y)
  && forallb (fun r => total_with y r > total_with x r) revenue_values.

Definition up_check (p : Side) : bool :=
  let x := locals (of_side p) in
  forallb (fun q => raises x (locals (of_side q))) (ups p).

Definition every_side (P : Side -> bool) : bool :=
  forallb (fun t => forallb (fun v => forallb (fun l => forallb (fun m =>
  forallb (fun pa => forallb (fun pq => forallb (fun pd =>
    P {| s_team := t; s_volume := v; s_level := l; s_ai := m;
         s_aht := pa; s_qa := pq; s_deflection := pd |})
  all_bool) all_bool) all_bool)
  all_AiLevel) all_ComplexityLevel) all_ContactVolumeBand) all_TeamSizeBand.

(** A check on each of the 72000 answer records. *)
Definition every (P : Answers -> bool) : bool :=
  forallb (fun t => forallb (fun v => forallb (fun l => forallb (fun m =>
  forallb (fun pa => forallb (fun pq => forallb (fun pd => forallb (fun cx =>
  forallb (fun rb => forallb (fun inc =>
    P {| teamSizeBand := t; contactVolumeBand := v; complexityLevel := l;
         aiLevel := m; priorityAht := pa; priorityQa := pq;
         priorityDeflection := pd; priorityCx := cx; revenueBand := rb;
         includeRevenueImpact := inc |})
  all_bool) all_RevenueBand) all_bool) all_bool) all_bool) all_bool)
  all_AiLevel) all_ComplexityLevel) all_ContactVolumeBand) all_TeamSizeBand.

Definition finite_results (r : Results B64.float) : bool :=
  B64.is_finite (numAgents r) && B64.is_finite (contactsPerYear r)
  && B64.is_finite (ahtMins r) && B64.is_finite (costPerContactBaseline r)
  && B64.is_finite (contactsAvoidedPerYear r) && B64.is_finite (savingsAht r)
  && B64.is_finite (savingsQa r) && B64.is_finite (savingsDeflection r)
  && B64.is_finite (revenueProtected r) && B64.is_finite (totalAnnualBenefit r)
  && B64.is_finite (netGain r) && B64.is_finite (roiPct r)
  && B64.is_finite (totalHoursSaved r) && B64.is_finite (paybackMonths r)
  && B64.is_finite (edgetierAnnualCost r).

(** Savings, volumes and the payback are not negative; the benefit,
    the cost and the payback are above zero. *)
Definition signs_ok (r : Results B64.float) : bool :=
  (contactsPerYear r > int 0) && (costPerContactBaseline r > int 0)
  && (savingsAht r > int 0)
  && (int 0 <= savingsQa r) && (int 0 <= savingsDeflection r)
  && (int 0 <= revenueProtected r) && (int 0 <= contactsAvoidedPerYear r)
  && (totalAnnualBenefit r > int 0) && (totalHoursSaved r > int 0)
  && (edgetierAnnualCost r > int 0) && (paybackMonths r > int 0).

Definition healthy (a : Answers) : bool :=
  let r := results a in finite_results r && signs_ok r.

(** Payback under a year, a positive net gain and a positive ROI come
    together. *)
Definition verdicts_agree (a : Answers) : bool :=
  let r := results (num:=B64.float) a in
  Bool.eqb (int 12 > paybackMonths r) (netGain r > int 0)
  && Bool.eqb (roiPct r > int 0) (netGain r > int 0)
  && Bool.eqb (paybackMonths r > int 12) (int 0 > netGain r)
  && Bool.eqb (int 0 > roiPct r) (int 0 > netGain r).

(** Each saving stays below the cost it is a share of. *)
Definition within_baseline (a : Answers) : bool :=
  let x := locals (num:=B64.float) a in
  (l_baselineHandlingCost x > l_savingsAht x)
  && (l_baselineHandlingCost x > l_savingsDeflection x)
  && (l_baselineQaCost x > l_savingsQa x)
  && (l_contactsPerYear x > l_contactsAvoidedPerYear x)
  && (l_baselineHandlingHours x + l_baselineQaHours x > l_totalHoursSaved x).

(** Revenue only adds to the benefit that is there without it. *)
Definition revenue_adds (a : Answers) : bool :=
  let x := locals (num:=B64.float) a in
  let y := locals (num:=B64.float) (without_revenue a) in
  (l_totalAnnualBenefit y <= l_totalAnnualBenefit x)
  && Bool.eqb (l_totalAnnualBenefit x > l_totalAnnualBenefit y)
              (l_revenueProtected x > int 0).

End BandedOrder.

(* ------------------------------------------------------------------ *)
(** ** Raising one answer of the richer wizard *)

Module RicherOrder.

Import Richer RicherSweep.
Local Open Scope js_scope.

Definition team_rank (t : TeamSizeBand) : Z :=
  match t with
  | T_10_25 => 1 | T_26_50 => 2 | T_51_100 => 3 | T_101_250 => 4 | T_250_plus => 5
  end.

(** The regions by their cost per agent in [REGION_COST_MAP]. *)
Definition region_rank (g : RegionBand) : Z :=
  match g with
  | APAC_INDIA_PH => 1 | EASTERN_EUROPE => 2 | SOUTHERN_EUROPE => 3
  | UK_IE_NORDICS_ANZ => 4
  end.

Definition volume_rank (v : ContactVolumeBand) : Z :=
  match v with
  | V_20_30 => 1 | V_30_40 => 2 | V_40_60 => 3 | V_60_plus => 4
  end.

(** How much automation is in place today. *)
Definition automation_rank (m : AiMaturity) : Z :=
  match m with low => 1 | moderate => 2 | advanced => 3 end.

Definition all_ComplexityLevel : list ComplexityLevel := [L1; L2; L3; L4; L5].
Definition all_RolloutScope : list RolloutScope := [single; few; multi].

Definition with_teamSizeBand (t : TeamSizeBand) (a : Answers B64.float) : Answers B64.float :=
  {| teamSizeBand := t;
     costMode := costMode a;
     knownCostPerAgent := knownCostPerAgent a;
     regionBand := regionBand a;
     contactVolumeBand := contactVolumeBand a;
     complexityLevel := complexityLevel a;
     aiMaturity := aiMaturity a;
     priorityAht := priorityAht a;
     priorityQa := priorityQa a;
     priorityDeflection := priorityDeflection a;
     priorityCx := priorityCx a;
     revenueBand := revenueBand a;
     revenueImpact := revenueImpact a;
     skipRevenueImpact := skipRevenueImpact a;
     rolloutScope := rolloutScope a;
     investmentMode := investmentMode a;
     customEdgetierCost := customEdgetierCost a |}.

Definition with_regionBand (g : RegionBand) (a : Answers B64.float) : Answers B64.float :=
  {| teamSizeBand := teamSizeBand a;
     costMode := costMode a;
     knownCostPerAgent := knownCostPerAgent a;
     regionBand := g;
     contactVolumeBand := contactVolumeBand a;
     complexityLevel := complexityLevel a;
     aiMaturity := aiMaturity a;
     priorityAht := priorityAht a;
     priorityQa := priorityQa a;
     priorityDeflection := priorityDeflection a;
     priorityCx := priorityCx a;
     revenueBand := revenueBand a;
     revenueImpact := revenueImpact a;
     skipRevenueImpact := skipRevenueImpact a;
     rolloutScope := rolloutScope a;
     investmentMode := investmentMode a;
     customEdgetierCost := customEdgetierCost a |}.

Definition with_contactVolumeBand (v : ContactVolumeBand) (a : Answers B64.float) : Answers B64.float :=
  {| teamSizeBand := teamSizeBand a;
     costMode := costMode a;
     knownCostPerAgent := knownCostPerAgent a;
     regionBand := regionBand a;
     contactVolumeBand := v;
     complexityLevel := complexityLevel a;
     aiMaturity := aiMaturity a;
     priorityAht := priorityAht a;
     priorityQa := priorityQa a;
     priorityDeflection := priorityDeflection a;
     priorityCx := priorityCx a;
     revenueBand := revenueBand a;
     revenueImpact := revenueImpact a;
     skipRevenueImpact := skipRevenueImpact a;
     rolloutScope := rolloutScope a;
     investmentMode := investmentMode a;
     customEdgetierCost := customEdgetierCost a |}.

Definition with_aiMaturity (m : AiMaturity) (a : Answers B64.float) : Answers B64.float :=
  {| teamSizeBand := teamSizeBand a;
     costMode := costMode a;
     knownCostPerAgent := knownCostPerAgent a;
     regionBand := regionBand a;
     contactVolumeBand := contactVolumeBand a;
     complexityLevel := complexityLevel a;
     aiMaturity := m;
     priorityAht := priorityAht a;
     priorityQa := priorityQa a;
     priorityDeflection := priorityDeflection a;
     priorityCx := priorityCx a;
     revenueBand := revenueBand a;
     revenueImpact := revenueImpact a;
     skipRevenueImpact := skipRevenueImpact a;
     rolloutScope := rolloutScope a;
     investmentMode := investmentMode a;
     customEdgetierCost := customEdgetierCost a |}.

Definition with_priorityAht (b : bool) (a : Answers B64.float) : Answers B64.float :=
  {| teamSizeBand := teamSizeBand a;
     costMode := costMode a;
     knownCostPerAgent := knownCostPerAgent a;
     regionBand := regionBand a;
     contactVolumeBand := contactVolumeBand a;
     complexityLevel := complexityLevel a;
     aiMaturity := aiMaturity a;
     priorityAht := b;
     priorityQa := priorityQa a;
     priorityDeflection := priorityDeflection a;
     priorityCx := priorityCx a;
     revenueBand := revenueBand a;
     revenueImpact := revenueImpact a;
     skipRevenueImpact := skipRevenueImpact a;
     rolloutScope := rolloutScope a;
     investmentMode := investmentMode a;
     customEdgetierCost := customEdgetierCost a |}.

Definition with_priorityQa (b : bool) (a : Answers B64.float) : Answers B64.float :=
  {| teamSizeBand := teamSizeBand a;
     costMode := costMode a;
     knownCostPerAgent := knownCostPerAgent a;
     regionBand := regionBand a;
     contactVolumeBand := contactVolumeBand a;
     complexityLevel := complexityLevel a;
     aiMaturity := aiMaturity a;
     priorityAht := priorityAht a;
     priorityQa := b;
     priorityDeflection := priorityDeflection a;
     priorityCx := priorityCx a;
     revenueBand := revenueBand a;
     revenueImpact := revenueImpact a;
     skipRevenueImpact := skipRevenueImpact a;
     rolloutScope := rolloutScope a;
     investmentMode := investmentMode a;
     customEdgetierCost := customEdgetierCost a |}.

Definition with_priorityDeflection (b : bool) (a : Answers B64.float) : Answers B64.float :=
  {| teamSizeBand := teamSizeBand a;
     costMode := costMode a;
     knownCostPerAgent := knownCostPerAgent a;
     regionBand := regionBand a;
     contactVolumeBand := contactVolumeBand a;
     complexityLevel := complexityLevel a;
     aiMaturity := aiMaturity a;
     priorityAht := priorityAht a;
     priorityQa := priorityQa a;
     priorityDeflection := b;
     priorityCx := priorityCx a;
     revenueBand := revenueBand a;
     revenueImpact := revenueImpact a;
     skipRevenueImpact := skipRevenueImpact a;
     rolloutScope := rolloutScope a;
     investmentMode := investmentMode a;
     customEdgetierCost := customEdgetierCost a |}.

(** [raised a b]: [b] is [a] with one answer of the cost side moved in
    the direction of more work, a higher cost per agent or more room
    for improvement. *)
Inductive raised : Answers B64.float -> Answers B64.float -> Prop :=
| larger_team (a : Answers B64.float) (t : TeamSizeBand) :
    (team_rank (teamSizeBand a) < team_rank t)%Z ->
    raised a (with_teamSizeBand t a)
| costlier_region (a : Answers B64.float) (g : RegionBand) :
    (region_rank (regionBand a) < region_rank g)%Z ->
    raised a (with_regionBand g a)
| more_contacts (a : Answers B64.float) (v : ContactVolumeBand) :
    (volume_rank (contactVolumeBand a) < volume_rank v)%Z ->
    raised a (with_contactVolumeBand v a)
| more_complex (a : Answers B64.float) (l : ComplexityLevel) :
    (level_rank (complexityLevel a) < level_rank l)%Z ->
    raised a (with_complexityLevel l a)
| less_automation (a : Answers B64.float) (m : AiMaturity) :
    (automation_rank m < automation_rank (aiMaturity a))%Z ->
    raised a (with_aiMaturity m a)
| prioritise_aht (a : Answers B64.float) :
    priorityAht a = false -> raised a (with_priorityAht true a)
| prioritise_qa (a : Answers B64.float) :
    priorityQa a = false -> raised a (with_priorityQa true a)
| prioritise_deflection (a : Answers B64.float) :
    priorityDeflection a = false -> raised a (with_priorityDeflection true a).

(** The eight answers of the cost side when the cost per agent comes
    from the region table. *)
Record Side : Type := {
  s_team : TeamSizeBand;
  s_region : RegionBand;
  s_volume : ContactVolumeBand;
  s_level : ComplexityLevel;
  s_ai : AiMaturity;
  s_aht : bool;
  s_qa : bool;
  s_deflection : bool
}.

Definition side_of (a : Answers B64.float) : Side :=
  {| s_team := teamSizeBand a;
     s_region := regionBand a;
     s_volume := contactVolumeBand a;
     s_level := complexityLevel a;
     s_ai := aiMaturity a;
     s_aht := priorityAht a;
     s_qa := priorityQa a;
     s_deflection := priorityDeflection a |}.

Definition of_side (p : Side) : Answers B64.float :=
  probe (s_team p) (s_region p) (s_volume p) (s_level p) (s_ai p)
        (s_aht p) (s_qa p) (s_deflection p).

(** Every side that is one raise above [p]. *)
Definition ups (p : Side) : list Side :=
  map (fun t => {| s_team := t; s_region := s_region p; s_volume := s_volume p;
                   s_level := s_level p; s_ai := s_ai p; s_aht := s_aht p;
                   s_qa := s_qa p; s_deflection := s_deflection p |})
         (filter (fun t => (team_rank (s_team p) <? team_rank t)%Z) all_TeamSizeBand)
  ++ map (fun g => {| s_team := s_team p; s_region := g; s_volume := s_volume p;
                   s_level := s_level p; s_ai := s_ai p; s_aht := s_aht p;
                   s_qa := s_qa p; s_deflection := s_deflection p |})
         (filter (fun g => (region_rank (s_region p) <? region_rank g)%Z) all_RegionBand)
  ++ map (fun v => {| s_team := s_team p; s_region := s_region p; s_volume := v;
                   s_level := s_level p; s_ai := s_ai p; s_aht := s_aht p;
                   s_qa := s_qa p; s_deflection := s_deflection p |})
         (filter (fun v => (volume_rank (s_volume p) <? volume_rank v)%Z) all_ContactVolumeBand)
  ++ map (fun l => {| s_team := s_team p; s_region := s_region p; s_volume := s_volume p;
                   s_level := l; s_ai := s_ai p; s_aht := s_aht p;
                   s_qa := s_qa p; s_deflection := s_deflection p |})
         (filter (fun l => (level_rank (s_level p) <? level_rank l)%Z) all_ComplexityLevel)
  ++ map (fun m => {| s_team := s_team p; s_region := s_region p; s_volume := s_volume p;
                   s_level := s_level p; s_ai := m; s_aht := s_aht p;
                   s_qa := s_qa p; s_deflection := s_deflection p |})
         (filter (fun m => (automation_rank m <? automation_rank (s_ai p))%Z) all_AiMaturity)
  ++ (if s_aht p then []
      else [{| s_team := s_team p; s_region := s_region p; s_volume := s_volume p;
                   s_level := s_level p; s_ai := s_ai p; s_aht := true;
                   s_qa := s_qa p; s_deflection := s_deflection p |}])
  ++ (if s_qa p then []
      else [{| s_team := s_team p; s_region := s_region p; s_volume := s_volume p;
                   s_level := s_level p; s_ai := s_ai p; s_aht := s_aht p;
                   s_qa := true; s_deflection := s_deflection p |}])
  ++ (if s_deflection p then []
      else [{| s_team := s_team p; s_region := s_region p; s_volume := s_volume p;
                   s_level := s_level p; s_ai := s_ai p; s_aht := s_aht p;
                   s_qa := s_qa p; s_deflection := true |}]).

(** From the locals [x] to the locals [y]: no savings fall and, for
    each value of the revenue term, the total rises. *)
Definition raises (x y : Locals B64.float) : bool :=
  (l_savingsAht x <= l_savingsAht y)
  && (l_savingsQa x <= l_savingsQa y)
  && (l_savingsDeflection x <= l_savingsDeflection y)
  && (l_totalHoursSaved x <= l_totalHoursSaved y)
  && forallb (fun r => total_with y r > total_with x r) revenue_values.

Definition up_check (p : Side) : bool :=
  let x := locals (of_side p) in
  forallb (fun q => raises x (locals (of_side q))) (ups p).

Definition every_side (P : Side -> bool) : bool :=
  forallb (fun t => forallb (fun g => forallb (fun v => forallb (fun l =>
  forallb (fun m => forallb (fun pa => forallb (fun pq => forallb (fun pd =>
    P {| s_team := t; s_region := g; s_volume := v; s_level := l; s_ai := m;
         s_aht := pa; s_qa := pq; s_deflection := pd |})
  all_bool) all_bool) all_bool)
  all_AiMaturity) all_ComplexityLevel) all_ContactVolumeBand) all_RegionBand)
  all_TeamSizeBand.

(** The side [p] rolled out at scope [s], the investment estimated
    from the team size. *)
Definition scoped (p : Side) (s : RolloutScope) : Answers B64.float :=
  with_rolloutScope s (of_side p).

(** The last lines of the closure: from the total benefit and the
    investment to the net gain, the ROI and the payback. *)
Record Closing : Type := {
  c_netGain : B64.float;
  c_roiPct : B64.float;
  c_monthlyBenefit : B64.float;
  c_paybackMonths : B64.float
}.

Definition closing (totalAnnualBenefit edgetierAnnualCost : B64.float) : Closing :=
  let netGain := totalAnnualBenefit - (edgetierAnnualCost ||| int 0) in
  let roiPct :=
    if edgetierAnnualCost > int 0
    then (netGain / edgetierAnnualCost) * int 100
    else int 0 in
  let monthlyBenefit :=
    if totalAnnualBenefit > int 0 then totalAnnualBenefit / int 12 else int 0 in
  let paybackMonths :=
    if monthlyBenefit > int 0
    then edgetierAnnualCost / monthlyBenefit
    else int 0 in
  {| c_netGain := netGain; c_roiPct := roiPct;
     c_monthlyBenefit := monthlyBenefit; c_paybackMonths := paybackMonths |}.

(** The cost side of a record: finite figures with the right signs. *)
Definition side_finite (y : Locals B64.float) : bool :=
  B64.is_finite (l_numAgents y) && B64.is_finite (l_annualCostPerAgent y)
  && B64.is_finite (l_contactsPerMonth y) && B64.is_finite (l_contactsPerYear y)
  && B64.is_finite (l_ahtMins y) && B64.is_finite (l_costPerContactBaseline y)
  && B64.is_finite (l_contactsAvoidedPerYear y) && B64.is_finite (l_savingsAht y)
  && B64.is_finite (l_savingsQa y) && B64.is_finite (l_savingsDeflection y)
  && B64.is_finite (l_totalHoursSaved y).

Definition side_signs (y : Locals B64.float) : bool :=
  (l_contactsPerYear y > int 0) && (l_costPerContactBaseline y > int 0)
  && (l_savingsAht y > int 0) && (l_totalHoursSaved y > int 0)
  && (int 0 <= l_savingsQa y) && (int 0 <= l_savingsDeflection y)
  && (int 0 <= l_contactsAvoidedPerYear y).

(** Each saving stays below the cost it is a share of. *)
Definition side_within (y : Locals B64.float) : bool :=
  (l_baselineHandlingCost y > l_savingsAht y)
  && (l_baselineHandlingCost y > l_savingsDeflection y)
  && (l_baselineQaCost y > l_savingsQa y)
  && (l_contactsPerYear y > l_contactsAvoidedPerYear y)
  && (l_baselineHandlingHours y + l_baselineQaHours y > l_totalHoursSaved y).

(** The closing figures for one total and one investment: finite, the
    total and the payback above zero, and the three verdicts together. *)
Definition closing_ok (total cost : B64.float) : bool :=
  let k := closing total cost in
  B64.is_finite total && B64.is_finite (c_netGain k)
  && B64.is_finite (c_roiPct k) && B64.is_finite (c_paybackMonths k)
  && (total > int 0) && (c_paybackMonths k > int 0)
  && Bool.eqb (int 12 > c_paybackMonths k) (c_netGain k > int 0)
  && Bool.eqb (c_roiPct k > int 0) (c_netGain k > int 0)
  && Bool.eqb (c_paybackMonths k > int 12) (int 0 > c_netGain k)
  && Bool.eqb (int 0 > c_roiPct k) (int 0 > c_netGain k).

Definition standard_check (p : Side) : bool :=
  let y := locals (of_side p) in
  side_finite y && side_signs y && side_within y
  && forallb (fun s =>
       let c := l_edgetierAnnualCost (locals (scoped p s)) in
       B64.is_finite c && (c > int 0)
       && forallb (fun r => closing_ok (total_with y r) c) revenue_values)
     all_RolloutScope.

Definition revenue_ok (r : B64.float) : bool :=
  B64.is_finite r && (int 0 <= r).

End RicherOrder.

(* ------------------------------------------------------------------ *)
(** ** State updates of the direct form *)

Module DirectUpdates.

Import Direct.

Section Updates.
Context {num : Type}.

(** [setNumAgents], [setContactsPerMonth]: one field replaced, the
    others kept. *)
Definition setNumAgents (n : num) (a : Answers num) : Answers num :=
  {| numAgents := n;
     contactsPerMonth := contactsPerMonth a;
     ahtMins := ahtMins a;
     annualCostPerAgent := annualCostPerAgent a;
     reduceAht := reduceAht a;
     reduceQa := reduceQa a;
     reduceContacts := reduceContacts a;
     improveCx := improveCx a;
     edgetierAnnualCost := edgetierAnnualCost a;
     annualRevenueInfluenced := annualRevenueInfluenced a |}.

Definition setContactsPerMonth (n : num) (a : Answers num) : Answers num :=
  {| numAgents := numAgents a;
     contactsPerMonth := n;
     ahtMins := ahtMins a;
     annualCostPerAgent := annualCostPerAgent a;
     reduceAht := reduceAht a;
     reduceQa := reduceQa a;
     reduceContacts := reduceContacts a;
     improveCx := improveCx a;
     edgetierAnnualCost := edgetierAnnualCost a;
     annualRevenueInfluenced := annualRevenueInfluenced a |}.

End Updates.

End DirectUpdates.

(* ================================================================== *)
(** * Facts about binary64 used below *)

Section Binary64Facts.

Import B64.

(** Every literal of the source is the double nearest to its decimal. *)
Lemma source_literals_nearest :
  map (fun d => Prim2SF (dec (fst d) (snd d))) source_literals
  = map (fun d => nearest_decimal (fst d) (snd d)) source_literals.
Proof. vm_compute. reflexivity. Qed.

Lemma int_zero : int (num:=float) 0 = PrimFloat.zero.
Proof. reflexivity. Qed.

Lemma spec_zero : Prim2SF PrimFloat.zero = S754_zero false.
Proof. reflexivity. Qed.





(** A negative number is neither NaN nor a zero. *)
Lemma negative_truthy (a : float) : is_negative a = true -> to_boolean a = true.
Proof.
  unfold is_negative, to_boolean, is_nan, is_zero, PrimFloat.is_nan, PrimFloat.is_zero.
  rewrite ltb_spec, !eqb_spec, spec_zero.
  destruct (Prim2SF a) as [s | s | | s m e]; try destruct s; try discriminate;
    intros _; try reflexivity.
  unfold SFeqb, SFcompare. now rewrite Z.compare_refl, Pos.compare_cont_refl.
Qed.

(** [a <= 0] excludes [a > 0]. *)
Lemma fle_zero_not_fgt (a : float) :
  fle a (int 0) = true -> fgt a (int 0) = false.
Proof.
  rewrite int_zero. unfold fle, fgt. rewrite leb_spec, ltb_spec, spec_zero.
  unfold SFleb, SFltb.
  destruct (Prim2SF a) as [s | s | | s m e]; try destruct s; simpl; congruence.
Qed.

(** In the specification, [a > 0] holds for the positive finite numbers
    and [+Infinity] only. *)
Lemma sf_gt_zero_inv (a : spec_float) :
  SFltb (S754_zero false) a = true ->
  a = S754_infinity false \/ exists m e, a = S754_finite false m e.
Proof.
  unfold SFltb.
  destruct a as [s | s | | s m e]; try destruct s; simpl; try discriminate.
  - now left.
  - right; eauto.
Qed.

Lemma shr_1_nonneg (mrs : shr_record) :
  (0 <= shr_m mrs)%Z -> (0 <= shr_m (shr_1 mrs))%Z.
Proof.
  destruct mrs as [m r s]; simpl.
  destruct m as [ | [p | p | ] | p]; simpl; lia.
Qed.

Lemma iter_shr_1_nonneg (p : positive) :
  forall mrs, (0 <= shr_m mrs)%Z -> (0 <= shr_m (iter_pos shr_1 p mrs))%Z.
Proof.
  induction p as [p IH | p IH | ]; intros mrs Hm; simpl.
  - apply IH, IH, shr_1_nonneg, Hm.
  - apply IH, IH, Hm.
  - apply shr_1_nonneg, Hm.
Qed.

Lemma shr_nonneg (mrs : shr_record) (e n : Z) :
  (0 <= shr_m mrs)%Z -> (0 <= shr_m (fst (shr mrs e n)))%Z.
Proof.
  intros Hm. unfold shr. destruct n; simpl; auto using iter_shr_1_nonneg.
Qed.

Lemma shr_record_of_loc_m (m : Z) (l : location) :
  shr_m (shr_record_of_loc m l) = m.
Proof. destruct l as [ | [ | | ]]; reflexivity. Qed.

Lemma shr_fexp_nonneg (m e : Z) (l : location) :
  (0 <= m)%Z -> (0 <= shr_m (fst (shr_fexp prec emax m e l)))%Z.
Proof.
  intros Hm. unfold shr_fexp. apply shr_nonneg.
  now rewrite shr_record_of_loc_m.
Qed.

Lemma round_nearest_even_nonneg (m : Z) (l : location) :
  (0 <= m)%Z -> (0 <= round_nearest_even m l)%Z.
Proof.
  intros Hm. unfold round_nearest_even.
  destruct l as [ | [ | | ]]; try destruct (Z.even m); lia.
Qed.

Lemma binary_round_aux_signed (s : bool) (m e : Z) (l : location) :
  (0 <= m)%Z -> B64.signed s (binary_round_aux prec emax s m e l).
Proof.
  intros Hm. unfold binary_round_aux.
  pose proof (shr_fexp_nonneg e l Hm) as H1.
  destruct (shr_fexp prec emax m e l) as [mrs' e']; simpl in H1.
  pose proof (shr_fexp_nonneg e' loc_Exact
                (round_nearest_even_nonneg (loc_of_shr_record mrs') H1)) as H2.
  destruct (shr_fexp prec emax
              (round_nearest_even (shr_m mrs') (loc_of_shr_record mrs')) e' loc_Exact)
    as [mrs'' e'']; simpl in H2.
  destruct (shr_m mrs'') as [ | p | p].
  - now left.
  - destruct (e'' <=? emax - prec)%Z.
    + right; right; eauto.
    + right; now left.
  - lia.
Qed.

Lemma signed_not_negative (a : spec_float) :
  B64.signed false a -> SFltb a (S754_zero false) = false.
Proof. intros [-> | [-> | (m & e & ->)]]; reflexivity. Qed.

Lemma div_core_nonneg (mx my : positive) (ex ey : Z) :
  (0 <= fst (fst (SFdiv_core_binary prec emax (Zpos mx) ex (Zpos my) ey)))%Z.
Proof.
  unfold SFdiv_core_binary.
  set (z := (ex - ey - _)%Z).
  set (m' := match z with Z0 => Zpos mx | Zpos _ => Z.shiftl (Zpos mx) z | Zneg _ => 0%Z end).
  assert (Hm : (0 <= m')%Z).
  { subst m'. destruct z; try lia. apply Z.shiftl_nonneg. lia. }
  pose proof (Z.div_pos m' (Zpos my) Hm ltac:(lia)) as Hq.
  unfold Z.div in Hq.
  destruct (Z.div_eucl m' (Zpos my)) as [q r]. exact Hq.
Qed.

Lemma sf_div_not_negative (a b : spec_float) :
  SFltb a (S754_zero false) = false -> SFltb (S754_zero false) b = true ->
  SFltb (SFdiv prec emax a b) (S754_zero false) = false.
Proof.
  intros Ha Hb.
  destruct (@sf_gt_zero_inv b Hb) as [-> | (mb & eb & ->)];
    destruct a as [s | s | | s m e]; try destruct s; try discriminate Ha;
    try reflexivity.
  unfold SFdiv.
  pose proof (div_core_nonneg m mb e eb) as Hq.
  destruct (SFdiv_core_binary prec emax (Zpos m) e (Zpos mb) eb) as [[q e'] l].
  apply signed_not_negative. simpl. apply binary_round_aux_signed. exact Hq.
Qed.

(** Dividing a number that is not negative by a number above zero
    never gives a negative number. *)
Lemma fdiv_not_negative (a b : float) :
  is_negative a = false -> fgt b (int 0) = true -> is_negative (fdiv a b) = false.
Proof.
  rewrite int_zero. unfold is_negative, fgt, fdiv.
  rewrite !ltb_spec, div_spec, spec_zero.
  apply sf_div_not_negative.
Qed.

Lemma sf_eqb_refl (x : spec_float) : x <> S754_nan -> SFeqb x x = true.
Proof.
  destruct x as [s | s | | s m e]; try destruct s; try reflexivity; intros H.
  - now elim H.
  - unfold SFeqb, SFcompare. now rewrite Z.compare_refl, Pos.compare_cont_refl.
  - unfold SFeqb, SFcompare. now rewrite Z.compare_refl, Pos.compare_cont_refl.
Qed.

(** The three kinds of numbers, in the specification. *)
Lemma is_nan_spec (a : float) :
  is_nan a = match Prim2SF a with S754_nan => true | _ => false end.
Proof.
  unfold is_nan, PrimFloat.is_nan. rewrite eqb_spec.
  destruct (Prim2SF a) as [s | s | | s m e] eqn:E; try reflexivity;
    rewrite sf_eqb_refl by discriminate; reflexivity.
Qed.

Lemma is_finite_spec (a : float) :
  is_finite a
  = match Prim2SF a with S754_zero _ | S754_finite _ _ _ => true | _ => false end.
Proof.
  unfold is_finite, PrimFloat.is_finite, PrimFloat.is_nan, PrimFloat.is_infinity.
  rewrite !eqb_spec, abs_spec.
  change (Prim2SF infinity) with (S754_infinity false).
  destruct (Prim2SF a) as [s | s | | s m e]; try destruct s; try reflexivity;
    cbn [SFabs]; rewrite sf_eqb_refl by discriminate; reflexivity.
Qed.

Lemma is_zero_spec (a : float) :
  is_zero a = match Prim2SF a with S754_zero _ => true | _ => false end.
Proof.
  unfold is_zero, PrimFloat.is_zero. rewrite eqb_spec, spec_zero.
  destruct (Prim2SF a) as [s | s | | s m e]; try destruct s; reflexivity.
Qed.








End Binary64Facts.

(* ================================================================== *)
(** * Rounding in binary64: what a result can be *)

Section RoundingFacts.

Import B64.
Local Open Scope Z_scope.

(** ** Number of bits *)








(** ** Shifting right *)











(** ** Numbers of the format *)




Lemma below_le (k k' : Z) (a : float) : below k a -> k <= k' -> below k' a.
Proof.
  unfold below. destruct (Prim2SF a) as [s | s | | s m e]; try tauto. lia.
Qed.

Lemma zero_below (k : Z) (a : float) : is_zero a = true -> below k a.
Proof.
  rewrite is_zero_spec. unfold below.
  destruct (Prim2SF a) as [s | s | | s m e]; try discriminate. tauto.
Qed.

(** ** Products *)



(** ** Quotients *)




(** ** The top binade *)



(** ** Multiplying by one *)





(** ** Results that are not NaN *)

Lemma signed_not_nan (s : bool) (x : spec_float) : signed s x -> x <> S754_nan.
Proof. intros [-> | [-> | (m & e & ->)]]; discriminate. Qed.

Lemma round_not_nan (s : bool) (m e : Z) (l : location) :
  0 <= m -> binary_round_aux prec emax s m e l <> S754_nan.
Proof. intros Hm. apply signed_not_nan with (s := s). now apply binary_round_aux_signed. Qed.

Lemma normalize_not_nan (m e : Z) : binary_normalize prec emax m e false <> S754_nan.
Proof.
  unfold binary_normalize, binary_round.
  destruct m as [ | p | p]; [discriminate | | ];
    destruct (shl_align _ _ _) as [mz ez]; apply round_not_nan; lia.
Qed.


Lemma fadd_not_nan (a b : float) :
  is_finite a = true -> is_finite b = true -> is_nan (fadd a b) = false.
Proof.
  rewrite !is_finite_spec, is_nan_spec. unfold fadd. rewrite add_spec.
  destruct (Prim2SF a) as [sa | sa | | sa ma ea]; try discriminate;
    destruct (Prim2SF b) as [sb | sb | | sb mb eb]; try discriminate; intros _ _;
    try reflexivity.
  - destruct sa, sb; reflexivity.
  - unfold SF64add, SFadd.
    change (SpecFloat.binary_normalize FloatOps.prec FloatOps.emax)
      with (binary_normalize prec emax).
    match goal with
    | |- match ?x with _ => _ end = _ =>
        pose proof (@normalize_not_nan
                      (cond_Zopp sa (Zpos (fst (shl_align ma ea (Z.min ea eb))))
                       + cond_Zopp sb (Zpos (fst (shl_align mb eb (Z.min ea eb)))))
                      (Z.min ea eb)) as N;
        destruct x; congruence
    end.
Qed.



(** ** Zeros and finite factors *)


(** A finite product has finite factors. *)
Lemma fmul_finite_inv (a b : float) :
  is_finite (fmul a b) = true -> is_finite a = true /\ is_finite b = true.
Proof.
  rewrite !is_finite_spec. unfold fmul. rewrite mul_spec.
  destruct (Prim2SF a) as [sa | sa | | sa ma ea];
    destruct (Prim2SF b) as [sb | sb | | sb mb eb]; cbn [SF64mul SFmul];
    try discriminate; intros _; split; reflexivity.
Qed.

End RoundingFacts.

(* ================================================================== *)
(** * Exhaustive passes over the banded answers *)

Lemma forallb_complete {A} (f : A -> bool) (l : list A) :
  (forall x, In x l) -> forallb f l = true -> forall x, f x = true.
Proof. intros Hall H x. exact (proj1 (forallb_forall f l) H x (Hall x)). Qed.

Lemma all_bool_complete (b : bool) : In b all_bool.
Proof. destruct b; simpl; tauto. Qed.

Lemma increasing5_pairs (x1 x2 x3 x4 x5 : B64.float) :
  increasing5 x1 x2 x3 x4 x5 = true ->
  B64.fgt x2 x1 = true /\ B64.fgt x3 x1 = true /\ B64.fgt x4 x1 = true
  /\ B64.fgt x5 x1 = true /\ B64.fgt x3 x2 = true /\ B64.fgt x4 x2 = true
  /\ B64.fgt x5 x2 = true /\ B64.fgt x4 x3 = true /\ B64.fgt x5 x3 = true
  /\ B64.fgt x5 x4 = true.
Proof.
  unfold increasing5. intros H.
  repeat (apply andb_prop in H; destruct H as [H ?]).
  repeat split; assumption.
Qed.

Module BandedFacts.
Import Banded BandedSweep.

(** What a successful pass says, level by level. *)
Lemma banded_level_sweep_spec (X : ComplexityLevel -> Locals B64.float) (pq pd : bool) :
  level_sweep X pq pd = true ->
  (forall l, sound pq pd (X l) = true)
  /\ (forall l1 l2, (level_rank l1 < level_rank l2)%Z ->
        B64.fgt (l_baselineHandlingCost (X l2)) (l_baselineHandlingCost (X l1)) = true
        /\ B64.fgt (l_savingsAht (X l2)) (l_savingsAht (X l1)) = true
        /\ forall r, In r revenue_values ->
             B64.fgt (total_with (X l2) r) (total_with (X l1) r) = true).
Proof.
  intros H. cbv beta zeta delta [level_sweep] in H.
  apply andb_prop in H; destruct H as [H S5].
  apply andb_prop in H; destruct H as [H S4].
  apply andb_prop in H; destruct H as [H S3].
  apply andb_prop in H; destruct H as [H S2].
  apply andb_prop in H; destruct H as [H S1].
  apply andb_prop in H; destruct H as [H Ht].
  apply andb_prop in H; destruct H as [Hb Hs].
  split.
  - intros l; destruct l; pick.
  - intros l1 l2 Hlt. clear S1 S2 S3 S4 S5.
    apply increasing5_pairs in Hb; apply increasing5_pairs in Hs.
    pose proof (proj1 (forallb_forall _ _) Ht) as Hr; clear Ht.
    decompose [and] Hb; decompose [and] Hs; clear Hb Hs.
    split; [ | split].
    + destruct l1, l2; simpl in Hlt; try lia; pick.
    + destruct l1, l2; simpl in Hlt; try lia; pick.
    + intros r Hin. specialize (Hr r Hin); cbv beta in Hr.
      apply increasing5_pairs in Hr. decompose [and] Hr; clear Hr.
      destruct l1, l2; simpl in Hlt; try lia; pick.
Qed.

(** The pass succeeds for all 720 choices of the other answers. *)
Lemma banded_sweep_ok :
  forallb (fun t => forallb (fun v => forallb (fun ai =>
  forallb (fun pa => forallb (fun pq => forallb (fun pd =>
    level_sweep (fun l => locals (probe t v l ai pa pq pd)) pq pd)
    all_bool) all_bool) all_bool)
    all_AiLevel) all_ContactVolumeBand) all_TeamSizeBand = true.
Proof. vm_cast_no_check (eq_refl true). Qed.

Lemma banded_team_complete t : In t all_TeamSizeBand.
Proof. destruct t; simpl; tauto. Qed.
Lemma banded_volume_complete v : In v all_ContactVolumeBand.
Proof. destruct v; simpl; tauto. Qed.
Lemma banded_ai_complete ai : In ai all_AiLevel.
Proof. destruct ai; simpl; tauto. Qed.

Lemma banded_level_sweep_holds (a : Answers) :
  level_sweep (fun l => locals (cost_side a l))
              (priorityQa a) (priorityDeflection a) = true.
Proof.
  pose proof banded_sweep_ok as H.
  pose proof (@forallb_complete _ _ _ banded_team_complete H (teamSizeBand a)) as H1;
    cbv beta in H1.
  pose proof (@forallb_complete _ _ _ banded_volume_complete H1 (contactVolumeBand a)) as H2;
    cbv beta in H2.
  pose proof (@forallb_complete _ _ _ banded_ai_complete H2 (aiLevel a)) as H3;
    cbv beta in H3.
  pose proof (@forallb_complete _ _ _ all_bool_complete H3 (priorityAht a)) as H4;
    cbv beta in H4.
  pose proof (@forallb_complete _ _ _ all_bool_complete H4 (priorityQa a)) as H5;
    cbv beta in H5.
  pose proof (@forallb_complete _ _ _ all_bool_complete H5 (priorityDeflection a)) as H6;
    cbv beta in H6.
  exact H6.
Qed.

(** The revenue term takes one of the listed values. *)
Lemma banded_revenue_in_values (a : Answers) :
  In (l_revenueProtected (locals a)) revenue_values.
Proof.
  destruct a as [t v l ai pa pq pd cx rb inc].
  destruct inc, rb, cx; vm_compute; tauto.
Qed.

(** The cost side of a record does not depend on its revenue answers. *)
Lemma banded_cost_side_fields (a : Answers) :
  let x := locals (num:=B64.float) a in
  let y := locals (cost_side a (complexityLevel a)) in
  l_baselineHandlingCost x = l_baselineHandlingCost y
  /\ l_ahtReductionPct x = l_ahtReductionPct y
  /\ l_savingsAht x = l_savingsAht y
  /\ l_savingsQa x = l_savingsQa y
  /\ l_savingsDeflection x = l_savingsDeflection y
  /\ l_totalAnnualBenefit x = total_with y (l_revenueProtected x).
Proof.
  destruct a as [t v l ai pa pq pd cx rb inc]; cbv zeta.
  split; [reflexivity | ]. split; [reflexivity | ]. split; [reflexivity | ].
  split; [reflexivity | ]. split; reflexivity.
Qed.

End BandedFacts.

Module RicherFacts.
Import Richer RicherSweep.

(** What a successful pass says, level by level. *)
Lemma richer_level_sweep_spec (X : ComplexityLevel -> Locals B64.float) (pq pd : bool) :
  level_sweep X pq pd = true ->
  (forall l, sound pq pd (X l) = true)
  /\ (forall l1 l2, (level_rank l1 < level_rank l2)%Z ->
        B64.fgt (l_baselineHandlingCost (X l2)) (l_baselineHandlingCost (X l1)) = true
        /\ B64.fgt (l_savingsAht (X l2)) (l_savingsAht (X l1)) = true
        /\ forall r, In r revenue_values ->
             B64.fgt (total_with (X l2) r) (total_with (X l1) r) = true).
Proof.
  intros H. cbv beta zeta delta [level_sweep] in H.
  apply andb_prop in H; destruct H as [H S5].
  apply andb_prop in H; destruct H as [H S4].
  apply andb_prop in H; destruct H as [H S3].
  apply andb_prop in H; destruct H as [H S2].
  apply andb_prop in H; destruct H as [H S1].
  apply andb_prop in H; destruct H as [H Ht].
  apply andb_prop in H; destruct H as [Hb Hs].
  split.
  - intros l; destruct l; pick.
  - intros l1 l2 Hlt. clear S1 S2 S3 S4 S5.
    apply increasing5_pairs in Hb; apply increasing5_pairs in Hs.
    pose proof (proj1 (forallb_forall _ _) Ht) as Hr; clear Ht.
    decompose [and] Hb; decompose [and] Hs; clear Hb Hs.
    split; [ | split].
    + destruct l1, l2; simpl in Hlt; try lia; pick.
    + destruct l1, l2; simpl in Hlt; try lia; pick.
    + intros r Hin. specialize (Hr r Hin); cbv beta in Hr.
      apply increasing5_pairs in Hr. decompose [and] Hr; clear Hr.
      destruct l1, l2; simpl in Hlt; try lia; pick.
Qed.

(** The pass succeeds for all 1920 choices of the other answers when
    the cost per agent comes from the region table. *)
Lemma richer_sweep_ok :
  forallb (fun t => forallb (fun r => forallb (fun v => forallb (fun ai =>
  forallb (fun pa => forallb (fun pq => forallb (fun pd =>
    level_sweep (fun l => locals (probe t r v l ai pa pq pd)) pq pd)
    all_bool) all_bool) all_bool)
    all_AiMaturity) all_ContactVolumeBand) all_RegionBand) all_TeamSizeBand = true.
Proof. vm_cast_no_check (eq_refl true). Qed.

Lemma richer_team_complete t : In t all_TeamSizeBand.
Proof. destruct t; simpl; tauto. Qed.
Lemma richer_region_complete r : In r all_RegionBand.
Proof. destruct r; simpl; tauto. Qed.
Lemma richer_volume_complete v : In v all_ContactVolumeBand.
Proof. destruct v; simpl; tauto. Qed.
Lemma richer_ai_complete ai : In ai all_AiMaturity.
Proof. destruct ai; simpl; tauto. Qed.

Lemma richer_level_sweep_holds (a : Answers B64.float) :
  level_sweep (fun l => locals (cost_side a l))
              (priorityQa a) (priorityDeflection a) = true.
Proof.
  pose proof richer_sweep_ok as H.
  pose proof (@forallb_complete _ _ _ richer_team_complete H (teamSizeBand a)) as H1;
    cbv beta in H1.
  pose proof (@forallb_complete _ _ _ richer_region_complete H1 (regionBand a)) as H1';
    cbv beta in H1'.
  pose proof (@forallb_complete _ _ _ richer_volume_complete H1' (contactVolumeBand a)) as H2;
    cbv beta in H2.
  pose proof (@forallb_complete _ _ _ richer_ai_complete H2 (aiMaturity a)) as H3;
    cbv beta in H3.
  pose proof (@forallb_complete _ _ _ all_bool_complete H3 (priorityAht a)) as H4;
    cbv beta in H4.
  pose proof (@forallb_complete _ _ _ all_bool_complete H4 (priorityQa a)) as H5;
    cbv beta in H5.
  pose proof (@forallb_complete _ _ _ all_bool_complete H5 (priorityDeflection a)) as H6;
    cbv beta in H6.
  exact H6.
Qed.

(** The revenue term takes one of the listed values. *)
Lemma richer_revenue_in_values (a : Answers B64.float) :
  In (l_revenueProtected (locals a)) revenue_values.
Proof.
  destruct a as [t cm kc r v c ai pa pq pd cx rb ri skip rs im cc].
  destruct skip, rb, cx, ri; vm_compute; tauto.
Qed.

(** With the region table as the cost source, the cost side of a
    record depends neither on its revenue answers nor on its investment
    answers nor on the known cost. *)
Lemma richer_cost_side_fields (a : Answers B64.float) :
  table_cost a = true ->
  let x := locals a in
  let y := locals (cost_side a (complexityLevel a)) in
  l_baselineHandlingCost x = l_baselineHandlingCost y
  /\ l_ahtReductionPct x = l_ahtReductionPct y
  /\ l_savingsAht x = l_savingsAht y
  /\ l_savingsQa x = l_savingsQa y
  /\ l_savingsDeflection x = l_savingsDeflection y
  /\ l_totalAnnualBenefit x = total_with y (l_revenueProtected x).
Proof.
  destruct a as [t cm kc r v c ai pa pq pd cx rb ri skip rs im cc].
  unfold table_cost; cbn [costMode knownCostPerAgent]. intros Htab.
  assert (Hcost : l_annualCostPerAgent
                    (locals (Build_Answers t cm kc r v c ai pa pq pd cx rb ri skip rs im cc))
                  = REGION_COST_MAP r).
  { cbv beta iota zeta delta [locals l_annualCostPerAgent costMode
      knownCostPerAgent regionBand].
    apply negb_true_iff in Htab. rewrite Htab. reflexivity. }
  cbv zeta.
  cbv beta iota zeta delta [locals l_annualCostPerAgent costMode
      knownCostPerAgent regionBand] in Hcost.
  cbv beta iota zeta delta [locals cost_side probe total_with savings_sum
    l_baselineHandlingCost l_ahtReductionPct l_savingsAht l_savingsQa
    l_savingsDeflection l_totalAnnualBenefit l_revenueProtected
    teamSizeBand costMode knownCostPerAgent regionBand contactVolumeBand
    complexityLevel aiMaturity priorityAht priorityQa priorityDeflection
    priorityCx revenueBand revenueImpact skipRevenueImpact rolloutScope
    investmentMode customEdgetierCost].
  rewrite Hcost.
  split; [reflexivity | ]. split; [reflexivity | ]. split; [reflexivity | ].
  split; [reflexivity | ]. split; reflexivity.
Qed.

End RicherFacts.

(* ================================================================== *)
(** * The end-to-end scenario of the banded wizard (claim C1) *)


(** C1: in the scenario, whatever the revenue band, the result has
    numAgents = 40, ahtMins = 7, contactsPerYear = 29400 * 12 = 352800,
    edgetierAnnualCost = 120000 and revenueProtected = 0 exactly;
    baselineHandlingCost is within one half of 1052386 and roiPct within
    one half of 159; totalAnnualBenefit and netGain are within the
    stated rounding, 26.46, of 311214 and 191214: to the nearest unit
    they are 311206 and 191206. *)
Theorem C1_scenario_values :
  forall rb : Banded.RevenueBand,
    let l := Banded.locals (num:=B64.float) (scenario rb) in
    let r := Banded.results (num:=B64.float) (scenario rb) in
    Banded.numAgents r = int 40
    /\ Banded.ahtMins r = int 7
    /\ Banded.l_contactsPerMonth l = int 29400
    /\ Banded.contactsPerYear r = (int 29400 * int 12)%js
    /\ Banded.contactsPerYear r = int 352800
    /\ Banded.edgetierAnnualCost r = int 120000
    /\ Banded.revenueProtected r = int 0
    /\ B64.shows_as (Banded.l_baselineHandlingCost l) 1052386 = true
    /\ within stated_rounding (Banded.totalAnnualBenefit r) 311214 = true
    /\ within stated_rounding (Banded.netGain r) 191214 = true
    /\ B64.shows_as (Banded.roiPct r) 159 = true
    /\ B64.shows_as (Banded.totalAnnualBenefit r) 311206 = true
    /\ B64.shows_as (Banded.netGain r) 191206 = true.
Proof.
  intros rb; destruct rb; vm_compute; repeat split; reflexivity.
Qed.

(* ================================================================== *)
(** * The revenue gate of the banded wizards (claim C2) *)

(** C2: in both banded wizards, for every answer record,
    [revenueProtected] is non-zero if and only if revenue is included
    (not skipped), the revenue band is not "unknown" and the
    customerExperience priority is on; when one of the three fails,
    [annualRevenueInfluenced], [revenueProtectionPct] and
    [revenueProtected] are exactly 0; none of the three is ever negative. *)
Theorem C2_revenue_gate :
  (forall a : Banded.Answers,
     let l := Banded.locals (num:=B64.float) a in
     (B64.is_zero (Banded.l_revenueProtected l) = false
      <-> Banded.includeRevenueImpact a = true
          /\ Banded.revenueBand a <> Banded.unknown
          /\ Banded.priorityCx a = true)
     /\ (Banded.includeRevenueImpact a = false
         \/ Banded.revenueBand a = Banded.unknown
         \/ Banded.priorityCx a = false ->
         Banded.l_annualRevenueInfluenced l = int 0
         /\ Banded.l_revenueProtectionPct l = int 0
         /\ Banded.l_revenueProtected l = int 0)
     /\ B64.is_negative (Banded.l_annualRevenueInfluenced l) = false
     /\ B64.is_negative (Banded.l_revenueProtectionPct l) = false
     /\ B64.is_negative (Banded.l_revenueProtected l) = false)
  /\
  (forall a : Richer.Answers B64.float,
     let l := Richer.locals a in
     (B64.is_zero (Richer.l_revenueProtected l) = false
      <-> Richer.skipRevenueImpact a = false
          /\ Richer.revenueBand a <> Richer.unknown
          /\ Richer.priorityCx a = true)
     /\ (Richer.skipRevenueImpact a = true
         \/ Richer.revenueBand a = Richer.unknown
         \/ Richer.priorityCx a = false ->
         Richer.l_annualRevenueInfluenced l = int 0
         /\ Richer.l_revenueProtectionPct l = int 0
         /\ Richer.l_revenueProtected l = int 0)
     /\ B64.is_negative (Richer.l_annualRevenueInfluenced l) = false
     /\ B64.is_negative (Richer.l_revenueProtectionPct l) = false
     /\ B64.is_negative (Richer.l_revenueProtected l) = false).
Proof.
  split.
  - intros [t v c ai pa pq pd cx rb inc].
    destruct inc, rb, cx; vm_compute;
      (repeat split; try reflexivity; try discriminate; try tauto;
       intuition (try discriminate; try congruence)).
  - intros [t cm kc r v c ai pa pq pd cx rb ri skip rs im cc].
    destruct skip, rb, cx, ri; vm_compute;
      (repeat split; try reflexivity; try discriminate; try tauto;
       intuition (try discriminate; try congruence)).
Qed.

(** C2 at work: with revenue included, band "lt50" and customerExperience
    on, the gate is open and [revenueProtected] is 75000. *)
Lemma C2_revenue_gate_witness :
  B64.is_zero (Banded.l_revenueProtected
                 (Banded.locals (BandedSweep.revenue_probe Banded.lt50))) = false
  /\ Banded.l_revenueProtected
       (Banded.locals (num:=B64.float) (BandedSweep.revenue_probe Banded.lt50))
     = int 75000.
Proof.
  split.
  - apply (proj1 (proj1 C2_revenue_gate (BandedSweep.revenue_probe Banded.lt50))).
    repeat split; [discriminate].
  - vm_compute. reflexivity.
Defined.

(* ================================================================== *)
(** * Investment sizing (claim C5) *)


(** C5, as stated, fails for the custom mode: the typed value -5 reaches
    the result unclamped, so the investment cost is negative and differs
    from the clamped value 0. *)
Lemma C5_custom_cost_not_clamped :
  Richer.investmentMode custom_minus_five = Richer.custom
  /\ Richer.edgetierAnnualCost (Richer.results custom_minus_five) = (int 0 - int 5)%js
  /\ B64.is_negative (Richer.edgetierAnnualCost (Richer.results custom_minus_five)) = true
  /\ clamp_nonneg (Richer.customEdgetierCost custom_minus_five) = int 0.
Proof. vm_compute. repeat split; reflexivity. Qed.

(** C5, amended: with the derived investment, the annual cost is the base
    license chosen from numAgents by the ordered breakpoints <=25, <=50,
    <=100, <=250, else (tiers 80000, 120000, 180000, 250000, 350000 in
    the 7-step wizard; 80000, 80000, 150000, 250000, 350000 in the richer
    wizard, which has no separate tier up to 25), multiplied in the richer
    wizard by 1, 1.8 or 2.5 for single/few/multi; with the custom
    investment the cost is the supplied value itself, unchanged. *)
Theorem C5_investment_cost :
  (forall a : Banded.Answers,
     Banded.edgetierAnnualCost (Banded.results (num:=B64.float) a)
     = Spec.base_license (int 80000) (int 120000) (int 180000) (int 250000) (int 350000)
         (Banded.numAgents (Banded.results a)))
  /\
  (forall a : Richer.Answers B64.float,
     Richer.investmentMode a = Richer.auto ->
     Richer.edgetierAnnualCost (Richer.results a)
     = (Spec.base_license (int 80000) (int 80000) (int 150000) (int 250000) (int 350000)
          (Richer.numAgents (Richer.results a))
        * Spec.rollout_multiplier (Richer.rolloutScope a))%js)
  /\
  (forall a : Richer.Answers B64.float,
     Richer.investmentMode a = Richer.custom ->
     Richer.edgetierAnnualCost (Richer.results a) = Richer.customEdgetierCost a).
Proof.
  split; [ | split].
  - intros [t v c ai pa pq pd cx rb inc]. reflexivity.
  - intros [t cm kc r v c ai pa pq pd cx rb ri skip rs im cc] Him.
    simpl in Him; subst im.
    destruct t, rs; vm_compute; reflexivity.
  - intros [t cm kc r v c ai pa pq pd cx rb ri skip rs im cc] Him.
    simpl in Him; subst im. reflexivity.
Qed.

(** C5 at work: 80 agents rolled out to a few teams cost 150000 * 1.8,
    and a custom 180000 is used as it is. *)
Lemma C5_investment_cost_witness :
  Richer.edgetierAnnualCost
    (Richer.results (RicherSweep.with_rolloutScope Richer.few richer_initial))
  = (int 150000 * dec 18 1)%js
  /\ Richer.edgetierAnnualCost
       (Richer.results
          (RicherSweep.with_investment Richer.custom (int 180000) richer_initial))
     = int (num:=B64.float) 180000.
Proof.
  split.
  - rewrite (proj1 (proj2 C5_investment_cost)
               (RicherSweep.with_rolloutScope Richer.few richer_initial) eq_refl).
    vm_compute. reflexivity.
  - apply (proj2 (proj2 C5_investment_cost)
             (RicherSweep.with_investment Richer.custom (int 180000) richer_initial)
             eq_refl).
Defined.

(* ================================================================== *)
(** * The numeric input boundary (claim C7) *)

(** C7, as stated, fails: typing -5 stores -5, a negative number; it is
    not clamped to 0. *)
Lemma C7_negative_entry_not_clamped :
  Input.onChange "-5" = (int 0 - int 5)%js
  /\ B64.is_negative (Input.onChange "-5") = true
  /\ B64.is_zero (Input.onChange "-5") = false.
Proof. vm_compute. repeat split; reflexivity. Qed.

(** C7, amended: for every entered string the stored value is never NaN;
    it is 0 when the string has no numeric prefix (the empty string
    included) and whenever [parseFloat] gives NaN or a zero; every other
    parsed number is stored as it is, and so is every negative one. *)
Theorem C7_input_boundary :
  forall s : string,
    B64.is_nan (Input.onChange s) = false
    /\ (Input.scan s = None -> Input.onChange s = int 0)
    /\ (B64.is_nan (Input.parseFloat s) = true -> Input.onChange s = int 0)
    /\ (B64.is_zero (Input.parseFloat s) = true -> Input.onChange s = int 0)
    /\ (B64.is_nan (Input.parseFloat s) = false ->
        B64.is_zero (Input.parseFloat s) = false ->
        Input.onChange s = Input.parseFloat s)
    /\ (B64.is_negative (Input.parseFloat s) = true ->
        Input.onChange s = Input.parseFloat s).
Proof.
  intros s. unfold Input.onChange, or_else.
  change (truthy (Input.parseFloat s))
    with (negb (B64.is_nan (Input.parseFloat s) || B64.is_zero (Input.parseFloat s))).
  assert (Hnone : Input.scan s = None -> Input.parseFloat s = PrimFloat.nan).
  { unfold Input.parseFloat. now intros ->. }
  split; [ | split; [ | split; [ | split; [ | split]]]].
  - destruct (B64.is_nan (Input.parseFloat s)) eqn:Hn; [reflexivity | ].
    destruct (B64.is_zero (Input.parseFloat s)); [reflexivity | exact Hn].
  - intros H. rewrite (Hnone H). reflexivity.
  - intros ->. reflexivity.
  - intros ->. now rewrite orb_true_r.
  - intros -> ->. reflexivity.
  - intros Hn. pose proof (@negative_truthy _ Hn) as T.
    unfold B64.to_boolean in T. now rewrite T.
Qed.

(** C7 at work: the empty string and a non-numeric string store 0, and
    "12.5" stores 12.5. *)
Lemma C7_input_boundary_witness :
  Input.onChange "" = int 0
  /\ Input.onChange "abc" = int 0
  /\ Input.onChange "12.5" = dec 125 1.
Proof.
  split; [ | split].
  - apply (proj1 (proj2 (C7_input_boundary ""))). reflexivity.
  - apply (proj1 (proj2 (C7_input_boundary "abc"))). reflexivity.
  - rewrite (proj1 (proj2 (proj2 (proj2 (proj2 (C7_input_boundary "12.5"))))));
      vm_compute; reflexivity.
Defined.

(* ================================================================== *)
(** * The cost per agent of the richer wizard (claim C8) *)

(** C8: [annualCostPerAgent] is the supplied [knownCostPerAgent] when the
    cost mode is "known" and that value is above zero; in every other
    case, known mode with a value at or below zero included, it is the
    region table's value for the selected band, with the UK/IE entry as
    the fallback of the lookup. *)
Theorem C8_annual_cost_per_agent :
  forall a : Richer.Answers B64.float,
    let annual := Richer.annualCostPerAgent (Richer.results a) in
    let table :=
      (index Richer.REGION_COST_MAP (Richer.regionBand a)
       ?? Richer.REGION_COST_MAP Richer.UK_IE_NORDICS_ANZ)%js in
    table = Richer.REGION_COST_MAP (Richer.regionBand a)
    /\ (Richer.costMode a = Richer.known ->
        (Richer.knownCostPerAgent a > int 0)%js = true ->
        annual = Richer.knownCostPerAgent a)
    /\ (Richer.costMode a = Richer.benchmark -> annual = table)
    /\ ((Richer.knownCostPerAgent a > int 0)%js = false -> annual = table)
    /\ ((Richer.knownCostPerAgent a <= int 0)%js = true -> annual = table).
Proof.
  intros [t cm kc r v c ai pa pq pd cx rb ri skip rs im cc]; cbv zeta.
  assert (Hle : (kc <= int 0)%js = true -> (kc > int 0)%js = false)
    by apply fle_zero_not_fgt.
  unfold Richer.results, Richer.locals. cbn [Richer.annualCostPerAgent
    Richer.l_annualCostPerAgent Richer.costMode Richer.knownCostPerAgent
    Richer.regionBand].
  split; [reflexivity | ].
  split; [ | split; [ | split]].
  - intros -> ->. reflexivity.
  - intros ->. reflexivity.
  - intros ->. now rewrite andb_false_r.
  - intros H. rewrite (Hle H). now rewrite andb_false_r.
Qed.

(** C8 at work: a known cost of 38000 is used; a known cost of 0 falls
    back to the region table. *)
Lemma C8_annual_cost_per_agent_witness :
  Richer.annualCostPerAgent
    (Richer.results (RicherSweep.with_knownCost (int 38000) richer_initial))
  = int (num:=B64.float) 38000
  /\ Richer.annualCostPerAgent
       (Richer.results (RicherSweep.with_knownCost (int 0) richer_initial))
     = int (num:=B64.float) 50000.
Proof.
  split.
  - apply (proj1 (proj2 (C8_annual_cost_per_agent
                           (RicherSweep.with_knownCost (int 38000) richer_initial))));
      reflexivity.
  - rewrite (proj2 (proj2 (proj2 (proj2 (C8_annual_cost_per_agent
               (RicherSweep.with_knownCost (int 0) richer_initial)))))); reflexivity.
Defined.

(* ================================================================== *)
(** * Rollout scope and custom cost do not interfere (claim C10) *)

(** C10: in the richer wizard, with the custom investment the whole
    result is the same whatever the rollout scope, and with the derived
    investment it is the same whatever the custom cost; this holds for
    any arithmetic the closure is run with. *)
Theorem C10_investment_inputs_independent :
  forall (num : Type) (N : JsNumber num),
    (forall (a : Richer.Answers num) (s : Richer.RolloutScope),
       Richer.investmentMode a = Richer.custom ->
       Richer.results (RicherSweep.with_rolloutScope s a) = Richer.results a)
    /\
    (forall (a : Richer.Answers num) (c : num),
       Richer.investmentMode a = Richer.auto ->
       Richer.results (RicherSweep.with_customEdgetierCost c a) = Richer.results a).
Proof.
  intros num N. split.
  - intros [t cm kc r v c ai pa pq pd cx rb ri skip rs im cc] s Him.
    simpl in Him; subst im. reflexivity.
  - intros [t cm kc r v c ai pa pq pd cx rb ri skip rs im cc] c' Him.
    simpl in Him; subst im. reflexivity.
Qed.

(** C10 at work on doubles: a custom 180000 gives the same result for the
    scopes "multi" and "single". *)
Lemma C10_investment_inputs_independent_witness :
  Richer.results
    (RicherSweep.with_rolloutScope Richer.multi
       (RicherSweep.with_investment Richer.custom (int 180000) richer_initial))
  = Richer.results
      (RicherSweep.with_investment Richer.custom (int (num:=B64.float) 180000)
         richer_initial).
Proof.
  apply (proj1 (C10_investment_inputs_independent binary64)). reflexivity.
Defined.

(* ================================================================== *)
(** * What the passes give for an arbitrary record *)

(** The payback rule follows from the two conditional expressions that
    compute [monthlyBenefit] and [paybackMonths]. *)
Lemma payback_law_intro (total cost monthly payback : B64.float) :
  monthly = (if B64.fgt total (int 0) then B64.fdiv total (int 12) else int 0) ->
  payback = (if B64.fgt monthly (int 0) then B64.fdiv cost monthly else int 0) ->
  payback_law total cost payback.
Proof.
  intros Hm Hp. unfold payback_law.
  assert (H0 : B64.fgt (int 0) (int 0) = false) by reflexivity.
  assert (Hnot : B64.fgt total (int 0) = false -> payback = int 0).
  { intros H. rewrite H in Hm. subst monthly. now rewrite H0 in Hp. }
  split; [ | split; [ | split; [ | split]]].
  - intros H. apply Hnot. now apply fle_zero_not_fgt.
  - exact Hnot.
  - intros H. destruct (B64.fgt total (int 0)) eqn:Ht.
    + subst monthly. now rewrite H in Hp.
    + now apply Hnot.
  - intros Ht H. rewrite Ht in Hm. subst monthly. now rewrite H in Hp.
  - intros Hc. destruct (B64.fgt monthly (int 0)) eqn:Hmb.
    + subst payback. now apply fdiv_not_negative.
    + subst payback. reflexivity.
Qed.

Module BandedLaws.
Import Banded BandedSweep BandedFacts.

Lemma banded_sound_spec (pq pd : bool) (x : Locals B64.float) :
  sound pq pd x = true ->
  B64.fgt (l_baselineHandlingCost x) (int 0) = true
  /\ B64.fgt (l_ahtReductionPct x) (int 0) = true
  /\ B64.fgt (l_savingsAht x) (int 0) = true
  /\ (pq = false -> B64.is_zero (l_savingsQa x) = true)
  /\ (pd = false -> B64.is_zero (l_savingsDeflection x) = true)
  /\ (forall r, In r revenue_values ->
        B64.fgt (total_with x r) (int 0) = true
        /\ B64.fgt (B64.fdiv (total_with x r) (int 12)) (int 0) = true).
Proof.
  unfold sound. intros H.
  apply andb_prop in H; destruct H as [H Hr].
  apply andb_prop in H; destruct H as [H Hd].
  apply andb_prop in H; destruct H as [H Hq].
  apply andb_prop in H; destruct H as [H Hs].
  apply andb_prop in H; destruct H as [Hb Hp].
  repeat (split; [assumption | ]).
  split; [ | split].
  - intros ->. exact Hq.
  - intros ->. exact Hd.
  - intros r Hin.
    pose proof (proj1 (forallb_forall _ _) Hr r Hin) as Hx; cbv beta in Hx.
    apply andb_prop in Hx. exact Hx.
Qed.

(** Every record of the 7-step wizard has a positive baseline cost, a
    positive effective AHT reduction, positive AHT savings and a positive
    benefit whose twelfth is positive; QA and deflection savings are zero
    when their priority is off. *)
Lemma banded_locals_sound (a : Answers) :
  let x := locals (num:=B64.float) a in
  B64.fgt (l_baselineHandlingCost x) (int 0) = true
  /\ B64.fgt (l_ahtReductionPct x) (int 0) = true
  /\ B64.fgt (l_savingsAht x) (int 0) = true
  /\ (priorityQa a = false -> B64.is_zero (l_savingsQa x) = true)
  /\ (priorityDeflection a = false -> B64.is_zero (l_savingsDeflection x) = true)
  /\ B64.fgt (l_totalAnnualBenefit x) (int 0) = true
  /\ B64.fgt (B64.fdiv (l_totalAnnualBenefit x) (int 12)) (int 0) = true.
Proof.
  cbv zeta.
  destruct (banded_cost_side_fields a) as (E1 & E2 & E3 & E4 & E5 & E6).
  rewrite E1, E2, E3, E4, E5, E6.
  pose proof (proj1 (banded_level_sweep_spec _ _ _ (banded_level_sweep_holds a))
                (complexityLevel a)) as Hs; cbv beta in Hs.
  apply banded_sound_spec in Hs.
  destruct Hs as (S1 & S2 & S3 & S4 & S5 & S6).
  destruct (S6 _ (banded_revenue_in_values a)) as [T1 T2].
  repeat (split; [assumption | ]). exact T2.
Qed.



Lemma banded_payback_law (a : Answers) :
  let x := locals (num:=B64.float) a in
  payback_law (l_totalAnnualBenefit x) (l_edgetierAnnualCost x) (l_paybackMonths x).
Proof.
  cbv zeta.
  apply payback_law_intro with (monthly := l_monthlyBenefit (locals a));
    destruct a as [t v c ai pa pq pd cx rb inc]; reflexivity.
Qed.

Lemma banded_cost_not_negative (a : Answers) :
  B64.is_negative (l_edgetierAnnualCost (locals (num:=B64.float) a)) = false.
Proof.
  destruct a as [t v c ai pa pq pd cx rb inc]. destruct t; vm_compute; reflexivity.
Qed.

End BandedLaws.

Module RicherLaws.
Import Richer RicherSweep RicherFacts.

Lemma richer_sound_spec (pq pd : bool) (x : Locals B64.float) :
  sound pq pd x = true ->
  B64.fgt (l_baselineHandlingCost x) (int 0) = true
  /\ B64.fgt (l_ahtReductionPct x) (int 0) = true
  /\ B64.fgt (l_savingsAht x) (int 0) = true
  /\ (pq = false -> B64.is_zero (l_savingsQa x) = true)
  /\ (pd = false -> B64.is_zero (l_savingsDeflection x) = true)
  /\ (forall r, In r revenue_values ->
        B64.fgt (total_with x r) (int 0) = true
        /\ B64.fgt (B64.fdiv (total_with x r) (int 12)) (int 0) = true).
Proof.
  unfold sound. intros H.
  apply andb_prop in H; destruct H as [H Hr].
  apply andb_prop in H; destruct H as [H Hd].
  apply andb_prop in H; destruct H as [H Hq].
  apply andb_prop in H; destruct H as [H Hs].
  apply andb_prop in H; destruct H as [Hb Hp].
  repeat (split; [assumption | ]).
  split; [ | split].
  - intros ->. exact Hq.
  - intros ->. exact Hd.
  - intros r Hin.
    pose proof (proj1 (forallb_forall _ _) Hr r Hin) as Hx; cbv beta in Hx.
    apply andb_prop in Hx. exact Hx.
Qed.

(** With the region table as the cost source, every record of the
    richer wizard has a positive baseline cost, a positive effective AHT
    reduction, positive AHT savings and a positive benefit whose twelfth
    is positive; QA and deflection savings are zero when their priority
    is off. *)
Lemma richer_locals_sound (a : Answers B64.float) :
  table_cost a = true ->
  let x := locals a in
  B64.fgt (l_baselineHandlingCost x) (int 0) = true
  /\ B64.fgt (l_ahtReductionPct x) (int 0) = true
  /\ B64.fgt (l_savingsAht x) (int 0) = true
  /\ (priorityQa a = false -> B64.is_zero (l_savingsQa x) = true)
  /\ (priorityDeflection a = false -> B64.is_zero (l_savingsDeflection x) = true)
  /\ B64.fgt (l_totalAnnualBenefit x) (int 0) = true
  /\ B64.fgt (B64.fdiv (l_totalAnnualBenefit x) (int 12)) (int 0) = true.
Proof.
  intros Htab; cbv zeta.
  destruct (richer_cost_side_fields a Htab) as (E1 & E2 & E3 & E4 & E5 & E6).
  rewrite E1, E2, E3, E4, E5, E6.
  pose proof (proj1 (richer_level_sweep_spec _ _ _ (richer_level_sweep_holds a))
                (complexityLevel a)) as Hs; cbv beta in Hs.
  apply richer_sound_spec in Hs.
  destruct Hs as (S1 & S2 & S3 & S4 & S5 & S6).
  destruct (S6 _ (richer_revenue_in_values a)) as [T1 T2].
  repeat (split; [assumption | ]). exact T2.
Qed.




Lemma richer_payback_law (a : Answers B64.float) :
  let x := locals a in
  payback_law (l_totalAnnualBenefit x) (l_edgetierAnnualCost x) (l_paybackMonths x).
Proof.
  cbv zeta.
  apply payback_law_intro with (monthly := l_monthlyBenefit (locals a));
    destruct a as [t cm kc r v c ai pa pq pd cx rb ri skip rs im cc]; reflexivity.
Qed.

Lemma richer_auto_cost_not_negative (a : Answers B64.float) :
  investmentMode a = auto ->
  B64.is_negative (l_edgetierAnnualCost (locals a)) = false.
Proof.
  destruct a as [t cm kc r v c ai pa pq pd cx rb ri skip rs im cc].
  simpl. intros ->. destruct t, rs; vm_compute; reflexivity.
Qed.

End RicherLaws.

Module DirectLaws.
Import Direct.

Lemma direct_payback_law (a : Answers B64.float) :
  let x := locals a in
  payback_law (l_totalAnnualBenefit x) (edgetierAnnualCost a) (l_paybackMonths x).
Proof.
  cbv zeta.
  apply payback_law_intro with (monthly := l_monthlyBenefit (locals a));
    destruct a as [n cpm aht cost ra rq rc cx ec rev]; reflexivity.
Qed.

End DirectLaws.

(* ================================================================== *)
(** * The closures as equations between their locals *)

Module DirectEquations.
Import Direct.
Local Open Scope js_scope.


End DirectEquations.

Module RicherEquations.
Import Richer RicherSweep.
Local Open Scope js_scope.


End RicherEquations.

(* ================================================================== *)
(** * The direct form on doubles: boxes not ticked, and no contacts *)

Module DirectDoubles.
Import Direct B64.
Local Open Scope js_scope.







End DirectDoubles.

(* ================================================================== *)
(** * The richer wizard on doubles: priorities that are off *)

Module RicherDoubles.
Import Richer RicherSweep B64.
Local Open Scope js_scope.




End RicherDoubles.

(* ================================================================== *)
(** * Priority factors (claim C3) *)




(* ================================================================== *)
(** * Payback (claim C4) *)

(** C4, as stated, fails: with a custom investment of -5 the benefit is
    positive and the payback period is negative.  On doubles the quotient
    is also not taken for a positive benefit whose twelfth underflows to
    zero: paybackMonths is then 0, while the stated quotient is
    Infinity. *)
Lemma C4_payback_claim_fails :
  (B64.fgt (Richer.totalAnnualBenefit (Richer.results custom_minus_five)) (int 0) = true
   /\ B64.is_negative (Richer.paybackMonths (Richer.results custom_minus_five)) = true)
  /\
  (let r := Direct.results direct_tiny_benefit in
   B64.fgt (Direct.totalAnnualBenefit r) (int 0) = true
   /\ B64.is_zero (B64.fdiv (Direct.totalAnnualBenefit r) (int 12)) = true
   /\ Direct.paybackMonths r = int 0
   /\ (Direct.edgetierAnnualCost direct_tiny_benefit
       / (Direct.totalAnnualBenefit r / int 12))%js = PrimFloat.infinity).
Proof. vm_compute. repeat split; reflexivity. Qed.

(** C4, amended: in every variant, paybackMonths is 0 when
    totalAnnualBenefit is at most 0 (or not a number) and when its twelfth
    is not above zero; otherwise it is investmentCost / (totalAnnualBenefit
    / 12), a quotient whose divisor is above zero; it is not negative
    whenever the investment cost is not negative, which is always so in
    the 7-step wizard and for the derived investment of the richer wizard.
    In the 7-step wizard, and in the richer wizard with the region table as
    cost source, the benefit is always positive and the quotient is taken.
    The investment cost is not clamped: with the custom cost -5 on the
    initial record of the richer wizard the benefit is positive and
    paybackMonths is negative. *)
Theorem C4_payback_months :
  (forall a : Banded.Answers,
     let r := Banded.results (num:=B64.float) a in
     payback_law (Banded.totalAnnualBenefit r) (Banded.edgetierAnnualCost r)
                 (Banded.paybackMonths r)
     /\ B64.fgt (Banded.totalAnnualBenefit r) (int 0) = true
     /\ Banded.paybackMonths r
        = (Banded.edgetierAnnualCost r / (Banded.totalAnnualBenefit r / int 12))%js
     /\ B64.is_negative (Banded.paybackMonths r) = false)
  /\
  (forall a : Richer.Answers B64.float,
     let r := Richer.results a in
     payback_law (Richer.totalAnnualBenefit r) (Richer.edgetierAnnualCost r)
                 (Richer.paybackMonths r)
     /\ (Richer.investmentMode a = Richer.auto ->
         B64.is_negative (Richer.paybackMonths r) = false)
     /\ (RicherSweep.table_cost a = true ->
         B64.fgt (Richer.totalAnnualBenefit r) (int 0) = true
         /\ Richer.paybackMonths r
            = (Richer.edgetierAnnualCost r / (Richer.totalAnnualBenefit r / int 12))%js))
  /\
  (forall a : Direct.Answers B64.float,
     let r := Direct.results a in
     payback_law (Direct.totalAnnualBenefit r) (Direct.edgetierAnnualCost a)
                 (Direct.paybackMonths r))
  /\
  (let r := Richer.results custom_minus_five in
   Richer.investmentMode custom_minus_five = Richer.custom
   /\ B64.is_negative (Richer.edgetierAnnualCost r) = true
   /\ B64.fgt (Richer.totalAnnualBenefit r) (int 0) = true
   /\ B64.is_negative (Richer.paybackMonths r) = true).
Proof.
  split; [ | split; [ | split]]; [ | | | vm_compute; repeat split; reflexivity].
  - intros a; cbv zeta.
    pose proof (BandedLaws.banded_payback_law a) as L; cbv zeta in L.
    destruct (BandedLaws.banded_locals_sound a) as (_ & _ & _ & _ & _ & T1 & T2).
    pose proof (BandedLaws.banded_cost_not_negative a) as Hc.
    change (Banded.totalAnnualBenefit (Banded.results a))
      with (Banded.l_totalAnnualBenefit (Banded.locals a)).
    change (Banded.edgetierAnnualCost (Banded.results a))
      with (Banded.l_edgetierAnnualCost (Banded.locals a)).
    change (Banded.paybackMonths (Banded.results a))
      with (Banded.l_paybackMonths (Banded.locals a)).
    split; [exact L | ]. split; [exact T1 | ].
    destruct L as (_ & _ & _ & L4 & L5).
    split; [exact (L4 T1 T2) | exact (L5 Hc)].
  - intros a; cbv zeta.
    pose proof (RicherLaws.richer_payback_law a) as L; cbv zeta in L.
    change (Richer.totalAnnualBenefit (Richer.results a))
      with (Richer.l_totalAnnualBenefit (Richer.locals a)).
    change (Richer.edgetierAnnualCost (Richer.results a))
      with (Richer.l_edgetierAnnualCost (Richer.locals a)).
    change (Richer.paybackMonths (Richer.results a))
      with (Richer.l_paybackMonths (Richer.locals a)).
    split; [exact L | ].
    destruct L as (_ & _ & _ & L4 & L5).
    split.
    + intros Hauto. apply L5. now apply RicherLaws.richer_auto_cost_not_negative.
    + intros Htab.
      destruct (RicherLaws.richer_locals_sound a Htab) as (_ & _ & _ & _ & _ & T1 & T2).
      split; [exact T1 | exact (L4 T1 T2)].
  - intros a; cbv zeta. exact (DirectLaws.direct_payback_law a).
Qed.

(** C4 at work: the initial record of the direct form has a positive
    benefit and a payback that is the cost over a twelfth of the
    benefit. *)
Lemma C4_payback_months_witness :
  let r := Direct.results (num:=B64.float) Direct.initial in
  Direct.paybackMonths r
  = (Direct.edgetierAnnualCost (num:=B64.float) Direct.initial
     / (Direct.totalAnnualBenefit r / int 12))%js.
Proof.
  cbv zeta.
  apply (proj1 (proj2 (proj2 (proj2
           (proj1 (proj2 (proj2 C4_payback_months)) Direct.initial)))));
    vm_compute; reflexivity.
Defined.

(* ================================================================== *)
(** * Monotonicity in the complexity level (claim C6), on doubles *)


(* ================================================================== *)
(** * Monotonicity in the complexity level (claim C6) *)



(* ================================================================== *)
(** * The zero-volume boundary of the direct form (claim C9) *)




(* ================================================================== *)
(** * Step navigation *)

Section StepFacts.

Import Steps.

Lemma small_step_cases (n k : Z) :
  (1 <= k <= n)%Z -> (n <= 7)%Z ->
  k = 1%Z \/ k = 2%Z \/ k = 3%Z \/ k = 4%Z \/ k = 5%Z \/ k = 6%Z \/ k = 7%Z.
Proof. lia. Qed.

Lemma last_step_cases (n : Z) :
  In n [banded_last; direct_last; richer_last] -> n = 7%Z \/ n = 3%Z \/ n = 6%Z.
Proof. simpl. unfold banded_last, direct_last, richer_last. intuition. Qed.

(** One click moves the cursor as the integer walk does. *)
Lemma click_walk (n k : Z) (c : Click) :
  In n [banded_last; direct_last; richer_last] -> (1 <= k <= n)%Z ->
  click (int n) (int k) c = int (walk n k c).
Proof.
  intros Hn Hk.
  destruct (@last_step_cases _ Hn) as [-> | [-> | ->]];
    destruct (@small_step_cases _ k Hk ltac:(lia)) as [-> | [-> | [-> | [-> | [-> | [-> | ->]]]]]];
    try lia; destruct c; vm_compute; reflexivity.
Qed.

Lemma walk_in_range (n k : Z) (c : Click) :
  (1 <= k <= n)%Z -> (1 <= walk n k c <= n)%Z.
Proof. destruct c; simpl; lia. Qed.

Lemma clicks_walk (n : Z) (clicks : list Click) :
  In n [banded_last; direct_last; richer_last] ->
  forall k, (1 <= k <= n)%Z ->
    fold_left (click (int n)) clicks (int k) = int (fold_left (walk n) clicks k)
    /\ (1 <= fold_left (walk n) clicks k <= n)%Z.
Proof.
  intros Hn. induction clicks as [ | c clicks IH]; intros k Hk; cbn [fold_left].
  - split; [reflexivity | exact Hk].
  - rewrite (@click_walk n k c Hn Hk). apply IH. now apply walk_in_range.
Qed.

Lemma one_in_range (n : Z) :
  In n [banded_last; direct_last; richer_last] -> (1 <= 1 <= n)%Z.
Proof. intros Hn. destruct (@last_step_cases _ Hn) as [-> | [-> | ->]]; lia. Qed.

Lemma after_position (n : Z) (clicks : list Click) :
  In n [banded_last; direct_last; richer_last] ->
  after (int n) clicks = int (position n clicks)
  /\ (1 <= position n clicks <= n)%Z.
Proof. intros Hn. exact (@clicks_walk n clicks Hn 1%Z (@one_in_range n Hn)). Qed.

(** On the steps of a wizard, [===] is equality of the step numbers. *)
Lemma step_eqb (n k j : Z) :
  (1 <= k <= n)%Z -> (1 <= j <= n)%Z -> (n <= 7)%Z ->
  PrimFloat.eqb (int k) (int j) = (k =? j)%Z.
Proof.
  intros Hk Hj Hn.
  destruct (@small_step_cases n k Hk Hn) as [-> | [-> | [-> | [-> | [-> | [-> | ->]]]]]];
    destruct (@small_step_cases n j Hj Hn) as [-> | [-> | [-> | [-> | [-> | [-> | ->]]]]]];
    vm_compute; reflexivity.
Qed.

Lemma position_bound (n : Z) (clicks : list Click) :
  (1 <= n)%Z ->
  forall k, (1 <= k)%Z ->
    (fold_left (walk n) clicks k <= k + Z.of_nat (nexts clicks))%Z.
Proof.
  intros Hn. induction clicks as [ | c clicks IH]; intros k Hk.
  - unfold nexts. cbn [filter List.length fold_left]. lia.
  - cbn [fold_left].
    assert (Hw : (1 <= walk n k c)%Z) by (destruct c; cbn [walk]; lia).
    specialize (IH (walk n k c) Hw).
    assert (Hc : Z.of_nat (nexts (c :: clicks))
                 = ((match c with Next => 1 | Back => 0 end)
                    + Z.of_nat (nexts clicks))%Z)
      by (destruct c; unfold nexts; cbn [filter List.length]; lia).
    rewrite Hc. destruct c; cbn [walk] in IH |- *; lia.
Qed.

Lemma position_nexts (n : Z) (m : nat) :
  forall k, (k <= n)%Z ->
    fold_left (walk n) (repeat Next m) k = Z.min n (k + Z.of_nat m).
Proof.
  induction m as [ | m IH]; intros k Hk.
  - simpl. lia.
  - cbn [repeat fold_left]. rewrite IH by (simpl; lia). simpl walk. lia.
Qed.

End StepFacts.

(** X1: in each of the three components, whatever the buttons clicked,
    the step cursor is a whole number between 1 and the last step (7, 3,
    6): it is the integer walk that adds one on Next and takes one off on
    Back without leaving that range. *)
Theorem X1_cursor_stays_on_a_step :
  forall (n : Z) (clicks : list Steps.Click),
    In n [Steps.banded_last; Steps.direct_last; Steps.richer_last] ->
    Steps.after (int n) clicks = int (Steps.position n clicks)
    /\ (1 <= Steps.position n clicks <= n)%Z.
Proof. intros n clicks Hn. now apply (@after_position n clicks). Qed.

(** X1 at work: in the direct form, Next, Next, Next, Back leaves the
    cursor on step 2. *)
Lemma X1_cursor_stays_on_a_step_witness :
  Steps.after (int Steps.direct_last) [Steps.Next; Steps.Next; Steps.Next; Steps.Back]
  = int 2.
Proof.
  rewrite (proj1 (@X1_cursor_stays_on_a_step Steps.direct_last
                    [Steps.Next; Steps.Next; Steps.Next; Steps.Back]
                    ltac:(simpl; tauto))).
  reflexivity.
Defined.

(** X2: on every step the cursor can reach, Next does nothing exactly
    when its button is disabled (the last step) and Back does nothing
    exactly when its button is disabled (step 1); everywhere else Back
    undoes Next and Next undoes Back. *)
Theorem X2_next_and_back_undo_each_other :
  forall (n : Z) (clicks : list Steps.Click),
    In n [Steps.banded_last; Steps.direct_last; Steps.richer_last] ->
    let last := int n in
    let s := Steps.after last clicks in
    PrimFloat.eqb (Steps.goNext last s) s = Steps.showResults last s
    /\ PrimFloat.eqb (Steps.goBack s) s = Steps.backDisabled s
    /\ (Steps.showResults last s = false -> Steps.goBack (Steps.goNext last s) = s)
    /\ (Steps.backDisabled s = false -> Steps.goNext last (Steps.goBack s) = s).
Proof.
  intros n clicks Hn; cbv zeta.
  destruct (@after_position n clicks Hn) as [-> Hk].
  set (k := Steps.position n clicks) in *. clearbody k.
  destruct (@last_step_cases _ Hn) as [-> | [-> | ->]];
    destruct (@small_step_cases _ k Hk ltac:(lia)) as [-> | [-> | [-> | [-> | [-> | [-> | ->]]]]]];
    try lia; vm_compute; (repeat split; try reflexivity; try discriminate).
Qed.

(** X2 at work: on step 2 of the richer wizard, Back after Next returns
    to step 2. *)
Lemma X2_next_and_back_undo_each_other_witness :
  Steps.goBack (Steps.goNext (int Steps.richer_last)
                  (Steps.after (int Steps.richer_last) [Steps.Next]))
  = Steps.after (int Steps.richer_last) [Steps.Next].
Proof.
  apply (proj1 (proj2 (proj2 (@X2_next_and_back_undo_each_other Steps.richer_last
                                [Steps.Next] ltac:(simpl; tauto))))).
  reflexivity.
Defined.

(** X3: no question can be skipped: the results are shown only after at
    least (last step - 1) clicks on Next, and that many clicks on Next, or
    more, from the start do show them. *)
Theorem X3_results_need_every_step :
  forall (n : Z) (clicks : list Steps.Click),
    In n [Steps.banded_last; Steps.direct_last; Steps.richer_last] ->
    (Steps.showResults (int n) (Steps.after (int n) clicks) = true ->
     (n - 1 <= Z.of_nat (Steps.nexts clicks))%Z)
    /\ (forall m : nat, (n - 1 <= Z.of_nat m)%Z ->
          Steps.showResults (int n) (Steps.after (int n) (repeat Steps.Next m)) = true).
Proof.
  intros n clicks Hn.
  assert (Hn7 : (1 <= n <= 7)%Z)
    by (destruct (@last_step_cases _ Hn) as [-> | [-> | ->]]; lia).
  split.
  - destruct (@after_position n clicks Hn) as [-> Hk].
    unfold Steps.showResults. rewrite (@step_eqb n) by lia.
    intros H. apply Z.eqb_eq in H.
    pose proof (@position_bound n clicks ltac:(lia) 1%Z ltac:(lia)) as Hb.
    unfold Steps.position in H. lia.
  - intros m Hm.
    destruct (@after_position n (repeat Steps.Next m) Hn) as [-> Hk].
    unfold Steps.showResults. rewrite (@step_eqb n) by lia.
    apply Z.eqb_eq. unfold Steps.position.
    rewrite position_nexts by lia. lia.
Qed.

(** X3 at work: in the 7-step wizard six clicks on Next show the
    results. *)
Lemma X3_results_need_every_step_witness :
  Steps.showResults (int Steps.banded_last)
    (Steps.after (int Steps.banded_last) (repeat Steps.Next 6)) = true.
Proof.
  apply (proj2 (@X3_results_need_every_step Steps.banded_last [] ltac:(simpl; tauto))).
  vm_compute. discriminate.
Defined.

(* ================================================================== *)
(** * Display formatting *)

Section SignFacts.

Import B64.

(** [-a] is finite when [a] is. *)
Lemma opp_finite (a : float) : is_finite (PrimFloat.opp a) = is_finite a.
Proof.
  unfold is_finite, PrimFloat.is_finite, PrimFloat.is_nan, PrimFloat.is_infinity.
  rewrite !eqb_spec, !abs_spec, opp_spec.
  change (Prim2SF infinity) with (S754_infinity false).
  destruct (Prim2SF a) as [s | s | | s m e]; try destruct s; try reflexivity;
    cbn [SFopp SFabs negb]; rewrite !sf_eqb_refl by discriminate; reflexivity.
Qed.

(** [-a < 0] when [a > 0], and then [a < 0] is false. *)
Lemma opp_negative (a : float) :
  fgt a (int 0) = true ->
  fgt (int 0) (PrimFloat.opp a) = true /\ fgt (int 0) a = false.
Proof.
  rewrite int_zero. unfold fgt. rewrite !ltb_spec, opp_spec, spec_zero.
  destruct (Prim2SF a) as [s | s | | s m e]; try destruct s; try discriminate;
    intros _; split; reflexivity.
Qed.

(** [Math.abs(-a)] is [Math.abs(a)]. *)
Lemma abs_opp (a : float) : PrimFloat.abs (PrimFloat.opp a) = PrimFloat.abs a.
Proof.
  apply Prim2SF_inj. rewrite !abs_spec, opp_spec.
  destruct (Prim2SF a) as [s | s | | s m e]; reflexivity.
Qed.

End SignFacts.

Section FormatFacts.

Variable toLocaleString : B64.float -> string.
Variable toFixed : nat -> B64.float -> string.

Lemma currency_placeholder (value : B64.float) :
  Format.formatCurrency toLocaleString value None = "-"%string
  <-> B64.is_finite value = false.
Proof.
  unfold Format.formatCurrency.
  destruct (B64.is_finite value); cbn [negb nullish].
  - split; [ | discriminate].
    destruct (gt (int 0) value); cbn [String.append]; intros H; discriminate H.
  - split; reflexivity.
Qed.

Lemma percent_placeholder (value : B64.float) :
  Format.formatPercent toFixed value = "-"%string
  <-> B64.is_finite value = false.
Proof.
  unfold Format.formatPercent.
  destruct (B64.is_finite value); cbn [negb].
  - split; [ | discriminate].
    destruct (toFixed O value) as [ | c s]; cbn [String.append]; intros H;
      [discriminate H | ].
    destruct s; discriminate H.
  - split; reflexivity.
Qed.

Lemma number_placeholder (value : B64.float) :
  (B64.is_finite value = false ->
   Format.formatNumber toLocaleString value = "-"%string)
  /\ (B64.is_finite value = true ->
      Format.formatNumber toLocaleString value = toLocaleString value).
Proof.
  unfold Format.formatNumber. split; intros ->; reflexivity.
Qed.

End FormatFacts.

(** X4: whatever digits the host prints, [formatCurrency] (with the
    default currency) and [formatPercent] return the placeholder "-"
    exactly for the values that are not finite (NaN, Infinity,
    -Infinity), and [formatNumber] returns it for each of them: a finite
    amount is never shown as the placeholder. *)
Theorem X4_placeholder_means_not_finite :
  forall (toLocaleString : B64.float -> string) (toFixed : nat -> B64.float -> string)
         (value : B64.float),
    (Format.formatCurrency toLocaleString value None = "-"%string
     <-> B64.is_finite value = false)
    /\ (Format.formatPercent toFixed value = "-"%string
        <-> B64.is_finite value = false)
    /\ (B64.is_finite value = false ->
        Format.formatNumber toLocaleString value = "-"%string).
Proof.
  intros tls tf v. split; [ | split].
  - apply currency_placeholder.
  - apply percent_placeholder.
  - apply number_placeholder.
Qed.

(** X5: for a finite amount above zero, [formatCurrency] of its negation
    is the minus sign followed by [formatCurrency] of the amount: the
    sign goes in front of the currency symbol and the host only ever
    prints the absolute value. *)
Theorem X5_negative_amounts_keep_their_digits :
  forall (toLocaleString : B64.float -> string) (value : B64.float)
         (currency : option string),
    B64.is_finite value = true ->
    B64.fgt value (int 0) = true ->
    Format.formatCurrency toLocaleString (PrimFloat.opp value) currency
    = ("-" ++ Format.formatCurrency toLocaleString value currency)%string.
Proof.
  intros tls v c Hf Hp.
  destruct (@opp_negative v Hp) as [Hn Hv].
  unfold Format.formatCurrency.
  rewrite opp_finite, Hf, abs_opp. cbn [negb].
  change (gt (int 0) (PrimFloat.opp v)) with (B64.fgt (int 0) (PrimFloat.opp v)).
  change (gt (int 0) v) with (B64.fgt (int 0) v).
  rewrite Hn, Hv. reflexivity.
Qed.

(** X5 at work: with a host that prints "5", -5 is shown as "-€5". *)
Lemma X5_negative_amounts_keep_their_digits_witness :
  Format.formatCurrency (fun _ => "5"%string) (PrimFloat.opp (int 5)) None
  = ("-" ++ Format.formatCurrency (fun _ => "5"%string) (int 5) None)%string.
Proof.
  apply (@X5_negative_amounts_keep_their_digits (fun _ => "5"%string) (int 5) None);
    reflexivity.
Defined.

(* ================================================================== *)
(** * The 7-step wizard over all its answer records *)

Module BandedOrderFacts.
Import Banded BandedSweep BandedOrder BandedFacts.
Local Open Scope js_scope.

Lemma banded_level_complete l : In l all_ComplexityLevel.
Proof. destruct l; simpl; tauto. Qed.
Lemma banded_revenue_band_complete rb : In rb all_RevenueBand.
Proof. destruct rb; simpl; tauto. Qed.

Lemma banded_every_spec (P : Answers -> bool) :
  every P = true -> forall a, P a = true.
Proof.
  intros H [t v l m pa pq pd cx rb inc]. unfold every in H.
  pose proof (@forallb_complete _ _ _ banded_team_complete H t) as H1; cbv beta in H1.
  pose proof (@forallb_complete _ _ _ banded_volume_complete H1 v) as H2; cbv beta in H2.
  pose proof (@forallb_complete _ _ _ banded_level_complete H2 l) as H3; cbv beta in H3.
  pose proof (@forallb_complete _ _ _ banded_ai_complete H3 m) as H4; cbv beta in H4.
  pose proof (@forallb_complete _ _ _ all_bool_complete H4 pa) as H5; cbv beta in H5.
  pose proof (@forallb_complete _ _ _ all_bool_complete H5 pq) as H6; cbv beta in H6.
  pose proof (@forallb_complete _ _ _ all_bool_complete H6 pd) as H7; cbv beta in H7.
  pose proof (@forallb_complete _ _ _ all_bool_complete H7 cx) as H8; cbv beta in H8.
  pose proof (@forallb_complete _ _ _ banded_revenue_band_complete H8 rb) as H9;
    cbv beta in H9.
  pose proof (@forallb_complete _ _ _ all_bool_complete H9 inc) as H10; cbv beta in H10.
  exact H10.
Qed.

Lemma banded_every_side_spec (P : Side -> bool) :
  every_side P = true -> forall p, P p = true.
Proof.
  intros H [t v l m pa pq pd]. unfold every_side in H.
  pose proof (@forallb_complete _ _ _ banded_team_complete H t) as H1; cbv beta in H1.
  pose proof (@forallb_complete _ _ _ banded_volume_complete H1 v) as H2; cbv beta in H2.
  pose proof (@forallb_complete _ _ _ banded_level_complete H2 l) as H3; cbv beta in H3.
  pose proof (@forallb_complete _ _ _ banded_ai_complete H3 m) as H4; cbv beta in H4.
  pose proof (@forallb_complete _ _ _ all_bool_complete H4 pa) as H5; cbv beta in H5.
  pose proof (@forallb_complete _ _ _ all_bool_complete H5 pq) as H6; cbv beta in H6.
  pose proof (@forallb_complete _ _ _ all_bool_complete H6 pd) as H7; cbv beta in H7.
  exact H7.
Qed.

(** The pass over the 3600 sides and the sides one raise above each. *)
Lemma banded_ups_ok : every_side up_check = true.
Proof. vm_cast_no_check (eq_refl true). Qed.

(** The passes over the 72000 answer records. *)
Lemma banded_healthy_ok : every healthy = true.
Proof. vm_cast_no_check (eq_refl true). Qed.

Lemma banded_verdicts_ok : every verdicts_agree = true.
Proof. vm_cast_no_check (eq_refl true). Qed.

Lemma banded_within_ok : every within_baseline = true.
Proof. vm_cast_no_check (eq_refl true). Qed.

Lemma banded_revenue_ok : every revenue_adds = true.
Proof. vm_cast_no_check (eq_refl true). Qed.

(** A raise of the answers is a raise of their sides and leaves the
    revenue term as it is. *)
Lemma banded_raised_side (a b : Answers) :
  raised a b ->
  In (side_of b) (ups (side_of a))
  /\ l_revenueProtected (locals (num:=B64.float) b)
     = l_revenueProtected (locals (num:=B64.float) a).
Proof.
  intros R. destruct R as [a t H | a v H | a l H | a m H | a H | a H | a H].
  - split; [ | destruct a; reflexivity].
    unfold ups. apply in_or_app; left.
    apply in_map_iff. exists t. split; [reflexivity | ].
    apply filter_In. split; [apply banded_team_complete | now apply Z.ltb_lt].
  - split; [ | destruct a; reflexivity].
    unfold ups. apply in_or_app; right. apply in_or_app; left.
    apply in_map_iff. exists v. split; [reflexivity | ].
    apply filter_In. split; [apply banded_volume_complete | now apply Z.ltb_lt].
  - split; [ | destruct a; reflexivity].
    unfold ups. do 2 (apply in_or_app; right). apply in_or_app; left.
    apply in_map_iff. exists l. split; [reflexivity | ].
    apply filter_In. split; [apply banded_level_complete | now apply Z.ltb_lt].
  - split; [ | destruct a; reflexivity].
    unfold ups. do 3 (apply in_or_app; right). apply in_or_app; left.
    apply in_map_iff. exists m. split; [reflexivity | ].
    apply filter_In. split; [apply banded_ai_complete | now apply Z.ltb_lt].
  - split; [ | destruct a; reflexivity].
    unfold ups. do 4 (apply in_or_app; right). apply in_or_app; left.
    change (s_aht (side_of a)) with (priorityAht a). rewrite H. now left.
  - split; [ | destruct a; reflexivity].
    unfold ups. do 5 (apply in_or_app; right). apply in_or_app; left.
    change (s_qa (side_of a)) with (priorityQa a). rewrite H. now left.
  - split; [ | destruct a; reflexivity].
    unfold ups. do 6 (apply in_or_app; right).
    change (s_deflection (side_of a)) with (priorityDeflection a). rewrite H. now left.
Qed.

Lemma banded_raises_spec (x y : Locals B64.float) :
  raises x y = true ->
  (l_savingsAht x <= l_savingsAht y) = true
  /\ (l_savingsQa x <= l_savingsQa y) = true
  /\ (l_savingsDeflection x <= l_savingsDeflection y) = true
  /\ (l_totalHoursSaved x <= l_totalHoursSaved y) = true
  /\ forall r, In r revenue_values -> (total_with y r > total_with x r) = true.
Proof.
  unfold raises. intros H.
  apply andb_prop in H; destruct H as [H Hr].
  apply andb_prop in H; destruct H as [H Hh].
  apply andb_prop in H; destruct H as [H Hd].
  apply andb_prop in H; destruct H as [Ha Hq].
  repeat (split; [assumption | ]).
  intros r Hin. exact (proj1 (forallb_forall _ _) Hr r Hin).
Qed.

(** What the locals of a record owe to its side. *)
Lemma banded_side_fields (a : Answers) :
  let x := locals (num:=B64.float) a in
  let y := locals (of_side (side_of a)) in
  l_savingsAht x = l_savingsAht y
  /\ l_savingsQa x = l_savingsQa y
  /\ l_savingsDeflection x = l_savingsDeflection y
  /\ l_totalHoursSaved x = l_totalHoursSaved y
  /\ l_totalAnnualBenefit x = total_with y (l_revenueProtected x).
Proof.
  destruct a as [t v l ai pa pq pd cx rb inc]; cbv zeta.
  split; [reflexivity | ]. split; [reflexivity | ]. split; [reflexivity | ].
  split; reflexivity.
Qed.

Lemma banded_raised_raises (a b : Answers) :
  raised a b ->
  raises (locals (of_side (side_of a))) (locals (of_side (side_of b))) = true.
Proof.
  intros R. destruct (banded_raised_side R) as [Hin _].
  pose proof (banded_every_side_spec up_check banded_ups_ok (side_of a)) as H.
  cbv beta zeta delta [up_check] in H.
  exact (proj1 (forallb_forall _ _) H (side_of b) Hin).
Qed.

End BandedOrderFacts.

(** X6: in the 7-step wizard, moving one answer of the cost side up (a
    larger team band, more contacts per agent, a higher complexity level,
    less automation in place, or one more priority switched on) with all
    other answers fixed strictly increases totalAnnualBenefit and lowers
    none of savingsAht, savingsQa, savingsDeflection and
    totalHoursSaved. *)
Theorem X6_banded_raise_increases_benefit :
  forall a b : Banded.Answers,
    BandedOrder.raised a b ->
    let x := Banded.results (num:=B64.float) a in
    let y := Banded.results (num:=B64.float) b in
    (Banded.totalAnnualBenefit y > Banded.totalAnnualBenefit x)%js = true
    /\ (Banded.savingsAht x <= Banded.savingsAht y)%js = true
    /\ (Banded.savingsQa x <= Banded.savingsQa y)%js = true
    /\ (Banded.savingsDeflection x <= Banded.savingsDeflection y)%js = true
    /\ (Banded.totalHoursSaved x <= Banded.totalHoursSaved y)%js = true.
Proof.
  intros a b R; cbv zeta.
  change (Banded.totalAnnualBenefit (Banded.results b))
    with (Banded.l_totalAnnualBenefit (Banded.locals (num:=B64.float) b)).
  change (Banded.totalAnnualBenefit (Banded.results a))
    with (Banded.l_totalAnnualBenefit (Banded.locals (num:=B64.float) a)).
  change (Banded.savingsAht (Banded.results b))
    with (Banded.l_savingsAht (Banded.locals (num:=B64.float) b)).
  change (Banded.savingsAht (Banded.results a))
    with (Banded.l_savingsAht (Banded.locals (num:=B64.float) a)).
  change (Banded.savingsQa (Banded.results b))
    with (Banded.l_savingsQa (Banded.locals (num:=B64.float) b)).
  change (Banded.savingsQa (Banded.results a))
    with (Banded.l_savingsQa (Banded.locals (num:=B64.float) a)).
  change (Banded.savingsDeflection (Banded.results b))
    with (Banded.l_savingsDeflection (Banded.locals (num:=B64.float) b)).
  change (Banded.savingsDeflection (Banded.results a))
    with (Banded.l_savingsDeflection (Banded.locals (num:=B64.float) a)).
  change (Banded.totalHoursSaved (Banded.results b))
    with (Banded.l_totalHoursSaved (Banded.locals (num:=B64.float) b)).
  change (Banded.totalHoursSaved (Banded.results a))
    with (Banded.l_totalHoursSaved (Banded.locals (num:=B64.float) a)).
  destruct (BandedOrderFacts.banded_side_fields a) as (A1 & A2 & A3 & A4 & A5).
  destruct (BandedOrderFacts.banded_side_fields b) as (B1 & B2 & B3 & B4 & B5).
  destruct (BandedOrderFacts.banded_raised_side R) as [_ Hrev].
  destruct (BandedOrderFacts.banded_raises_spec _ _
              (BandedOrderFacts.banded_raised_raises R)) as (S1 & S2 & S3 & S4 & S5).
  rewrite A1, A2, A3, A4, A5, B1, B2, B3, B4, B5, Hrev.
  split; [exact (S5 _ (BandedFacts.banded_revenue_in_values a)) | ].
  split; [exact S1 | ]. split; [exact S2 | ]. split; [exact S3 | exact S4].
Qed.

(** X6 at work: switching the QA priority on in a record that has it off
    raises the total benefit. *)
Lemma X6_banded_raise_increases_benefit_witness :
  let a := BandedSweep.probe Banded.T_26_50 Banded.V_30_40 Banded.L3 Banded.medium
             true false true in
  (Banded.totalAnnualBenefit (Banded.results (BandedOrder.with_priorityQa true a))
   > Banded.totalAnnualBenefit (Banded.results (num:=B64.float) a))%js = true.
Proof.
  cbv zeta.
  apply (X6_banded_raise_increases_benefit
           (BandedOrder.prioritise_qa
              (BandedSweep.probe Banded.T_26_50 Banded.V_30_40 Banded.L3 Banded.medium
                 true false true) eq_refl)).
Defined.

Section BandedRecords.

Import Banded BandedOrder BandedOrderFacts.
Local Open Scope js_scope.

Lemma banded_healthy (a : Answers) :
  finite_results (results a) = true /\ signs_ok (results a) = true.
Proof.
  pose proof (banded_every_spec healthy banded_healthy_ok a) as H.
  cbv beta zeta delta [healthy] in H. now apply andb_prop in H.
Qed.

Lemma banded_finite_fields (r : Results B64.float) :
  finite_results r = true ->
  Forall (fun v => B64.is_finite v = true)
    [numAgents r; contactsPerYear r; ahtMins r; costPerContactBaseline r;
     contactsAvoidedPerYear r; savingsAht r; savingsQa r; savingsDeflection r;
     revenueProtected r; totalAnnualBenefit r; netGain r; roiPct r;
     totalHoursSaved r; paybackMonths r; edgetierAnnualCost r].
Proof.
  unfold finite_results. intros H.
  repeat (apply andb_prop in H; destruct H as [H ?]).
  repeat (constructor; [assumption | ]). constructor.
Qed.

Lemma banded_sign_fields (r : Results B64.float) :
  signs_ok r = true ->
  Forall (fun v => (v > int 0) = true)
    [contactsPerYear r; costPerContactBaseline r; savingsAht r;
     totalAnnualBenefit r; totalHoursSaved r; edgetierAnnualCost r;
     paybackMonths r]
  /\ Forall (fun v => (int 0 <= v) = true)
       [savingsQa r; savingsDeflection r; revenueProtected r;
        contactsAvoidedPerYear r].
Proof.
  unfold signs_ok. intros H.
  repeat (apply andb_prop in H; destruct H as [H ?]).
  split; repeat (constructor; [assumption | ]); constructor.
Qed.

Lemma banded_finite_spec (r : Results B64.float) :
  finite_results r = true ->
  B64.is_finite (numAgents r) = true /\ B64.is_finite (contactsPerYear r) = true
  /\ B64.is_finite (ahtMins r) = true
  /\ B64.is_finite (costPerContactBaseline r) = true
  /\ B64.is_finite (contactsAvoidedPerYear r) = true
  /\ B64.is_finite (savingsAht r) = true /\ B64.is_finite (savingsQa r) = true
  /\ B64.is_finite (savingsDeflection r) = true
  /\ B64.is_finite (revenueProtected r) = true
  /\ B64.is_finite (totalAnnualBenefit r) = true
  /\ B64.is_finite (netGain r) = true /\ B64.is_finite (roiPct r) = true
  /\ B64.is_finite (totalHoursSaved r) = true
  /\ B64.is_finite (paybackMonths r) = true
  /\ B64.is_finite (edgetierAnnualCost r) = true.
Proof.
  unfold finite_results. intros H.
  repeat (apply andb_prop in H; destruct H as [H ?]).
  repeat (split; [assumption | ]). assumption.
Qed.

Lemma banded_payback_positive (r : Results B64.float) :
  signs_ok r = true -> (paybackMonths r > int 0) = true.
Proof. unfold signs_ok. intros H. apply andb_prop in H. exact (proj2 H). Qed.

(** A result whose fields are finite and whose payback is above zero
    is displayed without a placeholder. *)
Lemma panel_without_placeholder
    (toLocaleString : B64.float -> string) (toFixed : nat -> B64.float -> string)
    (r : Results B64.float) :
  finite_results r = true -> (paybackMonths r > int 0) = true ->
  Forall (fun v => Format.formatCurrency toLocaleString v None <> "-"%string)
    [totalAnnualBenefit r; netGain r; edgetierAnnualCost r; savingsAht r;
     savingsQa r; savingsDeflection r; revenueProtected r;
     costPerContactBaseline r]
  /\ Format.formatPercent toFixed (roiPct r) <> "-"%string
  /\ Forall (fun v => Format.formatNumber toLocaleString v = toLocaleString v)
       [totalHoursSaved r; numAgents r; contactsPerYear r;
        contactsAvoidedPerYear r]
  /\ Format.paybackCell toFixed (paybackMonths r)
     = (toFixed 1%nat (paybackMonths r) ++ " months")%string.
Proof.
  intros Hf Hp.
  destruct (banded_finite_spec r Hf)
    as (F1 & F2 & F3 & F4 & F5 & F6 & F7 & F8 & F9 & F10 & F11 & F12 & F13 & F14 & F15).
  assert (C : forall v, B64.is_finite v = true ->
                Format.formatCurrency toLocaleString v None <> "-"%string).
  { intros v Hv E. apply (currency_placeholder toLocaleString) in E.
    rewrite Hv in E. discriminate E. }
  assert (N : forall v, B64.is_finite v = true ->
                Format.formatNumber toLocaleString v = toLocaleString v).
  { intros v Hv. now apply number_placeholder. }
  split.
  { repeat (constructor; [apply C; pick | ]). constructor. }
  split.
  { intros E. apply (percent_placeholder toFixed) in E.
    rewrite F12 in E. discriminate E. }
  split.
  { repeat (constructor; [apply N; pick | ]). constructor. }
  unfold Format.paybackCell. rewrite Hp. reflexivity.
Qed.

End BandedRecords.

(** X7: for every answer record of the 7-step wizard, each of the 15
    fields of the result is a finite number (never NaN, never infinite);
    contactsPerYear, costPerContactBaseline, savingsAht,
    totalAnnualBenefit, totalHoursSaved, edgetierAnnualCost and
    paybackMonths are above zero, and savingsQa, savingsDeflection,
    revenueProtected and contactsAvoidedPerYear are not negative. *)
Theorem X7_banded_results_are_finite :
  forall a : Banded.Answers,
    let r := Banded.results (num:=B64.float) a in
    Forall (fun v => B64.is_finite v = true)
      [Banded.numAgents r; Banded.contactsPerYear r; Banded.ahtMins r;
       Banded.costPerContactBaseline r; Banded.contactsAvoidedPerYear r;
       Banded.savingsAht r; Banded.savingsQa r; Banded.savingsDeflection r;
       Banded.revenueProtected r; Banded.totalAnnualBenefit r; Banded.netGain r;
       Banded.roiPct r; Banded.totalHoursSaved r; Banded.paybackMonths r;
       Banded.edgetierAnnualCost r]
    /\ Forall (fun v => (v > int 0)%js = true)
         [Banded.contactsPerYear r; Banded.costPerContactBaseline r;
          Banded.savingsAht r; Banded.totalAnnualBenefit r;
          Banded.totalHoursSaved r; Banded.edgetierAnnualCost r;
          Banded.paybackMonths r]
    /\ Forall (fun v => (int 0 <= v)%js = true)
         [Banded.savingsQa r; Banded.savingsDeflection r;
          Banded.revenueProtected r; Banded.contactsAvoidedPerYear r].
Proof.
  intros a; cbv zeta.
  destruct (banded_healthy a) as [Hf Hs].
  split; [exact (banded_finite_fields _ Hf) | exact (banded_sign_fields _ Hs)].
Qed.

(** X8: for every answer record of the 7-step wizard the three verdicts
    of the result come together: paybackMonths is below 12 exactly when
    netGain is above zero, which is exactly when roiPct is above zero;
    and paybackMonths is above 12 exactly when netGain is negative, which
    is exactly when roiPct is negative. *)
Theorem X8_banded_verdicts_agree :
  forall a : Banded.Answers,
    let r := Banded.results (num:=B64.float) a in
    (int 12 > Banded.paybackMonths r)%js = (Banded.netGain r > int 0)%js
    /\ (Banded.roiPct r > int 0)%js = (Banded.netGain r > int 0)%js
    /\ (Banded.paybackMonths r > int 12)%js = (int 0 > Banded.netGain r)%js
    /\ (int 0 > Banded.roiPct r)%js = (int 0 > Banded.netGain r)%js.
Proof.
  intros a; cbv zeta.
  pose proof (BandedOrderFacts.banded_every_spec BandedOrder.verdicts_agree
                BandedOrderFacts.banded_verdicts_ok a) as H.
  cbv beta zeta delta [BandedOrder.verdicts_agree] in H.
  apply andb_prop in H; destruct H as [H H4].
  apply andb_prop in H; destruct H as [H H3].
  apply andb_prop in H; destruct H as [H1 H2].
  split; [exact (eqb_prop _ _ H1) | ]. split; [exact (eqb_prop _ _ H2) | ].
  split; [exact (eqb_prop _ _ H3) | exact (eqb_prop _ _ H4)].
Qed.

(** X9: for every answer record of the 7-step wizard each saving stays
    below what it is a share of: savingsAht and savingsDeflection are
    below baselineHandlingCost, savingsQa is below baselineQaCost,
    contactsAvoidedPerYear is below contactsPerYear and totalHoursSaved is
    below the baseline handling and QA hours together. *)
Theorem X9_banded_savings_within_baseline :
  forall a : Banded.Answers,
    let x := Banded.locals (num:=B64.float) a in
    (Banded.l_baselineHandlingCost x > Banded.l_savingsAht x)%js = true
    /\ (Banded.l_baselineHandlingCost x > Banded.l_savingsDeflection x)%js = true
    /\ (Banded.l_baselineQaCost x > Banded.l_savingsQa x)%js = true
    /\ (Banded.l_contactsPerYear x > Banded.l_contactsAvoidedPerYear x)%js = true
    /\ (Banded.l_baselineHandlingHours x + Banded.l_baselineQaHours x
        > Banded.l_totalHoursSaved x)%js = true.
Proof.
  intros a; cbv zeta.
  pose proof (BandedOrderFacts.banded_every_spec BandedOrder.within_baseline
                BandedOrderFacts.banded_within_ok a) as H.
  cbv beta zeta delta [BandedOrder.within_baseline] in H.
  apply andb_prop in H; destruct H as [H H5].
  apply andb_prop in H; destruct H as [H H4].
  apply andb_prop in H; destruct H as [H H3].
  apply andb_prop in H; destruct H as [H1 H2].
  split; [exact H1 | ]. split; [exact H2 | ]. split; [exact H3 | ].
  split; [exact H4 | exact H5].
Qed.

(** X10: for every answer record of the 7-step wizard, the total benefit
    is at least the total benefit of the same answers with revenue left
    out, and it is strictly larger exactly when revenueProtected is above
    zero. *)
Theorem X10_banded_revenue_only_adds :
  forall a : Banded.Answers,
    let x := Banded.results (num:=B64.float) a in
    let y := Banded.results (num:=B64.float) (BandedOrder.without_revenue a) in
    (Banded.totalAnnualBenefit y <= Banded.totalAnnualBenefit x)%js = true
    /\ (Banded.totalAnnualBenefit x > Banded.totalAnnualBenefit y)%js
       = (Banded.revenueProtected x > int 0)%js.
Proof.
  intros a; cbv zeta.
  pose proof (BandedOrderFacts.banded_every_spec BandedOrder.revenue_adds
                BandedOrderFacts.banded_revenue_ok a) as H.
  cbv beta zeta delta [BandedOrder.revenue_adds] in H.
  apply andb_prop in H; destruct H as [H1 H2].
  split; [exact H1 | exact (eqb_prop _ _ H2)].
Qed.

(** X11: whatever digits the host prints, the result panel of the 7-step
    wizard never shows the placeholder "-": for every answer record the
    eight currency cells and the ROI cell differ from "-", the four
    number cells are the host's digits, and the payback cell is the
    host's digits followed by " months". *)
Theorem X11_banded_panel_has_no_placeholder :
  forall (toLocaleString : B64.float -> string) (toFixed : nat -> B64.float -> string)
         (a : Banded.Answers),
    let r := Banded.results (num:=B64.float) a in
    Forall (fun v => Format.formatCurrency toLocaleString v None <> "-"%string)
      [Banded.totalAnnualBenefit r; Banded.netGain r; Banded.edgetierAnnualCost r;
       Banded.savingsAht r; Banded.savingsQa r; Banded.savingsDeflection r;
       Banded.revenueProtected r; Banded.costPerContactBaseline r]
    /\ Format.formatPercent toFixed (Banded.roiPct r) <> "-"%string
    /\ Forall (fun v => Format.formatNumber toLocaleString v = toLocaleString v)
         [Banded.totalHoursSaved r; Banded.numAgents r; Banded.contactsPerYear r;
          Banded.contactsAvoidedPerYear r]
    /\ Format.paybackCell toFixed (Banded.paybackMonths r)
       = (toFixed 1%nat (Banded.paybackMonths r) ++ " months")%string.
Proof.
  intros tls tf a; cbv zeta.
  destruct (banded_healthy a) as [Hf Hs].
  exact (panel_without_placeholder tls tf _ Hf (banded_payback_positive _ Hs)).
Qed.

(* ================================================================== *)
(** * The richer wizard with the region table as cost source *)

Module RicherOrderFacts.
Import Richer RicherSweep RicherOrder RicherFacts.
Local Open Scope js_scope.

Lemma richer_level_complete l : In l all_ComplexityLevel.
Proof. destruct l; simpl; tauto. Qed.

Lemma richer_every_side_spec (P : Side -> bool) :
  every_side P = true -> forall p, P p = true.
Proof.
  intros H [t g v l m pa pq pd]. unfold every_side in H.
  pose proof (@forallb_complete _ _ _ richer_team_complete H t) as H1; cbv beta in H1.
  pose proof (@forallb_complete _ _ _ richer_region_complete H1 g) as H2; cbv beta in H2.
  pose proof (@forallb_complete _ _ _ richer_volume_complete H2 v) as H3; cbv beta in H3.
  pose proof (@forallb_complete _ _ _ richer_level_complete H3 l) as H4; cbv beta in H4.
  pose proof (@forallb_complete _ _ _ richer_ai_complete H4 m) as H5; cbv beta in H5.
  pose proof (@forallb_complete _ _ _ all_bool_complete H5 pa) as H6; cbv beta in H6.
  pose proof (@forallb_complete _ _ _ all_bool_complete H6 pq) as H7; cbv beta in H7.
  pose proof (@forallb_complete _ _ _ all_bool_complete H7 pd) as H8; cbv beta in H8.
  exact H8.
Qed.

(** The pass over the 9600 sides and the sides one raise above each. *)
Lemma richer_ups_ok : every_side up_check = true.
Proof. vm_cast_no_check (eq_refl true). Qed.

(** A raise of the answers is a raise of their sides; it leaves the
    revenue term and the cost source as they are. *)
Lemma richer_raised_side (a b : Answers B64.float) :
  raised a b ->
  In (side_of b) (ups (side_of a))
  /\ l_revenueProtected (locals b) = l_revenueProtected (locals a)
  /\ table_cost b = table_cost a.
Proof.
  intros R. destruct R as [a t H | a g H | a v H | a l H | a m H | a H | a H | a H].
  - split; [ | split; destruct a; reflexivity].
    unfold ups. apply in_or_app; left.
    apply in_map_iff. exists t. split; [reflexivity | ].
    apply filter_In. split; [apply richer_team_complete | now apply Z.ltb_lt].
  - split; [ | split; destruct a; reflexivity].
    unfold ups. apply in_or_app; right. apply in_or_app; left.
    apply in_map_iff. exists g. split; [reflexivity | ].
    apply filter_In. split; [apply richer_region_complete | now apply Z.ltb_lt].
  - split; [ | split; destruct a; reflexivity].
    unfold ups. do 2 (apply in_or_app; right). apply in_or_app; left.
    apply in_map_iff. exists v. split; [reflexivity | ].
    apply filter_In. split; [apply richer_volume_complete | now apply Z.ltb_lt].
  - split; [ | split; destruct a; reflexivity].
    unfold ups. do 3 (apply in_or_app; right). apply in_or_app; left.
    apply in_map_iff. exists l. split; [reflexivity | ].
    apply filter_In. split; [apply richer_level_complete | now apply Z.ltb_lt].
  - split; [ | split; destruct a; reflexivity].
    unfold ups. do 4 (apply in_or_app; right). apply in_or_app; left.
    apply in_map_iff. exists m. split; [reflexivity | ].
    apply filter_In. split; [apply richer_ai_complete | now apply Z.ltb_lt].
  - split; [ | split; destruct a; reflexivity].
    unfold ups. do 5 (apply in_or_app; right). apply in_or_app; left.
    change (s_aht (side_of a)) with (priorityAht a). rewrite H. now left.
  - split; [ | split; destruct a; reflexivity].
    unfold ups. do 6 (apply in_or_app; right). apply in_or_app; left.
    change (s_qa (side_of a)) with (priorityQa a). rewrite H. now left.
  - split; [ | split; destruct a; reflexivity].
    unfold ups. do 7 (apply in_or_app; right).
    change (s_deflection (side_of a)) with (priorityDeflection a). rewrite H. now left.
Qed.

Lemma richer_raises_spec (x y : Locals B64.float) :
  raises x y = true ->
  (l_savingsAht x <= l_savingsAht y) = true
  /\ (l_savingsQa x <= l_savingsQa y) = true
  /\ (l_savingsDeflection x <= l_savingsDeflection y) = true
  /\ (l_totalHoursSaved x <= l_totalHoursSaved y) = true
  /\ forall r, In r revenue_values -> (total_with y r > total_with x r) = true.
Proof.
  unfold raises. intros H.
  apply andb_prop in H; destruct H as [H Hr].
  apply andb_prop in H; destruct H as [H Hh].
  apply andb_prop in H; destruct H as [H Hd].
  apply andb_prop in H; destruct H as [Ha Hq].
  repeat (split; [assumption | ]).
  intros r Hin. exact (proj1 (forallb_forall _ _) Hr r Hin).
Qed.

(** With the region table as the cost source, the hours saved of a
    record are those of its side. *)
Lemma richer_side_hours (a : Answers B64.float) :
  table_cost a = true ->
  l_totalHoursSaved (locals a) = l_totalHoursSaved (locals (of_side (side_of a))).
Proof.
  destruct a as [t cm kc r v c ai pa pq pd cx rb ri skip rs im cc].
  unfold table_cost; cbn [costMode knownCostPerAgent]. intros Htab.
  assert (Hcost : l_annualCostPerAgent
                    (locals (Build_Answers t cm kc r v c ai pa pq pd cx rb ri skip rs im cc))
                  = REGION_COST_MAP r).
  { cbv beta iota zeta delta [locals l_annualCostPerAgent costMode
      knownCostPerAgent regionBand].
    apply negb_true_iff in Htab. rewrite Htab. reflexivity. }
  reflexivity.
Qed.

Lemma richer_raised_raises (a b : Answers B64.float) :
  raised a b ->
  raises (locals (of_side (side_of a))) (locals (of_side (side_of b))) = true.
Proof.
  intros R. destruct (richer_raised_side R) as [Hin _].
  pose proof (richer_every_side_spec up_check richer_ups_ok (side_of a)) as H.
  cbv beta zeta delta [up_check] in H.
  exact (proj1 (forallb_forall _ _) H (side_of b) Hin).
Qed.

End RicherOrderFacts.

(** X12 (richer wizard, cost per agent from the region table): one raise
    of the answers (a larger team, a costlier region, more contacts, a
    more complex mix, less automation today or one more priority ticked)
    strictly increases the total annual benefit, and lowers none of the
    three savings nor the hours saved. *)
Theorem X12_richer_raise_increases_benefit (a b : Richer.Answers B64.float) :
  RicherOrder.raised a b ->
  RicherSweep.table_cost a = true ->
  let x := Richer.results a in
  let y := Richer.results b in
  (Richer.totalAnnualBenefit y > Richer.totalAnnualBenefit x)%js = true
  /\ (Richer.savingsAht x <= Richer.savingsAht y)%js = true
  /\ (Richer.savingsQa x <= Richer.savingsQa y)%js = true
  /\ (Richer.savingsDeflection x <= Richer.savingsDeflection y)%js = true
  /\ (Richer.totalHoursSaved x <= Richer.totalHoursSaved y)%js = true.
Proof.
  intros R Ha. cbv zeta.
  change (Richer.totalAnnualBenefit (Richer.results b))
    with (Richer.l_totalAnnualBenefit (Richer.locals b)).
  change (Richer.totalAnnualBenefit (Richer.results a))
    with (Richer.l_totalAnnualBenefit (Richer.locals a)).
  change (Richer.savingsAht (Richer.results b))
    with (Richer.l_savingsAht (Richer.locals b)).
  change (Richer.savingsAht (Richer.results a))
    with (Richer.l_savingsAht (Richer.locals a)).
  change (Richer.savingsQa (Richer.results b))
    with (Richer.l_savingsQa (Richer.locals b)).
  change (Richer.savingsQa (Richer.results a))
    with (Richer.l_savingsQa (Richer.locals a)).
  change (Richer.savingsDeflection (Richer.results b))
    with (Richer.l_savingsDeflection (Richer.locals b)).
  change (Richer.savingsDeflection (Richer.results a))
    with (Richer.l_savingsDeflection (Richer.locals a)).
  change (Richer.totalHoursSaved (Richer.results b))
    with (Richer.l_totalHoursSaved (Richer.locals b)).
  change (Richer.totalHoursSaved (Richer.results a))
    with (Richer.l_totalHoursSaved (Richer.locals a)).
  destruct (RicherOrderFacts.richer_raised_side R) as (_ & Hrev & Htab).
  assert (Hb : RicherSweep.table_cost b = true) by (rewrite Htab; exact Ha).
  destruct (RicherFacts.richer_cost_side_fields a Ha) as (_ & _ & A3 & A4 & A5 & A6).
  destruct (RicherFacts.richer_cost_side_fields b Hb) as (_ & _ & B3 & B4 & B5 & B6).
  pose proof (RicherOrderFacts.richer_side_hours a Ha) as A7.
  pose proof (RicherOrderFacts.richer_side_hours b Hb) as B7.
  cbv zeta in A3, A4, A5, A6, B3, B4, B5, B6.
  rewrite Hrev in B6.
  rewrite A3, A4, A5, A6, A7, B3, B4, B5, B6, B7.
  destruct (RicherOrderFacts.richer_raises_spec _ _
              (RicherOrderFacts.richer_raised_raises R))
    as (S1 & S2 & S3 & S4 & S5).
  split; [exact (S5 _ (RicherFacts.richer_revenue_in_values a)) | ].
  split; [exact S1 | ]. split; [exact S2 | ]. split; [exact S3 | exact S4].
Qed.

Lemma X12_richer_raise_increases_benefit_witness :
  let a := richer_initial in
  let b := RicherOrder.with_teamSizeBand Richer.T_250_plus a in
  (Richer.totalAnnualBenefit (Richer.results b)
   > Richer.totalAnnualBenefit (Richer.results a))%js = true.
Proof.
  cbv zeta.
  refine (proj1 (@X12_richer_raise_increases_benefit richer_initial
     (RicherOrder.with_teamSizeBand Richer.T_250_plus richer_initial) _ _)).
  - apply RicherOrder.larger_team. reflexivity.
  - reflexivity.
Defined.

(* ================================================================== *)
(** * The richer wizard with the table cost and the estimated investment *)

Module RicherStandardFacts.
Import Richer RicherSweep RicherOrder RicherFacts.
Local Open Scope js_scope.

Lemma richer_scope_complete s : In s all_RolloutScope.
Proof. destruct s; simpl; tauto. Qed.

(** The pass over the 9600 sides, the three rollout scopes and the
    values of the revenue term. *)
Lemma richer_standard_ok : every_side standard_check = true.
Proof. vm_cast_no_check (eq_refl true). Qed.

Lemma richer_every_side_spec_std (p : Side) : standard_check p = true.
Proof.
  exact (RicherOrderFacts.richer_every_side_spec standard_check richer_standard_ok p).
Qed.

Lemma richer_revenue_values_ok : forallb revenue_ok revenue_values = true.
Proof. vm_cast_no_check (eq_refl true). Qed.

(** The last lines of the closure, for any record. *)
Lemma richer_closing_equations (a : Answers B64.float) :
  let x := locals a in
  let k := closing (l_totalAnnualBenefit x) (l_edgetierAnnualCost x) in
  l_netGain x = c_netGain k
  /\ l_roiPct x = c_roiPct k
  /\ l_paybackMonths x = c_paybackMonths k.
Proof.
  destruct a as [t cm kc r v c ai pa pq pd cx rb ri skip rs im cc]; cbv zeta.
  split; [reflexivity | split; reflexivity].
Qed.

(** With the estimated investment, the investment of a record is that
    of its side at the record's rollout scope. *)
Lemma richer_auto_cost (a : Answers B64.float) :
  investmentMode a = auto ->
  l_edgetierAnnualCost (locals a)
  = l_edgetierAnnualCost (locals (scoped (side_of a) (rolloutScope a))).
Proof.
  destruct a as [t cm kc r v c ai pa pq pd cx rb ri skip rs im cc].
  cbn [investmentMode]. intros ->. reflexivity.
Qed.

(** The fields of a record that do not depend on the cost per agent
    are those of its side. *)
Lemma richer_side_volumes (a : Answers B64.float) :
  let x := locals a in
  let y := locals (of_side (side_of a)) in
  l_numAgents x = l_numAgents y
  /\ l_contactsPerMonth x = l_contactsPerMonth y
  /\ l_contactsPerYear x = l_contactsPerYear y
  /\ l_ahtMins x = l_ahtMins y
  /\ l_contactsAvoidedPerYear x = l_contactsAvoidedPerYear y
  /\ l_baselineHandlingHours x = l_baselineHandlingHours y
  /\ l_baselineQaHours x = l_baselineQaHours y.
Proof.
  destruct a as [t cm kc r v c ai pa pq pd cx rb ri skip rs im cc]; cbv zeta.
  repeat (split; [reflexivity | ]). reflexivity.
Qed.

(** With the region table as the cost source, so are the cost per
    agent, the cost per contact and the QA cost. *)
Lemma richer_side_costs (a : Answers B64.float) :
  table_cost a = true ->
  let x := locals a in
  let y := locals (of_side (side_of a)) in
  l_annualCostPerAgent x = l_annualCostPerAgent y
  /\ l_costPerContactBaseline x = l_costPerContactBaseline y
  /\ l_baselineQaCost x = l_baselineQaCost y.
Proof.
  destruct a as [t cm kc r v c ai pa pq pd cx rb ri skip rs im cc].
  unfold table_cost; cbn [costMode knownCostPerAgent]. intros Htab.
  assert (Hcost : l_annualCostPerAgent
                    (locals (Build_Answers t cm kc r v c ai pa pq pd cx rb ri skip rs im cc))
                  = REGION_COST_MAP r).
  { cbv beta iota zeta delta [locals l_annualCostPerAgent costMode
      knownCostPerAgent regionBand].
    apply negb_true_iff in Htab. rewrite Htab. reflexivity. }
  cbv zeta.
  cbv beta iota zeta delta [locals l_annualCostPerAgent costMode
      knownCostPerAgent regionBand] in Hcost.
  cbv beta iota zeta delta [locals of_side side_of probe
    s_team s_region s_volume s_level s_ai s_aht s_qa s_deflection
    l_annualCostPerAgent l_costPerContactBaseline l_baselineQaCost
    teamSizeBand costMode knownCostPerAgent regionBand contactVolumeBand
    complexityLevel aiMaturity priorityAht priorityQa priorityDeflection
    priorityCx revenueBand revenueImpact skipRevenueImpact rolloutScope
    investmentMode customEdgetierCost].
  rewrite Hcost.
  split; [reflexivity | ]. split; reflexivity.
Qed.

Lemma richer_finite_spec (y : Locals B64.float) :
  side_finite y = true ->
  B64.is_finite (l_numAgents y) = true
  /\ B64.is_finite (l_annualCostPerAgent y) = true
  /\ B64.is_finite (l_contactsPerMonth y) = true
  /\ B64.is_finite (l_contactsPerYear y) = true
  /\ B64.is_finite (l_ahtMins y) = true
  /\ B64.is_finite (l_costPerContactBaseline y) = true
  /\ B64.is_finite (l_contactsAvoidedPerYear y) = true
  /\ B64.is_finite (l_savingsAht y) = true
  /\ B64.is_finite (l_savingsQa y) = true
  /\ B64.is_finite (l_savingsDeflection y) = true
  /\ B64.is_finite (l_totalHoursSaved y) = true.
Proof.
  unfold side_finite. intros H.
  apply andb_prop in H; destruct H as [H F11].
  apply andb_prop in H; destruct H as [H F10].
  apply andb_prop in H; destruct H as [H F9].
  apply andb_prop in H; destruct H as [H F8].
  apply andb_prop in H; destruct H as [H F7].
  apply andb_prop in H; destruct H as [H F6].
  apply andb_prop in H; destruct H as [H F5].
  apply andb_prop in H; destruct H as [H F4].
  apply andb_prop in H; destruct H as [H F3].
  apply andb_prop in H; destruct H as [F1 F2].
  split; [exact F1 | ]. split; [exact F2 | ]. split; [exact F3 | ].
  split; [exact F4 | ]. split; [exact F5 | ]. split; [exact F6 | ].
  split; [exact F7 | ]. split; [exact F8 | ]. split; [exact F9 | ].
  split; [exact F10 | exact F11].
Qed.

Lemma richer_signs_spec (y : Locals B64.float) :
  side_signs y = true ->
  (l_contactsPerYear y > int 0) = true
  /\ (l_costPerContactBaseline y > int 0) = true
  /\ (l_savingsAht y > int 0) = true
  /\ (l_totalHoursSaved y > int 0) = true
  /\ (int 0 <= l_savingsQa y) = true
  /\ (int 0 <= l_savingsDeflection y) = true
  /\ (int 0 <= l_contactsAvoidedPerYear y) = true.
Proof.
  unfold side_signs. intros H.
  apply andb_prop in H; destruct H as [H F7].
  apply andb_prop in H; destruct H as [H F6].
  apply andb_prop in H; destruct H as [H F5].
  apply andb_prop in H; destruct H as [H F4].
  apply andb_prop in H; destruct H as [H F3].
  apply andb_prop in H; destruct H as [F1 F2].
  split; [exact F1 | ]. split; [exact F2 | ]. split; [exact F3 | ].
  split; [exact F4 | ]. split; [exact F5 | ]. split; [exact F6 | exact F7].
Qed.

Lemma richer_within_spec (y : Locals B64.float) :
  side_within y = true ->
  (l_baselineHandlingCost y > l_savingsAht y) = true
  /\ (l_baselineHandlingCost y > l_savingsDeflection y) = true
  /\ (l_baselineQaCost y > l_savingsQa y) = true
  /\ (l_contactsPerYear y > l_contactsAvoidedPerYear y) = true
  /\ (l_baselineHandlingHours y + l_baselineQaHours y > l_totalHoursSaved y) = true.
Proof.
  unfold side_within. intros H.
  apply andb_prop in H; destruct H as [H F5].
  apply andb_prop in H; destruct H as [H F4].
  apply andb_prop in H; destruct H as [H F3].
  apply andb_prop in H; destruct H as [F1 F2].
  split; [exact F1 | ]. split; [exact F2 | ]. split; [exact F3 | ].
  split; [exact F4 | exact F5].
Qed.

Lemma richer_closing_spec (total cost : B64.float) :
  closing_ok total cost = true ->
  let k := closing total cost in
  (B64.is_finite total = true
   /\ B64.is_finite (c_netGain k) = true
   /\ B64.is_finite (c_roiPct k) = true
   /\ B64.is_finite (c_paybackMonths k) = true)
  /\ ((total > int 0) = true /\ (c_paybackMonths k > int 0) = true)
  /\ ((int 12 > c_paybackMonths k) = (c_netGain k > int 0)
      /\ (c_roiPct k > int 0) = (c_netGain k > int 0)
      /\ (c_paybackMonths k > int 12) = (int 0 > c_netGain k)
      /\ (int 0 > c_roiPct k) = (int 0 > c_netGain k)).
Proof.
  intros H. cbv beta zeta delta [closing_ok] in H. cbv zeta.
  set (k := closing total cost) in *. clearbody k.
  apply andb_prop in H; destruct H as [H V4].
  apply andb_prop in H; destruct H as [H V3].
  apply andb_prop in H; destruct H as [H V2].
  apply andb_prop in H; destruct H as [H V1].
  apply andb_prop in H; destruct H as [H S2].
  apply andb_prop in H; destruct H as [H S1].
  apply andb_prop in H; destruct H as [H F4].
  apply andb_prop in H; destruct H as [H F3].
  apply andb_prop in H; destruct H as [F1 F2].
  split; [ | split].
  - split; [exact F1 | ]. split; [exact F2 | ]. split; [exact F3 | exact F4].
  - split; [exact S1 | exact S2].
  - split; [exact (eqb_prop _ _ V1) | ]. split; [exact (eqb_prop _ _ V2) | ].
    split; [exact (eqb_prop _ _ V3) | exact (eqb_prop _ _ V4)].
Qed.

Lemma richer_standard_spec (p : Side) :
  let y := locals (of_side p) in
  side_finite y = true /\ side_signs y = true /\ side_within y = true
  /\ forall s,
       let c := l_edgetierAnnualCost (locals (scoped p s)) in
       B64.is_finite c = true /\ (c > int 0) = true
       /\ forall r, In r revenue_values -> closing_ok (total_with y r) c = true.
Proof.
  pose proof (richer_every_side_spec_std p) as H.
  cbv beta zeta delta [standard_check] in H. cbv zeta.
  apply andb_prop in H; destruct H as [H Hs].
  apply andb_prop in H; destruct H as [H F3].
  apply andb_prop in H; destruct H as [F1 F2].
  split; [exact F1 | ]. split; [exact F2 | ]. split; [exact F3 | ].
  intros s.
  pose proof (proj1 (forallb_forall _ _) Hs s (richer_scope_complete s)) as Hc.
  cbv beta in Hc.
  apply andb_prop in Hc; destruct Hc as [Hc Hr].
  apply andb_prop in Hc; destruct Hc as [C1 C2].
  split; [exact C1 | ]. split; [exact C2 | ].
  intros r Hin. exact (proj1 (forallb_forall _ _) Hr r Hin).
Qed.

(** What the pass gives for the cost side of a record with the table
    cost. *)
Lemma richer_side_facts (a : Answers B64.float) :
  table_cost a = true ->
  let x := locals a in
  side_finite x = true /\ side_signs x = true /\ side_within x = true.
Proof.
  intros Htab; cbv zeta.
  destruct (richer_standard_spec (side_of a)) as (F1 & F2 & F3 & _).
  destruct (richer_cost_side_fields a Htab) as (E1 & _ & E3 & E4 & E5 & _).
  cbv zeta in E1, E3, E4, E5.
  change (locals (cost_side a (complexityLevel a)))
    with (locals (of_side (side_of a))) in E1, E3, E4, E5.
  pose proof (RicherOrderFacts.richer_side_hours a Htab) as E7.
  destruct (richer_side_volumes a) as (V1 & V2 & V3 & V4 & V5 & V6 & V7).
  destruct (richer_side_costs a Htab) as (W1 & W2 & W3).
  cbv zeta in V1, V2, V3, V4, V5, V6, V7, W1, W2, W3.
  split.
  { unfold side_finite in *.
    rewrite V1, W1, V2, V3, V4, W2, V5, E3, E4, E5, E7. exact F1. }
  split.
  { unfold side_signs in *.
    rewrite V3, W2, E3, E7, E4, E5, V5. exact F2. }
  unfold side_within in *.
  rewrite E1, E3, E5, W3, E4, V3, V5, V6, V7, E7. exact F3.
Qed.

(** What the pass gives for the closing figures of a record with the
    table cost and the estimated investment. *)
Lemma richer_closing_facts (a : Answers B64.float) :
  table_cost a = true ->
  investmentMode a = auto ->
  let x := locals a in
  revenue_ok (l_revenueProtected x) = true
  /\ B64.is_finite (l_edgetierAnnualCost x) = true
  /\ (l_edgetierAnnualCost x > int 0) = true
  /\ closing_ok (l_totalAnnualBenefit x) (l_edgetierAnnualCost x) = true.
Proof.
  intros Htab Hauto; cbv zeta.
  destruct (richer_standard_spec (side_of a)) as (_ & _ & _ & Hs).
  destruct (Hs (rolloutScope a)) as (C1 & C2 & Hr).
  pose proof (Hr _ (richer_revenue_in_values a)) as K.
  pose proof (proj1 (forallb_forall _ _) richer_revenue_values_ok _
                (richer_revenue_in_values a)) as R.
  destruct (richer_cost_side_fields a Htab) as (_ & _ & _ & _ & _ & E6).
  cbv zeta in E6.
  change (locals (cost_side a (complexityLevel a)))
    with (locals (of_side (side_of a))) in E6.
  pose proof (richer_auto_cost a Hauto) as EC.
  rewrite <- EC in C1, C2, K. rewrite <- E6 in K.
  split; [exact R | ]. split; [exact C1 | ]. split; [exact C2 | exact K].
Qed.

(** The closing figures of a record, read off its result. *)
Lemma richer_result_closing (a : Answers B64.float) :
  let r := results a in
  let k := closing (totalAnnualBenefit r) (edgetierAnnualCost r) in
  netGain r = c_netGain k /\ roiPct r = c_roiPct k
  /\ paybackMonths r = c_paybackMonths k.
Proof. exact (richer_closing_equations a). Qed.

End RicherStandardFacts.

(** X13 (richer wizard, cost per agent from the region table, investment
    estimated from the team size): each of the 17 fields of the result is
    a finite number; contactsPerYear, costPerContactBaseline, savingsAht,
    totalAnnualBenefit, totalHoursSaved, edgetierAnnualCost and
    paybackMonths are above zero, and savingsQa, savingsDeflection,
    revenueProtected and contactsAvoidedPerYear are not negative. *)
Theorem X13_richer_results_are_finite (a : Richer.Answers B64.float) :
  RicherSweep.table_cost a = true ->
  Richer.investmentMode a = Richer.auto ->
  let r := Richer.results a in
  Forall (fun v => B64.is_finite v = true)
    [Richer.numAgents r; Richer.annualCostPerAgent r; Richer.contactsPerMonth r;
     Richer.contactsPerYear r; Richer.ahtMins r; Richer.costPerContactBaseline r;
     Richer.contactsAvoidedPerYear r; Richer.savingsAht r; Richer.savingsQa r;
     Richer.savingsDeflection r; Richer.revenueProtected r;
     Richer.totalAnnualBenefit r; Richer.netGain r; Richer.roiPct r;
     Richer.totalHoursSaved r; Richer.paybackMonths r; Richer.edgetierAnnualCost r]
  /\ Forall (fun v => (v > int 0)%js = true)
       [Richer.contactsPerYear r; Richer.costPerContactBaseline r;
        Richer.savingsAht r; Richer.totalAnnualBenefit r;
        Richer.totalHoursSaved r; Richer.edgetierAnnualCost r;
        Richer.paybackMonths r]
  /\ Forall (fun v => (int 0 <= v)%js = true)
       [Richer.savingsQa r; Richer.savingsDeflection r;
        Richer.revenueProtected r; Richer.contactsAvoidedPerYear r].
Proof.
  intros Htab Hauto; cbv zeta.
  destruct (RicherStandardFacts.richer_side_facts a Htab) as (F & S & _).
  destruct (RicherStandardFacts.richer_closing_facts a Htab Hauto) as (R & C1 & C2 & K).
  destruct (RicherStandardFacts.richer_result_closing a) as (N1 & N2 & N3).
  cbv zeta in N1, N2, N3.
  apply RicherStandardFacts.richer_finite_spec in F.
  apply RicherStandardFacts.richer_signs_spec in S.
  apply RicherStandardFacts.richer_closing_spec in K. cbv zeta in K.
  destruct F as (F1 & F2 & F3 & F4 & F5 & F6 & F7 & F8 & F9 & F10 & F11).
  destruct S as (S1 & S2 & S3 & S4 & S5 & S6 & S7).
  destruct K as ((K1 & K2 & K3 & K4) & (K5 & K6) & _).
  unfold RicherOrder.revenue_ok in R.
  apply andb_prop in R; destruct R as [R1 R2].
  rewrite N1, N2, N3.
  split; [ | split].
  - repeat (apply Forall_cons; [pick | ]). apply Forall_nil.
  - repeat (apply Forall_cons; [pick | ]). apply Forall_nil.
  - repeat (apply Forall_cons; [pick | ]). apply Forall_nil.
Qed.

Lemma X13_richer_results_are_finite_witness :
  B64.is_finite (Richer.paybackMonths (Richer.results richer_initial)) = true.
Proof.
  pose proof (@X13_richer_results_are_finite richer_initial eq_refl eq_refl) as H.
  cbv zeta in H. destruct H as [H _].
  exact (proj1 (Forall_forall _ _) H _ ltac:(do 15 right; left; reflexivity)).
Defined.

(** X14 (richer wizard, cost per agent from the region table, investment
    estimated from the team size): the three verdicts of the result come
    together: paybackMonths is below 12 exactly when netGain is above
    zero, which is exactly when roiPct is above zero; and paybackMonths is
    above 12 exactly when netGain is negative, which is exactly when
    roiPct is negative. *)
Theorem X14_richer_verdicts_agree (a : Richer.Answers B64.float) :
  RicherSweep.table_cost a = true ->
  Richer.investmentMode a = Richer.auto ->
  let r := Richer.results a in
  (int 12 > Richer.paybackMonths r)%js = (Richer.netGain r > int 0)%js
  /\ (Richer.roiPct r > int 0)%js = (Richer.netGain r > int 0)%js
  /\ (Richer.paybackMonths r > int 12)%js = (int 0 > Richer.netGain r)%js
  /\ (int 0 > Richer.roiPct r)%js = (int 0 > Richer.netGain r)%js.
Proof.
  intros Htab Hauto; cbv zeta.
  destruct (RicherStandardFacts.richer_closing_facts a Htab Hauto) as (_ & _ & _ & K).
  destruct (RicherStandardFacts.richer_result_closing a) as (N1 & N2 & N3).
  cbv zeta in N1, N2, N3.
  apply RicherStandardFacts.richer_closing_spec in K. cbv zeta in K.
  destruct K as (_ & _ & K).
  rewrite N1, N2, N3. exact K.
Qed.

Lemma X14_richer_verdicts_agree_witness :
  let r := Richer.results richer_initial in
  (int 12 > Richer.paybackMonths r)%js = (Richer.netGain r > int 0)%js.
Proof.
  exact (proj1 (@X14_richer_verdicts_agree richer_initial eq_refl eq_refl)).
Defined.

(** X15 (richer wizard, cost per agent from the region table): each
    saving stays below what it is a share of: savingsAht and
    savingsDeflection are below baselineHandlingCost, savingsQa is below
    baselineQaCost, contactsAvoidedPerYear is below contactsPerYear and
    totalHoursSaved is below the baseline handling and QA hours
    together. *)
Theorem X15_richer_savings_within_baseline (a : Richer.Answers B64.float) :
  RicherSweep.table_cost a = true ->
  let x := Richer.locals a in
  (Richer.l_baselineHandlingCost x > Richer.l_savingsAht x)%js = true
  /\ (Richer.l_baselineHandlingCost x > Richer.l_savingsDeflection x)%js = true
  /\ (Richer.l_baselineQaCost x > Richer.l_savingsQa x)%js = true
  /\ (Richer.l_contactsPerYear x > Richer.l_contactsAvoidedPerYear x)%js = true
  /\ (Richer.l_baselineHandlingHours x + Richer.l_baselineQaHours x
      > Richer.l_totalHoursSaved x)%js = true.
Proof.
  intros Htab; cbv zeta.
  destruct (RicherStandardFacts.richer_side_facts a Htab) as (_ & _ & W).
  exact (RicherStandardFacts.richer_within_spec _ W).
Qed.

Lemma X15_richer_savings_within_baseline_witness :
  let x := Richer.locals richer_initial in
  (Richer.l_baselineHandlingCost x > Richer.l_savingsAht x)%js = true.
Proof.
  exact (proj1 (@X15_richer_savings_within_baseline richer_initial eq_refl)).
Defined.

(* ================================================================== *)
(** * The direct form: the number of agents *)

(** X18 (direct form, any arithmetic): the number of agents typed into
    the form enters no calculation: replacing it changes no local of the
    closure and no field of the result other than the echoed numAgents
    itself. *)
Theorem X18_direct_agents_enter_no_figure :
  forall (num : Type) (N : JsNumber num) (a : Direct.Answers num) (n : num),
    let r := Direct.results a in
    let r' := Direct.results (DirectUpdates.setNumAgents n a) in
    Direct.locals (DirectUpdates.setNumAgents n a) = Direct.locals a
    /\ Direct.r_numAgents r' = n
    /\ r' = {| Direct.r_numAgents := n;
               Direct.contactsPerYear := Direct.contactsPerYear r;
               Direct.costPerContactBaseline := Direct.costPerContactBaseline r;
               Direct.contactsAvoidedPerYear := Direct.contactsAvoidedPerYear r;
               Direct.savingsAht := Direct.savingsAht r;
               Direct.savingsQa := Direct.savingsQa r;
               Direct.savingsDeflection := Direct.savingsDeflection r;
               Direct.revenueProtected := Direct.revenueProtected r;
               Direct.totalAnnualBenefit := Direct.totalAnnualBenefit r;
               Direct.netGain := Direct.netGain r;
               Direct.roiPct := Direct.roiPct r;
               Direct.totalHoursSaved := Direct.totalHoursSaved r;
               Direct.paybackMonths := Direct.paybackMonths r |}.
Proof.
  intros num N a n; cbv zeta.
  destruct a as [n0 cpm aht cost ra rq rc cx ec rev].
  split; [reflexivity | split; reflexivity].
Qed.
